(** * DPPreMainMonitor: a shallow embedding of the pre-main timing monitor

    The C translation unit [Sources/Core/PreMain/DPPreMainMonitor.c] keeps
    three pieces of global state: the aggregate [g_preMainData], the fixed
    array [g_dylibLoadInfos] and the atomic write cursor [g_dylibIndex].
    Every C function becomes a Rocq function that takes the globals and
    returns the new globals; the values the operating system hands back
    (clock readings, [dladdr], [sysctl], [gettimeofday], [malloc]) are
    explicit arguments.  The mutex only serialises the calls, so the
    embedding is the sequential semantics of one call at a time.

    - [uint64_t] / [uint32_t] are [Z] with the wrap-around written out;
    - [double] is [spec_float] at precision 53, the IEEE binary64 format
      with round-to-nearest-even, so the conversions compute;
    - [char] buffers are [list ascii]; a [const char *] is the list of
      bytes it points to, read up to the first NUL (the end of the list
      counts as the terminator). *)

From Stdlib Require Import ZArith Lia Ascii String.
From Stdlib Require Import Floats.SpecFloat.
From stdpp Require Import base numbers list sorting.

Local Open Scope Z_scope.

(** ** Machine integers *)

Definition UINT64_MOD : Z := 2 ^ 64.
Definition UINT32_MOD : Z := 2 ^ 32.

Definition u64 (x : Z) : Z := x mod UINT64_MOD.
Definition u32 (x : Z) : Z := x mod UINT32_MOD.

(** ** IEEE binary64 *)

Definition double : Type := spec_float.

Definition double_zero : double := S754_zero false.

(** [(double)n] for an unsigned integer [n]. *)
Definition double_of_Z (n : Z) : double := binary_normalize 53 1024 n 0 false.

Definition double_sub : double -> double -> double := SFsub 53 1024.
Definition double_add : double -> double -> double := SFadd 53 1024.
Definition double_div : double -> double -> double := SFdiv 53 1024.
Definition double_ltb : double -> double -> bool := SFltb.
Definition double_eqb : double -> double -> bool := SFeqb.

(** ** Data structures of [DPPreMainMonitor.h] *)

Definition DP_MAX_DYLIB_NAME_LENGTH : nat := 256.

Definition NUL : ascii := "000"%char.

Record DPDylibLoadInfo : Type := mkDylibLoadInfo {
  name : list ascii;
  loadMachTime : Z;
  loadDurationNanos : Z;
  isSystemLibrary : bool;
  slide : Z
}.

Record DPPreMainTimestamps : Type := mkTimestamps {
  processStartTimeUnixMicros : Z;
  constructorMachTime : Z;
  firstDyldCallbackMachTime : Z;
  lastDyldCallbackMachTime : Z;
  mainExecutedMachTime : Z;
  objcLoadStartMachTime : Z;
  objcLoadEndMachTime : Z
}.

Record DPPreMainDurations : Type := mkDurations {
  totalPreMainMs : double;
  dylibLoadingMs : double;
  objcLoadMs : double;
  staticInitializerMs : double;
  postDyldToMainMs : double;
  estimatedKernelToConstructorMs : double
}.

Record DPPreMainData : Type := mkData {
  timestamps : DPPreMainTimestamps;
  durations : DPPreMainDurations;
  dylibCount : Z;
  systemDylibCount : Z;
  userDylibCount : Z;
  mainExecutedMarked : bool;
  dylibDetailEnabled : bool;
  timebaseNumer : Z;
  timebaseDenom : Z
}.

(** The file-scope variables. *)
Record globals : Type := mkGlobals {
  g_preMainData : DPPreMainData;
  g_dylibLoadInfos : list DPDylibLoadInfo;
  g_dylibIndex : Z;
  g_initialized : bool
}.

(** *** Field updates *)

Definition set_processStart (v : Z) (t : DPPreMainTimestamps) :=
  mkTimestamps v (constructorMachTime t) (firstDyldCallbackMachTime t)
    (lastDyldCallbackMachTime t) (mainExecutedMachTime t)
    (objcLoadStartMachTime t) (objcLoadEndMachTime t).
Definition set_constructor (v : Z) (t : DPPreMainTimestamps) :=
  mkTimestamps (processStartTimeUnixMicros t) v (firstDyldCallbackMachTime t)
    (lastDyldCallbackMachTime t) (mainExecutedMachTime t)
    (objcLoadStartMachTime t) (objcLoadEndMachTime t).
Definition set_firstDyld (v : Z) (t : DPPreMainTimestamps) :=
  mkTimestamps (processStartTimeUnixMicros t) (constructorMachTime t) v
    (lastDyldCallbackMachTime t) (mainExecutedMachTime t)
    (objcLoadStartMachTime t) (objcLoadEndMachTime t).
Definition set_lastDyld (v : Z) (t : DPPreMainTimestamps) :=
  mkTimestamps (processStartTimeUnixMicros t) (constructorMachTime t)
    (firstDyldCallbackMachTime t) v (mainExecutedMachTime t)
    (objcLoadStartMachTime t) (objcLoadEndMachTime t).
Definition set_mainExecuted (v : Z) (t : DPPreMainTimestamps) :=
  mkTimestamps (processStartTimeUnixMicros t) (constructorMachTime t)
    (firstDyldCallbackMachTime t) (lastDyldCallbackMachTime t) v
    (objcLoadStartMachTime t) (objcLoadEndMachTime t).
Definition set_objcLoadStart (v : Z) (t : DPPreMainTimestamps) :=
  mkTimestamps (processStartTimeUnixMicros t) (constructorMachTime t)
    (firstDyldCallbackMachTime t) (lastDyldCallbackMachTime t)
    (mainExecutedMachTime t) v (objcLoadEndMachTime t).
Definition set_objcLoadEnd (v : Z) (t : DPPreMainTimestamps) :=
  mkTimestamps (processStartTimeUnixMicros t) (constructorMachTime t)
    (firstDyldCallbackMachTime t) (lastDyldCallbackMachTime t)
    (mainExecutedMachTime t) (objcLoadStartMachTime t) v.

Definition set_totalPreMainMs (v : double) (r : DPPreMainDurations) :=
  mkDurations v (dylibLoadingMs r) (objcLoadMs r) (staticInitializerMs r)
    (postDyldToMainMs r) (estimatedKernelToConstructorMs r).
Definition set_dylibLoadingMs (v : double) (r : DPPreMainDurations) :=
  mkDurations (totalPreMainMs r) v (objcLoadMs r) (staticInitializerMs r)
    (postDyldToMainMs r) (estimatedKernelToConstructorMs r).
Definition set_objcLoadMs (v : double) (r : DPPreMainDurations) :=
  mkDurations (totalPreMainMs r) (dylibLoadingMs r) v (staticInitializerMs r)
    (postDyldToMainMs r) (estimatedKernelToConstructorMs r).
Definition set_staticInitializerMs (v : double) (r : DPPreMainDurations) :=
  mkDurations (totalPreMainMs r) (dylibLoadingMs r) (objcLoadMs r) v
    (postDyldToMainMs r) (estimatedKernelToConstructorMs r).
Definition set_postDyldToMainMs (v : double) (r : DPPreMainDurations) :=
  mkDurations (totalPreMainMs r) (dylibLoadingMs r) (objcLoadMs r)
    (staticInitializerMs r) v (estimatedKernelToConstructorMs r).
Definition set_estimatedKernel (v : double) (r : DPPreMainDurations) :=
  mkDurations (totalPreMainMs r) (dylibLoadingMs r) (objcLoadMs r)
    (staticInitializerMs r) (postDyldToMainMs r) v.

Definition with_timestamps (f : DPPreMainTimestamps -> DPPreMainTimestamps)
    (d : DPPreMainData) :=
  mkData (f (timestamps d)) (durations d) (dylibCount d) (systemDylibCount d)
    (userDylibCount d) (mainExecutedMarked d) (dylibDetailEnabled d)
    (timebaseNumer d) (timebaseDenom d).
Definition with_durations (f : DPPreMainDurations -> DPPreMainDurations)
    (d : DPPreMainData) :=
  mkData (timestamps d) (f (durations d)) (dylibCount d) (systemDylibCount d)
    (userDylibCount d) (mainExecutedMarked d) (dylibDetailEnabled d)
    (timebaseNumer d) (timebaseDenom d).
Definition set_dylibCount (v : Z) (d : DPPreMainData) :=
  mkData (timestamps d) (durations d) v (systemDylibCount d)
    (userDylibCount d) (mainExecutedMarked d) (dylibDetailEnabled d)
    (timebaseNumer d) (timebaseDenom d).
Definition set_systemDylibCount (v : Z) (d : DPPreMainData) :=
  mkData (timestamps d) (durations d) (dylibCount d) v
    (userDylibCount d) (mainExecutedMarked d) (dylibDetailEnabled d)
    (timebaseNumer d) (timebaseDenom d).
Definition set_userDylibCount (v : Z) (d : DPPreMainData) :=
  mkData (timestamps d) (durations d) (dylibCount d) (systemDylibCount d)
    v (mainExecutedMarked d) (dylibDetailEnabled d)
    (timebaseNumer d) (timebaseDenom d).
Definition set_mainExecutedMarked (v : bool) (d : DPPreMainData) :=
  mkData (timestamps d) (durations d) (dylibCount d) (systemDylibCount d)
    (userDylibCount d) v (dylibDetailEnabled d)
    (timebaseNumer d) (timebaseDenom d).
Definition set_dylibDetailEnabled (v : bool) (d : DPPreMainData) :=
  mkData (timestamps d) (durations d) (dylibCount d) (systemDylibCount d)
    (userDylibCount d) (mainExecutedMarked d) v
    (timebaseNumer d) (timebaseDenom d).
Definition set_timebase (n m : Z) (d : DPPreMainData) :=
  mkData (timestamps d) (durations d) (dylibCount d) (systemDylibCount d)
    (userDylibCount d) (mainExecutedMarked d) (dylibDetailEnabled d) n m.

Definition with_data (f : DPPreMainData -> DPPreMainData) (g : globals) :=
  mkGlobals (f (g_preMainData g)) (g_dylibLoadInfos g) (g_dylibIndex g)
    (g_initialized g).
Definition set_infos (l : list DPDylibLoadInfo) (g : globals) :=
  mkGlobals (g_preMainData g) l (g_dylibIndex g) (g_initialized g).
Definition set_index (i : Z) (g : globals) :=
  mkGlobals (g_preMainData g) (g_dylibLoadInfos g) i (g_initialized g).
Definition set_initialized (b : bool) (g : globals) :=
  mkGlobals (g_preMainData g) (g_dylibLoadInfos g) (g_dylibIndex g) b.

(** *** The all-zero objects ([= {0}] and [memset]) *)

Definition zero_timestamps : DPPreMainTimestamps := mkTimestamps 0 0 0 0 0 0 0.
Definition zero_durations : DPPreMainDurations :=
  mkDurations double_zero double_zero double_zero double_zero double_zero
    double_zero.
Definition zero_data : DPPreMainData :=
  mkData zero_timestamps zero_durations 0 0 0 false false 0 0.
Definition zero_info : DPDylibLoadInfo :=
  mkDylibLoadInfo (replicate DP_MAX_DYLIB_NAME_LENGTH NUL) 0 0 false 0.

(** ** The C string functions used by the monitor *)

Definition is_nul (c : ascii) : bool := Ascii.eqb c NUL.

Fixpoint strlen (s : list ascii) : nat :=
  match s with
  | [] => O
  | c :: r => if is_nul c then O else S (strlen r)
  end.

(** The characters of the string a pointer denotes. *)
Definition c_str (s : list ascii) : list ascii := take (strlen s) s.

(** [strrchr s c]: the tail of [s] that starts at the last [c] before the
    terminator, [None] for a null result. *)
Fixpoint strrchr (s : list ascii) (c : ascii) : option (list ascii) :=
  match s with
  | [] => if is_nul c then Some [] else None
  | x :: r =>
      if is_nul x then (if is_nul c then Some s else None)
      else match strrchr r c with
           | Some p => Some p
           | None => if Ascii.eqb x c then Some s else None
           end
  end.

Definition char_at (s : list ascii) : ascii := hd NUL s.

(** [strncmp a b n]; the sign is what the standard fixes, the magnitude is
    the usual difference of the two bytes read as [unsigned char]. *)
Fixpoint strncmp (a b : list ascii) (n : nat) : Z :=
  match n with
  | O => 0
  | S n' =>
      let x := char_at a in
      let y := char_at b in
      if negb (Ascii.eqb x y)
      then Z.of_nat (nat_of_ascii x) - Z.of_nat (nat_of_ascii y)
      else if is_nul x then 0
      else strncmp (tl a) (tl b) n'
  end.

(** The [n] bytes [strncpy] writes: the source up to its terminator, then
    NUL padding. *)
Fixpoint strncpy_bytes (src : list ascii) (n : nat) : list ascii :=
  match n with
  | O => []
  | S n' =>
      match src with
      | [] => NUL :: strncpy_bytes [] n'
      | c :: r =>
          if is_nul c then NUL :: strncpy_bytes [] n'
          else c :: strncpy_bytes r n'
      end
  end.

(** [strncpy(dst, src, n)] on a destination of at least [n] bytes. *)
Definition strncpy (dst src : list ascii) (n : nat) : list ascii :=
  strncpy_bytes src n ++ drop n dst.

(** [memcpy(dst, src, n * sizeof(T))] on arrays of [T]. *)
Definition memcpy {T : Type} (dst src : list T) (n : nat) : list T :=
  take n src ++ drop n dst.

Definition cstring (s : string) : list ascii := list_ascii_of_string s.

(** ** Path handling *)

Definition dp_extract_filename (path : option (list ascii)) : list ascii :=
  match path with
  | None => cstring "unknown"
  | Some p =>
      match strrchr p "/"%char with
      | Some lastSlash => tl lastSlash
      | None => p
      end
  end.

Definition systemPrefixes : list (list ascii) :=
  [ cstring "/usr/lib/";
    cstring "/System/";
    cstring "/Library/Apple/";
    cstring "/private/var/db/dyld/";
    cstring "/AppleInternal/" ].

Fixpoint dp_is_system_library_loop (path : list ascii)
    (prefixes : list (list ascii)) : bool :=
  match prefixes with
  | [] => false
  | p :: rest =>
      if strncmp path p (strlen p) =? 0 then true
      else dp_is_system_library_loop path rest
  end.

Definition dp_is_system_library (path : option (list ascii)) : bool :=
  match path with
  | None => false
  | Some p => dp_is_system_library_loop p systemPrefixes
  end.

(** ** The monitor *)

Section Monitor.

(** [DP_MAX_DYLIB_COUNT], the length of [g_dylibLoadInfos]; the header
    fixes it at 512 (see [DP_MAX_DYLIB_COUNT_header] below). *)
Variable DP_MAX_DYLIB_COUNT : Z.

(** What [mach_timebase_info] reports on this machine. *)
Variable os_numer os_denom : Z.

(** *** Time conversion *)

Definition dp_initialize_timebase (d : DPPreMainData) : DPPreMainData :=
  set_timebase os_numer os_denom d.

(** [machTime * numer / denom] in [uint64_t] arithmetic.  A zero
    denominator after the lazy initialisation is a division by zero
    in C; the quotient is then meaningless here as well. *)
Definition DPMachTimeToNanos (machTime : Z) (d : DPPreMainData)
    : Z * DPPreMainData :=
  let d1 := if timebaseDenom d =? 0 then dp_initialize_timebase d else d in
  (u64 (machTime * timebaseNumer d1) / timebaseDenom d1, d1).

Definition nanos_to_millis (nanos : Z) : double :=
  double_div (double_of_Z nanos) (double_of_Z 1000000).

Definition DPMachTimeToMillis (machTime : Z) (d : DPPreMainData)
    : double * DPPreMainData :=
  let '(nanos, d1) := DPMachTimeToNanos machTime d in
  (nanos_to_millis nanos, d1).

(** *** Process start time

    [sysctl_result] is [None] when [sysctl] fails, otherwise the
    [tv_sec] and [tv_usec] of [kp_proc.p_starttime]. *)
Definition timeval_micros (tv : Z * Z) : Z :=
  u64 (u64 (u64 (fst tv) * 1000000) + u64 (snd tv)).

Definition dp_get_process_start_time_unix_micros
    (sysctl_result : option (Z * Z)) : Z :=
  match sysctl_result with
  | None => 0
  | Some startTime => timeval_micros startTime
  end.

(** *** The dyld callback

    [currentMachTime] is the reading of [mach_absolute_time];
    [imagePath] is [Some p] when [dladdr] succeeds with a non-null
    [dli_fname], [None] otherwise. *)

Definition record_callback_time (currentMachTime : Z)
    (t : DPPreMainTimestamps) : DPPreMainTimestamps :=
  let t1 := if firstDyldCallbackMachTime t =? 0
            then set_firstDyld currentMachTime t else t in
  set_lastDyld currentMachTime t1.

Definition fill_name (imagePath : option (list ascii))
    (old : list ascii) : list ascii :=
  match imagePath with
  | Some p =>
      let filename := dp_extract_filename (Some p) in
      <[ Nat.pred DP_MAX_DYLIB_NAME_LENGTH := NUL ]>
        (strncpy old filename (Nat.pred DP_MAX_DYLIB_NAME_LENGTH))
  | None =>
      strncpy old (cstring "unknown") (Nat.pred DP_MAX_DYLIB_NAME_LENGTH)
  end.

Definition fill_is_system (imagePath : option (list ascii)) : bool :=
  match imagePath with
  | Some p => dp_is_system_library (Some p)
  | None => false
  end.

Definition dp_dyld_image_added_callback (currentMachTime : Z)
    (imagePath : option (list ascii)) (slide_ : Z) (g : globals)
    : globals :=
  let g1 := with_data (with_timestamps
              (record_callback_time currentMachTime)) g in
  if negb (dylibDetailEnabled (g_preMainData g1)) then
    set_index (u32 (g_dylibIndex g1 + 1)) g1
  else
    let index := g_dylibIndex g1 in
    let g2 := set_index (u32 (index + 1)) g1 in
    if index >=? DP_MAX_DYLIB_COUNT then g2
    else
      let old := default zero_info
                   (g_dylibLoadInfos g2 !! Z.to_nat index) in
      let '(nanos, d3) :=
        if constructorMachTime (timestamps (g_preMainData g2)) >? 0 then
          let elapsed :=
            u64 (currentMachTime
                 - constructorMachTime (timestamps (g_preMainData g2))) in
          DPMachTimeToNanos elapsed (g_preMainData g2)
        else (0, g_preMainData g2) in
      let dylibInfo :=
        mkDylibLoadInfo (fill_name imagePath (name old)) currentMachTime
          nanos (fill_is_system imagePath) slide_ in
      let d4 := set_dylibCount (u32 (index + 1)) d3 in
      let d5 :=
        if isSystemLibrary dylibInfo
        then set_systemDylibCount (u32 (systemDylibCount d4 + 1)) d4
        else set_userDylibCount (u32 (userDylibCount d4 + 1)) d4 in
      mkGlobals d5
        (<[ Z.to_nat index := dylibInfo ]> (g_dylibLoadInfos g2))
        (g_dylibIndex g2) (g_initialized g2).

(** *** Durations

    [now_tv] and [machNow] are the readings of [gettimeofday] and of
    [mach_absolute_time] taken for the kernel estimate. *)

Definition calc_total (d : DPPreMainData) : DPPreMainData :=
  let ts := timestamps d in
  if constructorMachTime ts >? 0 then
    let totalMachTime :=
      u64 (mainExecutedMachTime ts - constructorMachTime ts) in
    let '(ms, d1) := DPMachTimeToMillis totalMachTime d in
    with_durations (set_totalPreMainMs ms) d1
  else d.

Definition calc_dylib (d : DPPreMainData) : DPPreMainData :=
  let ts := timestamps d in
  if (firstDyldCallbackMachTime ts >? 0)
     && (lastDyldCallbackMachTime ts >? 0) then
    let dylibMachTime :=
      u64 (lastDyldCallbackMachTime ts - firstDyldCallbackMachTime ts) in
    let '(ms, d1) := DPMachTimeToMillis dylibMachTime d in
    with_durations (set_dylibLoadingMs ms) d1
  else d.

Definition calc_objc (d : DPPreMainData) : DPPreMainData :=
  let ts := timestamps d in
  if (objcLoadStartMachTime ts >? 0) && (objcLoadEndMachTime ts >? 0) then
    let objcLoadMachTime :=
      u64 (objcLoadEndMachTime ts - objcLoadStartMachTime ts) in
    let '(ms, d1) := DPMachTimeToMillis objcLoadMachTime d in
    with_durations (set_objcLoadMs ms) d1
  else d.

Definition calc_static (d : DPPreMainData) : DPPreMainData :=
  let ts := timestamps d in
  if (constructorMachTime ts >? 0)
     && (firstDyldCallbackMachTime ts >? 0) then
    let staticInitMachTime :=
      u64 (firstDyldCallbackMachTime ts - constructorMachTime ts) in
    let '(ms, d1) := DPMachTimeToMillis staticInitMachTime d in
    with_durations (set_staticInitializerMs ms) d1
  else d.

Definition calc_post (d : DPPreMainData) : DPPreMainData :=
  let ts := timestamps d in
  if lastDyldCallbackMachTime ts >? 0 then
    let postDyldMachTime :=
      u64 (mainExecutedMachTime ts - lastDyldCallbackMachTime ts) in
    let '(ms, d1) := DPMachTimeToMillis postDyldMachTime d in
    with_durations (set_postDyldToMainMs ms) d1
  else d.

Definition calc_kernel (now_tv : Z * Z) (machNow : Z) (d : DPPreMainData)
    : DPPreMainData :=
  let ts := timestamps d in
  if processStartTimeUnixMicros ts >? 0 then
    let nowUnixMicros := timeval_micros now_tv in
    let totalSinceStartMs :=
      double_div
        (double_of_Z (u64 (nowUnixMicros - processStartTimeUnixMicros ts)))
        (double_of_Z 1000) in
    let '(constructorToNowNanos, d1) :=
      DPMachTimeToNanos (u64 (machNow - constructorMachTime ts)) d in
    let constructorToNowMs := nanos_to_millis constructorToNowNanos in
    let est := double_sub totalSinceStartMs constructorToNowMs in
    let est' := if double_ltb est double_zero then double_zero else est in
    with_durations (set_estimatedKernel est') d1
  else d.

Definition dp_calculate_durations (now_tv : Z * Z) (machNow : Z)
    (d : DPPreMainData) : DPPreMainData :=
  if negb (mainExecutedMarked d)
     || (mainExecutedMachTime (timestamps d) =? 0)
  then d
  else
    calc_kernel now_tv machNow
      (calc_post (calc_static (calc_objc (calc_dylib (calc_total d))))).

(** *** Module initialiser *)

(** [_dyld_register_func_for_add_image(dp_dyld_image_added_callback)]:
    dyld runs the callback, before the call returns, once for every
    image loaded so far, in load order.  [loaded] lists these images,
    each with the clock reading taken in its callback, what [dladdr]
    answers for it, and its slide.  Images added later reach the callback
    as events of their own. *)
Definition _dyld_register_func_for_add_image
    (loaded : list (Z * option (list ascii) * Z)) (g : globals) : globals :=
  fold_left
    (fun g e =>
       dp_dyld_image_added_callback (fst (fst e)) (snd (fst e)) (snd e) g)
    loaded g.

Definition dp_premain_init (machNow : Z) (sysctl_result : option (Z * Z))
    (loaded : list (Z * option (list ascii) * Z)) (g : globals) : globals :=
  if g_initialized g then g
  else
    let g1 := set_initialized true g in
    let g2 := with_data dp_initialize_timebase g1 in
    let g3 := with_data (with_timestamps (set_constructor machNow)) g2 in
    let g4 := with_data (with_timestamps (set_processStart
                (dp_get_process_start_time_unix_micros sysctl_result)))
                g3 in
    let g5 := with_data (set_dylibDetailEnabled true) g4 in
    _dyld_register_func_for_add_image loaded g5.

(** *** Public API *)

Definition DPPreMainGetData (g : globals) : DPPreMainData :=
  g_preMainData g.

Definition DPPreMainMarkMainExecuted (mainMachTime : Z) (now_tv : Z * Z)
    (machNow : Z) (g : globals) : globals :=
  if negb (mainExecutedMarked (g_preMainData g)) then
    let g1 := with_data (with_timestamps
                (set_mainExecuted mainMachTime)) g in
    let g2 := with_data (set_mainExecutedMarked true) g1 in
    with_data (dp_calculate_durations now_tv machNow) g2
  else g.

Definition DPPreMainMarkObjCLoadStart (machNow : Z) (g : globals)
    : globals :=
  if objcLoadStartMachTime (timestamps (g_preMainData g)) =? 0
  then with_data (with_timestamps (set_objcLoadStart machNow)) g
  else g.

Definition DPPreMainMarkObjCLoadEnd (machNow : Z) (g : globals)
    : globals :=
  if objcLoadEndMachTime (timestamps (g_preMainData g)) =? 0
  then with_data (with_timestamps (set_objcLoadEnd machNow)) g
  else g.

Definition DPPreMainGetDylibInfo (index : Z) (g : globals)
    : option DPDylibLoadInfo :=
  if (index >=? dylibCount (g_preMainData g))
     || (index >=? DP_MAX_DYLIB_COUNT)
  then None
  else g_dylibLoadInfos g !! Z.to_nat index.

(** A caller's buffer is [None] for a null pointer, otherwise the
    array it points to; the functions return the count together with
    the buffer after the call. *)
Definition DPPreMainGetAllDylibs (outBuffer : option (list DPDylibLoadInfo))
    (bufferSize : Z) (g : globals)
    : Z * option (list DPDylibLoadInfo) :=
  match outBuffer with
  | None => (0, None)
  | Some buf =>
      if bufferSize =? 0 then (0, Some buf)
      else
        let count := dylibCount (g_preMainData g) in
        let count := if count >? bufferSize then bufferSize else count in
        let count :=
          if count >? DP_MAX_DYLIB_COUNT then DP_MAX_DYLIB_COUNT
          else count in
        (count, Some (memcpy buf (g_dylibLoadInfos g) (Z.to_nat count)))
  end.

Definition dp_compare_dylib_by_duration (a b : DPDylibLoadInfo) : Z :=
  if loadDurationNanos a >? loadDurationNanos b then -1
  else if loadDurationNanos a <? loadDurationNanos b then 1
  else 0.

(** The C library's [qsort], and whether [malloc] returns a block. *)
Variable qsort :
  (DPDylibLoadInfo -> DPDylibLoadInfo -> Z) ->
  list DPDylibLoadInfo -> list DPDylibLoadInfo.

Definition DPPreMainGetSlowestDylibs (malloc_ok : bool)
    (outBuffer : option (list DPDylibLoadInfo)) (count : Z) (g : globals)
    : Z * option (list DPDylibLoadInfo) :=
  match outBuffer with
  | None => (0, None)
  | Some buf =>
      if count =? 0 then (0, Some buf)
      else
        let totalCount := dylibCount (g_preMainData g) in
        let totalCount :=
          if totalCount >? DP_MAX_DYLIB_COUNT then DP_MAX_DYLIB_COUNT
          else totalCount in
        if negb malloc_ok then (0, Some buf)
        else
          let tempBuffer :=
            take (Z.to_nat totalCount) (g_dylibLoadInfos g) in
          let tempBuffer := qsort dp_compare_dylib_by_duration tempBuffer in
          let resultCount :=
            if count <? totalCount then count else totalCount in
          (resultCount,
           Some (memcpy buf tempBuffer (Z.to_nat resultCount)))
  end.

Definition DPPreMainSetDylibDetailEnabled (enabled : bool) (g : globals)
    : globals :=
  with_data (set_dylibDetailEnabled enabled) g.

Definition DPPreMainReset (g : globals) : globals :=
  let d := set_dylibDetailEnabled true zero_data in
  mkGlobals (dp_initialize_timebase d)
    (replicate (Z.to_nat DP_MAX_DYLIB_COUNT) zero_info)
    0 (g_initialized g).

(** *** Runs

    The state before any code runs is the C static initialisation; an
    [event] is one call into the monitor together with what the
    operating system answered during it.  [EvInit] is the constructor
    up to the registration of the callback; the callbacks dyld makes
    during the registration are the [EvImageAdded] events that follow
    it, which comes to the same state
    ([dp_premain_init_delivers_the_loaded_images]). *)

Definition initial_globals : globals :=
  mkGlobals zero_data (replicate (Z.to_nat DP_MAX_DYLIB_COUNT) zero_info)
    0 false.

Inductive event : Type :=
| EvInit (machNow : Z) (sysctl_result : option (Z * Z))
| EvImageAdded (currentMachTime : Z) (imagePath : option (list ascii))
    (slide_ : Z)
| EvMarkMainExecuted (mainMachTime : Z) (now_tv : Z * Z) (machNow : Z)
| EvMarkObjCLoadStart (machNow : Z)
| EvMarkObjCLoadEnd (machNow : Z)
| EvSetDylibDetailEnabled (enabled : bool)
| EvMachTimeToNanos (machTime : Z)
| EvReset.

Definition step (g : globals) (e : event) : globals :=
  match e with
  | EvInit t r => dp_premain_init t r [] g
  | EvImageAdded t p s => dp_dyld_image_added_callback t p s g
  | EvMarkMainExecuted t tv t' => DPPreMainMarkMainExecuted t tv t' g
  | EvMarkObjCLoadStart t => DPPreMainMarkObjCLoadStart t g
  | EvMarkObjCLoadEnd t => DPPreMainMarkObjCLoadEnd t g
  | EvSetDylibDetailEnabled b => DPPreMainSetDylibDetailEnabled b g
  | EvMachTimeToNanos t =>
      with_data (fun d => snd (DPMachTimeToNanos t d)) g
  | EvReset => DPPreMainReset g
  end.

Definition run (es : list event) (g : globals) : globals :=
  fold_left step es g.

Definition reachable (g : globals) : Prop :=
  exists es, g = run es initial_globals.

End Monitor.

(** The value of the macro in [DPPreMainMonitor.h]. *)
Definition DP_MAX_DYLIB_COUNT_header : Z := 512.

(** ** Vocabulary of the statements *)

(** The clock basis a conversion works with: the stored one, or the
    operating system's when the stored denominator is still zero. *)
Definition effective_basis (numer denom : Z) (d : DPPreMainData)
    : DPPreMainData :=
  if timebaseDenom d =? 0 then dp_initialize_timebase numer denom d else d.

(** The nanoseconds of a tick count under the clock basis stored in [d],
    as [DPMachTimeToNanos] computes them once the basis is set. *)
Definition ticks_to_nanos (d : DPPreMainData) (ticks : Z) : Z :=
  u64 (ticks * timebaseNumer d) / timebaseDenom d.

Definition ticks_to_millis (d : DPPreMainData) (ticks : Z) : double :=
  nanos_to_millis (ticks_to_nanos d ticks).

(** Two snapshots that agree on the timestamps, on the entry mark, on the
    clock basis conversions will use, and on the counters and the detail
    switch: all but the durations and a clock basis set on the way. *)
Definition same_inputs (numer denom : Z) (d d' : DPPreMainData) : Prop :=
  timestamps d' = timestamps d /\
  mainExecutedMarked d' = mainExecutedMarked d /\
  timebaseNumer (effective_basis numer denom d')
    = timebaseNumer (effective_basis numer denom d) /\
  timebaseDenom (effective_basis numer denom d')
    = timebaseDenom (effective_basis numer denom d) /\
  dylibCount d' = dylibCount d /\
  systemDylibCount d' = systemDylibCount d /\
  userDylibCount d' = userDylibCount d /\
  dylibDetailEnabled d' = dylibDetailEnabled d.

(** A snapshot with the given clock basis and timestamps, entry marked. *)
Definition marked_snapshot (numer denom : Z) (ts : DPPreMainTimestamps)
    : DPPreMainData :=
  mkData ts zero_durations 0 0 0 true true numer denom.

(** The sum [dylibLoadingMs + staticInitializerMs + postDyldToMainMs],
    evaluated left to right in binary64. *)
Definition phase_sum_ms (r : DPPreMainDurations) : double :=
  double_add (double_add (dylibLoadingMs r) (staticInitializerMs r))
    (postDyldToMainMs r).

(** Descending order of the durations, position by position. *)
Definition descending_by_duration (l : list DPDylibLoadInfo) : Prop :=
  forall (i j : nat) (a b : DPDylibLoadInfo),
    (i < j)%nat -> l !! i = Some a -> l !! j = Some b ->
    loadDurationNanos a >= loadDurationNanos b.

(** What the C standard asks of [qsort] when it is handed
    [dp_compare_dylib_by_duration]: the array is permuted, and no element
    compares greater than a later one. *)
Definition qsort_sorts
    (qsort : (DPDylibLoadInfo -> DPDylibLoadInfo -> Z) ->
             list DPDylibLoadInfo -> list DPDylibLoadInfo) : Prop :=
  forall l,
    qsort dp_compare_dylib_by_duration l ≡ₚ l /\
    StronglySorted (fun a b => dp_compare_dylib_by_duration a b <= 0)
      (qsort dp_compare_dylib_by_duration l).

(** One conforming [qsort], used to instantiate the statements. *)
Definition merge_qsort (cmp : DPDylibLoadInfo -> DPDylibLoadInfo -> Z)
    (l : list DPDylibLoadInfo) : list DPDylibLoadInfo :=
  @merge_sort _ (fun a b => cmp a b <= 0)
    (fun a b => decide (cmp a b <= 0)) l.

(** Shape of the ledger: [DP_MAX_DYLIB_COUNT] slots, each with a 256-byte
    name whose last byte is NUL, and a published count within the array. *)
Definition name_terminated (r : DPDylibLoadInfo) : Prop :=
  length (name r) = DP_MAX_DYLIB_NAME_LENGTH /\
  name r !! Nat.pred DP_MAX_DYLIB_NAME_LENGTH = Some NUL.

Definition ledger_shape (cap : Z) (g : globals) : Prop :=
  length (g_dylibLoadInfos g) = Z.to_nat cap /\
  Forall name_terminated (g_dylibLoadInfos g) /\
  0 <= dylibCount (g_preMainData g) <= cap /\
  0 <= g_dylibIndex g < 2 ^ 32.

(** The record the callback writes for an event that gets a slot. *)
Definition callback_nanos (numer denom : Z) (currentMachTime : Z)
    (d : DPPreMainData) : Z :=
  if constructorMachTime (timestamps d) >? 0
  then ticks_to_nanos (effective_basis numer denom d)
         (u64 (currentMachTime - constructorMachTime (timestamps d)))
  else 0.

Definition callback_info (numer denom : Z) (currentMachTime : Z)
    (imagePath : option (list ascii)) (slide_ : Z) (g : globals)
    : DPDylibLoadInfo :=
  mkDylibLoadInfo
    (fill_name imagePath
       (name (default zero_info
                (g_dylibLoadInfos g !! Z.to_nat (g_dylibIndex g)))))
    currentMachTime
    (callback_nanos numer denom currentMachTime (g_preMainData g))
    (fill_is_system imagePath)
    slide_.

(** [p] is an initial segment of the string [s] points to. *)
Definition starts_with (p s : list ascii) : Prop :=
  exists rest, c_str s = p ++ rest.

(** [base] is the base filename of [path]: what follows the last ['/'],
    the whole path when it has none. *)
Definition base_filename (path base : list ascii) : Prop :=
  (exists dir, path = dir ++ ("/"%char :: base) /\ ~ In "/"%char base) \/
  (~ In "/"%char path /\ base = path).

(** The constructor's clock reading is a real one: zero is what the
    monitor itself takes for "not recorded". *)
Definition init_reading_set (e : event) : Prop :=
  match e with
  | EvInit machNow _ => machNow <> 0
  | _ => True
  end.

(** Before the entry mark nothing has been computed. *)
Definition calculator_pending (g : globals) : Prop :=
  mainExecutedMarked (g_preMainData g) = false ->
  durations (g_preMainData g) = zero_durations.

(** A known process start time comes with a recorded constructor time:
    the two are written together by the constructor and cleared together
    by the reset. *)
Definition start_time_with_constructor (g : globals) : Prop :=
  processStartTimeUnixMicros (timestamps (g_preMainData g)) <> 0 ->
  constructorMachTime (timestamps (g_preMainData g)) <> 0.

(** The state after [k] image events delivered with detail recording on:
    the cursor has counted all of them, the published count stops at the
    capacity, and every published record was classified once. *)
Definition counting (cap k : Z) (g : globals) : Prop :=
  dylibDetailEnabled (g_preMainData g) = true /\
  g_dylibIndex g = k /\
  dylibCount (g_preMainData g) = Z.min k cap /\
  systemDylibCount (g_preMainData g) + userDylibCount (g_preMainData g)
    = dylibCount (g_preMainData g) /\
  0 <= systemDylibCount (g_preMainData g) /\
  0 <= userDylibCount (g_preMainData g).

(** The clock reading of the last of a list of image events. *)
Definition last_event_time (evs : list (Z * option (list ascii) * Z))
    (before : Z) : Z :=
  match last evs with
  | Some e => fst (fst e)
  | None => before
  end.

Definition image_event (e : Z * option (list ascii) * Z) : event :=
  EvImageAdded (fst (fst e)) (snd (fst e)) (snd e).

(** Paths and runs used in the concrete instances. *)
Definition path_libSystem : list ascii :=
  cstring "/usr/lib/libSystem.B.dylib".
Definition path_libobjc : list ascii := cstring "/usr/lib/libobjc.A.dylib".
Definition path_app : list ascii :=
  cstring "/private/var/containers/Bundle/Application/Demo.app/Demo".
Definition path_long_name : list ascii :=
  cstring "/tmp/" ++ replicate 300 "x"%char.

Definition started : list event := [EvInit 1000 (Some (1700000000, 250000))].

Definition a_record (nanos : Z) : DPDylibLoadInfo :=
  mkDylibLoadInfo (replicate DP_MAX_DYLIB_NAME_LENGTH NUL) 0 nanos false 0.

(** [r] is the record of the image event [e] on a process whose
    constructor read the clock at [machNow], on the clock basis
    [numer]/[denom]. *)
Definition event_record (numer denom machNow : Z)
    (e : Z * option (list ascii) * Z) (r : DPDylibLoadInfo) : Prop :=
  loadMachTime r = fst (fst e) /\
  slide r = snd e /\
  isSystemLibrary r = dp_is_system_library (snd (fst e)) /\
  loadDurationNanos r =
    (if machNow >? 0
     then u64 (u64 (fst (fst e) - machNow) * numer) / denom
     else 0) /\
  c_str (name r) = take 255 (c_str (dp_extract_filename (snd (fst e)))).

(** The state while the first [length evs] image events of a fresh
    process are being recorded. *)
Definition recording (cap numer denom machNow : Z)
    (evs : list (Z * option (list ascii) * Z)) (g : globals) : Prop :=
  counting cap (Z.of_nat (length evs)) g /\
  ledger_shape cap g /\
  constructorMachTime (timestamps (g_preMainData g)) = machNow /\
  timebaseNumer (g_preMainData g) = numer /\
  timebaseDenom (g_preMainData g) = denom /\
  forall i e, evs !! i = Some e ->
    exists r, g_dylibLoadInfos g !! i = Some r /\
              event_record numer denom machNow e r.

(** The constructor has run, and its timestamps are gone. *)
Definition constructor_lost (g : globals) : Prop :=
  g_initialized g = true /\
  constructorMachTime (timestamps (g_preMainData g)) = 0 /\
  processStartTimeUnixMicros (timestamps (g_preMainData g)) = 0 /\
  totalPreMainMs (durations (g_preMainData g)) = double_zero /\
  staticInitializerMs (durations (g_preMainData g)) = double_zero /\
  estimatedKernelToConstructorMs (durations (g_preMainData g))
    = double_zero /\
  Forall (fun r => loadDurationNanos r = 0) (g_dylibLoadInfos g).

(** The kernel estimate is not below zero. *)
Definition estimate_not_negative (d : DPPreMainData) : Prop :=
  double_ltb (estimatedKernelToConstructorMs (durations d)) double_zero
    = false.

#[global] Arguments u64 : simpl never.
#[global] Arguments u32 : simpl never.
#[global] Arguments nanos_to_millis : simpl never.
#[global] Arguments double_of_Z : simpl never.
#[global] Arguments double_div : simpl never.
#[global] Arguments double_sub : simpl never.
#[global] Arguments double_ltb : simpl never.
#[global] Arguments ticks_to_nanos : simpl never.
#[global] Arguments ticks_to_millis : simpl never.
#[global] Arguments timeval_micros : simpl never.

(** Closed goals are settled by running the model. *)
Ltac by_evaluation := vm_compute; first [reflexivity | discriminate | lia].

Ltac at_the_instance :=
  first [by_evaluation | lia | split; by_evaluation].

(** ** Time conversion *)

Section TimeConversion.

Variable numer denom : Z.

Local Abbreviation ToNanos := (DPMachTimeToNanos numer denom).
Local Abbreviation ToMillis := (DPMachTimeToMillis numer denom).

Lemma u64_small x : 0 <= x < 2 ^ 64 -> u64 x = x.
Proof. intros H. unfold u64, UINT64_MOD. apply Z.mod_small. exact H. Qed.

Lemma u32_small x : 0 <= x < 2 ^ 32 -> u32 x = x.
Proof. intros H. unfold u32, UINT32_MOD. apply Z.mod_small. exact H. Qed.

Lemma ToNanos_effective t d :
  ToNanos t d =
    (ticks_to_nanos (effective_basis numer denom d) t,
     effective_basis numer denom d).
Proof. reflexivity. Qed.

Lemma ToMillis_effective t d :
  ToMillis t d =
    (ticks_to_millis (effective_basis numer denom d) t,
     effective_basis numer denom d).
Proof. reflexivity. Qed.

Lemma effective_basis_initialized d :
  timebaseDenom d <> 0 -> effective_basis numer denom d = d.
Proof.
  intros H. unfold effective_basis.
  destruct (Z.eqb_spec (timebaseDenom d) 0); [contradiction | reflexivity].
Qed.

Lemma ToNanos_initialized t d :
  timebaseDenom d <> 0 ->
  ToNanos t d = (ticks_to_nanos d t, d).
Proof.
  intros Hd. unfold DPMachTimeToNanos.
  destruct (Z.eqb_spec (timebaseDenom d) 0) as [E|E]; [contradiction|].
  reflexivity.
Qed.

Lemma ToMillis_initialized t d :
  timebaseDenom d <> 0 ->
  ToMillis t d = (ticks_to_millis d t, d).
Proof.
  intros Hd. unfold DPMachTimeToMillis.
  rewrite ToNanos_initialized by exact Hd. reflexivity.
Qed.

(** C5 (as amended).  With an initialised clock basis the conversion is
    the quotient of the product reduced modulo 2^64; it is the exact
    quotient [t * numer / denom] whenever the product fits in 64 bits. *)
Theorem DPMachTimeToNanos_wraps_then_divides t d :
  0 < timebaseDenom d -> 0 <= t -> 0 <= timebaseNumer d ->
  fst (DPMachTimeToNanos numer denom t d)
    = ((t * timebaseNumer d) mod 2 ^ 64) / timebaseDenom d /\
  (t * timebaseNumer d < 2 ^ 64 ->
   fst (DPMachTimeToNanos numer denom t d)
     = (t * timebaseNumer d) / timebaseDenom d).
Proof.
  intros Hd Ht Hn.
  rewrite ToNanos_initialized by lia. cbn [fst]. unfold ticks_to_nanos.
  split; [reflexivity|].
  intros Hfit. rewrite u64_small by nia. reflexivity.
Qed.

End TimeConversion.

(** ** The duration calculator *)

Section Durations.

Variable numer denom : Z.

Local Abbreviation calculate := (dp_calculate_durations numer denom).
Local Abbreviation basis := (effective_basis numer denom).
Local Abbreviation same := (same_inputs numer denom).

Lemma gtb_pos x : 0 < x -> (x >? 0) = true.
Proof. intros H. apply Z.gtb_lt. exact H. Qed.

Lemma calculate_unmarked now_tv machNow d :
  mainExecutedMarked d = false \/ mainExecutedMachTime (timestamps d) = 0 ->
  calculate now_tv machNow d = d.
Proof.
  intros [H|H]; unfold dp_calculate_durations; rewrite H.
  - reflexivity.
  - rewrite orb_true_r. reflexivity.
Qed.

Lemma ticks_to_millis_same d d' t :
  same d d' -> ticks_to_millis (basis d') t = ticks_to_millis (basis d) t.
Proof.
  intros (_ & _ & Hn & Hd & _).
  unfold ticks_to_millis, ticks_to_nanos. rewrite Hn, Hd. reflexivity.
Qed.

Lemma same_trans d1 d2 d3 : same d1 d2 -> same d2 d3 -> same d1 d3.
Proof.
  intros (A1 & A2 & A3 & A4 & A5 & A6 & A7 & A8)
    (B1 & B2 & B3 & B4 & B5 & B6 & B7 & B8).
  repeat split; congruence.
Qed.

(** Each step of the calculator keeps the inputs and writes at most its
    own field. *)
Ltac step_effect d :=
  destruct d as [[ps c f l mn os oe] dur cnt sys usr marked en n m];
  unfold calc_total, calc_dylib, calc_objc, calc_static, calc_post,
    calc_kernel, DPMachTimeToMillis, DPMachTimeToNanos, same_inputs,
    effective_basis, dp_initialize_timebase;
  cbn [timestamps durations mainExecutedMarked timebaseNumer
       timebaseDenom constructorMachTime firstDyldCallbackMachTime
       lastDyldCallbackMachTime mainExecutedMachTime
       objcLoadStartMachTime objcLoadEndMachTime
       processStartTimeUnixMicros dylibCount systemDylibCount
       userDylibCount dylibDetailEnabled];
  repeat (match goal with
          | H : ?b = _ |- context [if ?b then _ else _] => rewrite H
          | |- context [?x >? 0] => is_var x; destruct (x >? 0) eqn:?
          | |- context [?x =? 0] => is_var x; destruct (x =? 0) eqn:?
          end;
          cbn [timestamps durations mainExecutedMarked timebaseNumer
               timebaseDenom with_durations set_timebase andb fst snd
               dylibCount systemDylibCount userDylibCount
               dylibDetailEnabled]);
  unfold ticks_to_millis, ticks_to_nanos;
  cbn [timebaseNumer timebaseDenom];
  try discriminate.

Lemma calc_total_effect d :
  same d (calc_total numer denom d) /\
  durations (calc_total numer denom d) =
    (if constructorMachTime (timestamps d) >? 0
     then set_totalPreMainMs
            (ticks_to_millis (basis d)
               (u64 (mainExecutedMachTime (timestamps d)
                     - constructorMachTime (timestamps d))))
            (durations d)
     else durations d).
Proof. step_effect d; repeat split; reflexivity. Qed.

Lemma calc_dylib_effect d :
  same d (calc_dylib numer denom d) /\
  durations (calc_dylib numer denom d) =
    (if (firstDyldCallbackMachTime (timestamps d) >? 0)
        && (lastDyldCallbackMachTime (timestamps d) >? 0)
     then set_dylibLoadingMs
            (ticks_to_millis (basis d)
               (u64 (lastDyldCallbackMachTime (timestamps d)
                     - firstDyldCallbackMachTime (timestamps d))))
            (durations d)
     else durations d).
Proof. step_effect d; repeat split; reflexivity. Qed.

Lemma calc_objc_effect d :
  same d (calc_objc numer denom d) /\
  durations (calc_objc numer denom d) =
    (if (objcLoadStartMachTime (timestamps d) >? 0)
        && (objcLoadEndMachTime (timestamps d) >? 0)
     then set_objcLoadMs
            (ticks_to_millis (basis d)
               (u64 (objcLoadEndMachTime (timestamps d)
                     - objcLoadStartMachTime (timestamps d))))
            (durations d)
     else durations d).
Proof. step_effect d; repeat split; reflexivity. Qed.

Lemma calc_static_effect d :
  same d (calc_static numer denom d) /\
  durations (calc_static numer denom d) =
    (if (constructorMachTime (timestamps d) >? 0)
        && (firstDyldCallbackMachTime (timestamps d) >? 0)
     then set_staticInitializerMs
            (ticks_to_millis (basis d)
               (u64 (firstDyldCallbackMachTime (timestamps d)
                     - constructorMachTime (timestamps d))))
            (durations d)
     else durations d).
Proof. step_effect d; repeat split; reflexivity. Qed.

Lemma calc_post_effect d :
  same d (calc_post numer denom d) /\
  durations (calc_post numer denom d) =
    (if lastDyldCallbackMachTime (timestamps d) >? 0
     then set_postDyldToMainMs
            (ticks_to_millis (basis d)
               (u64 (mainExecutedMachTime (timestamps d)
                     - lastDyldCallbackMachTime (timestamps d))))
            (durations d)
     else durations d).
Proof. step_effect d; repeat split; reflexivity. Qed.

Lemma calc_kernel_effect now_tv machNow d :
  same d (calc_kernel numer denom now_tv machNow d) /\
  exists v,
    durations (calc_kernel numer denom now_tv machNow d) =
      (if processStartTimeUnixMicros (timestamps d) >? 0
       then set_estimatedKernel v (durations d)
       else durations d).
Proof.
  step_effect d;
    (split; [repeat split; reflexivity |]);
    first [eexists; reflexivity | exists double_zero; reflexivity].
Qed.

(** What the calculator leaves in the six fields: for the five
    tick-derived ones the converted interval when the guard of the field
    passes and the previous content otherwise; the sixth is written
    exactly when the process start time is non-zero. *)
Lemma calculate_fields now_tv machNow d :
  mainExecutedMarked d = true ->
  mainExecutedMachTime (timestamps d) <> 0 ->
  let ts := timestamps d in
  let r := durations (calculate now_tv machNow d) in
  totalPreMainMs r =
    (if constructorMachTime ts >? 0
     then ticks_to_millis (basis d)
            (u64 (mainExecutedMachTime ts - constructorMachTime ts))
     else totalPreMainMs (durations d)) /\
  dylibLoadingMs r =
    (if (firstDyldCallbackMachTime ts >? 0)
        && (lastDyldCallbackMachTime ts >? 0)
     then ticks_to_millis (basis d)
            (u64 (lastDyldCallbackMachTime ts
                  - firstDyldCallbackMachTime ts))
     else dylibLoadingMs (durations d)) /\
  objcLoadMs r =
    (if (objcLoadStartMachTime ts >? 0) && (objcLoadEndMachTime ts >? 0)
     then ticks_to_millis (basis d)
            (u64 (objcLoadEndMachTime ts - objcLoadStartMachTime ts))
     else objcLoadMs (durations d)) /\
  staticInitializerMs r =
    (if (constructorMachTime ts >? 0)
        && (firstDyldCallbackMachTime ts >? 0)
     then ticks_to_millis (basis d)
            (u64 (firstDyldCallbackMachTime ts - constructorMachTime ts))
     else staticInitializerMs (durations d)) /\
  postDyldToMainMs r =
    (if lastDyldCallbackMachTime ts >? 0
     then ticks_to_millis (basis d)
            (u64 (mainExecutedMachTime ts - lastDyldCallbackMachTime ts))
     else postDyldToMainMs (durations d)) /\
  ((processStartTimeUnixMicros ts >? 0) = false ->
   estimatedKernelToConstructorMs r
     = estimatedKernelToConstructorMs (durations d)).
Proof.
  intros Hmk Hmn. cbv zeta.
  unfold dp_calculate_durations.
  rewrite Hmk. apply Z.eqb_neq in Hmn. rewrite Hmn.
  cbn [negb orb].
  destruct (calc_total_effect d) as [S1 D1].
  set (d1 := calc_total numer denom d) in *.
  destruct (calc_dylib_effect d1) as [S2 D2].
  set (d2 := calc_dylib numer denom d1) in *.
  destruct (calc_objc_effect d2) as [S3 D3].
  set (d3 := calc_objc numer denom d2) in *.
  destruct (calc_static_effect d3) as [S4 D4].
  set (d4 := calc_static numer denom d3) in *.
  destruct (calc_post_effect d4) as [S5 D5].
  set (d5 := calc_post numer denom d4) in *.
  destruct (calc_kernel_effect now_tv machNow d5) as [S6 [v D6]].
  set (d6 := calc_kernel numer denom now_tv machNow d5) in *.
  pose proof (same_trans _ _ _ S1 S2) as T2.
  pose proof (same_trans _ _ _ T2 S3) as T3.
  pose proof (same_trans _ _ _ T3 S4) as T4.
  pose proof (same_trans _ _ _ T4 S5) as T5.
  rewrite D6, D5, D4, D3, D2, D1.
  rewrite !(ticks_to_millis_same _ _ _ S1), !(ticks_to_millis_same _ _ _ T2),
    !(ticks_to_millis_same _ _ _ T3), !(ticks_to_millis_same _ _ _ T4).
  destruct S1 as (-> & _), T2 as (-> & _), T3 as (-> & _), T4 as (-> & _),
    T5 as (-> & _).
  set (ts := timestamps d).
  destruct (constructorMachTime ts >? 0);
    destruct (firstDyldCallbackMachTime ts >? 0);
    destruct (lastDyldCallbackMachTime ts >? 0);
    destruct (objcLoadStartMachTime ts >? 0);
    destruct (objcLoadEndMachTime ts >? 0);
    destruct (processStartTimeUnixMicros ts >? 0);
    cbn [andb totalPreMainMs dylibLoadingMs objcLoadMs staticInitializerMs
         postDyldToMainMs estimatedKernelToConstructorMs
         set_totalPreMainMs set_dylibLoadingMs set_objcLoadMs
         set_staticInitializerMs set_postDyldToMainMs set_estimatedKernel];
    repeat split; try reflexivity; intros; discriminate.
Qed.

Lemma floor_sum3 a b c n m :
  0 < m -> 0 <= a -> 0 <= b -> 0 <= c -> 0 <= n ->
  b * n / m + a * n / m + c * n / m <= (a + b + c) * n / m
    <= b * n / m + a * n / m + c * n / m + 2.
Proof.
  intros Hm Ha Hb Hc Hn.
  pose proof (Z.div_mod (a * n) m ltac:(lia)) as Ea.
  pose proof (Z.div_mod (b * n) m ltac:(lia)) as Eb.
  pose proof (Z.div_mod (c * n) m ltac:(lia)) as Ec.
  pose proof (Z.mod_pos_bound (a * n) m Hm) as Ba.
  pose proof (Z.mod_pos_bound (b * n) m Hm) as Bb.
  pose proof (Z.mod_pos_bound (c * n) m Hm) as Bc.
  set (qa := a * n / m) in *. set (qb := b * n / m) in *.
  set (qc := c * n / m) in *.
  set (ra := (a * n) mod m) in *. set (rb := (b * n) mod m) in *.
  set (rc := (c * n) mod m) in *.
  assert (E : (a + b + c) * n = (qa + qb + qc) * m + (ra + rb + rc)) by lia.
  rewrite E. split.
  - apply Z.div_le_lower_bound; [lia|]. nia.
  - apply Z.lt_succ_r. apply Z.div_lt_upper_bound; [lia|]. nia.
Qed.

Lemma floor_sum3_exact a b c n m :
  0 < m -> (m | n) ->
  (a + b + c) * n / m = b * n / m + a * n / m + c * n / m.
Proof.
  intros Hm [k ->].
  rewrite !Z.mul_assoc, !Z.div_mul by lia. lia.
Qed.

(** C1 (as amended).  With all four timestamps set and ordered, an
    initialised clock basis and a product that fits in 64 bits, each of
    the four fields is the binary64 quotient [ns / 1e6] of a whole
    number of nanoseconds.  The nanosecond counts of the three phases
    add up to the total up to the truncation of the three integer
    divisions (at most 2 ns short), and exactly when the denominator
    divides the numerator. *)
Theorem durations_decompose_in_nanos now_tv machNow d :
  let ts := timestamps d in
  let n := timebaseNumer d in
  let m := timebaseDenom d in
  let T := (mainExecutedMachTime ts - constructorMachTime ts) * n / m in
  let D := (lastDyldCallbackMachTime ts - firstDyldCallbackMachTime ts)
           * n / m in
  let S := (firstDyldCallbackMachTime ts - constructorMachTime ts)
           * n / m in
  let P := (mainExecutedMachTime ts - lastDyldCallbackMachTime ts)
           * n / m in
  mainExecutedMarked d = true ->
  0 < m -> 0 < n ->
  0 < constructorMachTime ts ->
  constructorMachTime ts <= firstDyldCallbackMachTime ts ->
  firstDyldCallbackMachTime ts <= lastDyldCallbackMachTime ts ->
  lastDyldCallbackMachTime ts <= mainExecutedMachTime ts ->
  (mainExecutedMachTime ts - constructorMachTime ts) * n < 2 ^ 64 ->
  let r := durations (dp_calculate_durations numer denom now_tv machNow d) in
  totalPreMainMs r = nanos_to_millis T /\
  dylibLoadingMs r = nanos_to_millis D /\
  staticInitializerMs r = nanos_to_millis S /\
  postDyldToMainMs r = nanos_to_millis P /\
  D + S + P <= T <= D + S + P + 2 /\
  ((m | n) -> T = D + S + P).
Proof.
  intros ts n m T D S P Hmk Hm Hn Hc Hcf Hfl Hlm Hfit r.
  destruct (calculate_fields now_tv machNow d Hmk ltac:(fold ts; lia))
    as (Et & Ed & _ & Es & Ep & _).
  fold ts r in Et, Ed, Es, Ep.
  assert (Gc : (constructorMachTime ts >? 0) = true)
    by (apply gtb_pos; lia).
  assert (Gf : (firstDyldCallbackMachTime ts >? 0) = true)
    by (apply gtb_pos; lia).
  assert (Gl : (lastDyldCallbackMachTime ts >? 0) = true)
    by (apply gtb_pos; lia).
  rewrite Gc in Et, Es. rewrite Gf in Ed, Es. rewrite Gl in Ed, Ep.
  cbn [andb] in Ed, Es.
  rewrite effective_basis_initialized in Et, Ed, Es, Ep by (fold m; lia).
  assert (Hsmall : forall x, 0 <= x <= mainExecutedMachTime ts
                                        - constructorMachTime ts ->
                   ticks_to_millis d (u64 x) = nanos_to_millis (x * n / m)).
  { intros x Hx. unfold ticks_to_millis, ticks_to_nanos. fold n m.
    rewrite (u64_small x) by nia. rewrite u64_small by nia. reflexivity. }
  rewrite Hsmall in Et, Ed, Es, Ep by lia.
  assert (Esum : mainExecutedMachTime ts - constructorMachTime ts
                 = (firstDyldCallbackMachTime ts - constructorMachTime ts)
                   + (lastDyldCallbackMachTime ts
                      - firstDyldCallbackMachTime ts)
                   + (mainExecutedMachTime ts
                      - lastDyldCallbackMachTime ts)) by lia.
  split; [exact Et|]. split; [exact Ed|]. split; [exact Es|].
  split; [exact Ep|]. subst T D S P. rewrite Esum. split.
  - apply floor_sum3; lia.
  - intros Hdiv. apply floor_sum3_exact; [lia | exact Hdiv].
Qed.

Lemma same_refl d : same d d.
Proof. repeat split. Qed.

Lemma calculate_same now_tv machNow d : same d (calculate now_tv machNow d).
Proof.
  unfold dp_calculate_durations.
  destruct (negb (mainExecutedMarked d)
            || (mainExecutedMachTime (timestamps d) =? 0)).
  - apply same_refl.
  - eapply same_trans; [apply calc_total_effect|].
    eapply same_trans; [apply calc_dylib_effect|].
    eapply same_trans; [apply calc_objc_effect|].
    eapply same_trans; [apply calc_static_effect|].
    eapply same_trans; [apply calc_post_effect|].
    apply calc_kernel_effect.
Qed.

End Durations.

(** ** Marking the entry point *)

Section MarkMain.

Variable numer denom : Z.

Local Abbreviation MarkMain := (DPPreMainMarkMainExecuted numer denom).

Lemma MarkMain_marks t tv t' g :
  mainExecutedMarked (g_preMainData (MarkMain t tv t' g)) = true.
Proof.
  unfold DPPreMainMarkMainExecuted.
  destruct (mainExecutedMarked (g_preMainData g)) eqn:E; cbn [negb].
  - exact E.
  - cbn [with_data g_preMainData].
    destruct (calculate_same numer denom tv t'
                (set_mainExecutedMarked true
                   (with_timestamps (set_mainExecuted t)
                      (g_preMainData g)))) as (_ & -> & _).
    reflexivity.
Qed.

Lemma MarkMain_marked t tv t' g :
  mainExecutedMarked (g_preMainData g) = true -> MarkMain t tv t' g = g.
Proof.
  intros H. unfold DPPreMainMarkMainExecuted. rewrite H. reflexivity.
Qed.


End MarkMain.

(** ** The dyld callback *)

Section Callback.

Variable cap numer denom : Z.

Local Abbreviation callback := (dp_dyld_image_added_callback cap numer denom).

(** An event that is not recorded (detail recording off, or no slot
    left) stamps the first/last callback time and moves the cursor;
    nothing else changes. *)
Lemma callback_skip t p s g :
  dylibDetailEnabled (g_preMainData g) = false \/ cap <= g_dylibIndex g ->
  callback t p s g =
    set_index (u32 (g_dylibIndex g + 1))
      (with_data (with_timestamps (record_callback_time t)) g).
Proof.
  intros H. unfold dp_dyld_image_added_callback.
  cbn [with_data g_preMainData with_timestamps dylibDetailEnabled
       g_dylibIndex set_index].
  destruct (dylibDetailEnabled (g_preMainData g)); cbn [negb];
    [|reflexivity].
  destruct H as [H|H]; [discriminate|].
  destruct (Z.geb_spec (g_dylibIndex g) cap); [reflexivity | lia].
Qed.

(** An event that gets a slot. *)
Lemma callback_record t p s g :
  dylibDetailEnabled (g_preMainData g) = true ->
  g_dylibIndex g < cap ->
  let g' := callback t p s g in
  let d := g_preMainData g in
  let d' := g_preMainData g' in
  g_dylibIndex g' = u32 (g_dylibIndex g + 1) /\
  g_dylibLoadInfos g' =
    <[ Z.to_nat (g_dylibIndex g) := callback_info numer denom t p s g ]>
      (g_dylibLoadInfos g) /\
  g_initialized g' = g_initialized g /\
  timestamps d' = record_callback_time t (timestamps d) /\
  durations d' = durations d /\
  mainExecutedMarked d' = mainExecutedMarked d /\
  dylibDetailEnabled d' = true /\
  dylibCount d' = u32 (g_dylibIndex g + 1) /\
  systemDylibCount d' =
    (if fill_is_system p then u32 (systemDylibCount d + 1)
     else systemDylibCount d) /\
  userDylibCount d' =
    (if fill_is_system p then userDylibCount d
     else u32 (userDylibCount d + 1)).
Proof.
  intros Hen Hidx.
  destruct g as [[[ps c f l mn os oe] dur cnt sys usr marked en n m]
                   infos idx ini].
  cbn [g_preMainData dylibDetailEnabled g_dylibIndex] in Hen, Hidx.
  subst en.
  unfold dp_dyld_image_added_callback, callback_info, callback_nanos,
    DPMachTimeToNanos, effective_basis, dp_initialize_timebase.
  cbn [with_data g_preMainData with_timestamps dylibDetailEnabled
       g_dylibIndex set_index negb g_dylibLoadInfos g_initialized
       timestamps record_callback_time constructorMachTime set_lastDyld
       set_firstDyld firstDyldCallbackMachTime timebaseDenom].
  destruct (Z.geb_spec idx cap) as [?|_]; [lia|].
  destruct (f =? 0);
    cbn [constructorMachTime set_lastDyld set_firstDyld timestamps
         timebaseDenom];
    destruct (c >? 0); destruct (m =? 0);
    cbn [isSystemLibrary]; destruct (fill_is_system p);
    cbn; repeat split; reflexivity.
Qed.

End Callback.

(** ** C strings *)

Section Strings.

Lemma is_nul_true c : is_nul c = true <-> c = NUL.
Proof. apply Ascii.eqb_eq. Qed.

Lemma is_nul_false c : is_nul c = false <-> c <> NUL.
Proof. apply Ascii.eqb_neq. Qed.

Lemma c_str_nil : c_str [] = [].
Proof. reflexivity. Qed.

Lemma c_str_cons c r :
  c_str (c :: r) = if is_nul c then [] else c :: c_str r.
Proof. unfold c_str. cbn. destruct (is_nul c); reflexivity. Qed.

Lemma strlen_c_str s : length (c_str s) = strlen s.
Proof.
  induction s as [|c r IH]; [reflexivity|].
  rewrite c_str_cons. cbn. destruct (is_nul c); cbn; congruence.
Qed.

Lemma c_str_no_nul s : Forall (fun c => c <> NUL) (c_str s).
Proof.
  induction s as [|c r IH]; [constructor|].
  rewrite c_str_cons. destruct (is_nul c) eqn:E; [constructor|].
  constructor; [apply is_nul_false, E | exact IH].
Qed.

Lemma c_str_of_plain l r :
  Forall (fun c => c <> NUL) l -> c_str (l ++ NUL :: r) = l.
Proof.
  induction 1 as [|c l Hc _ IH]; cbn [app].
  - rewrite c_str_cons. reflexivity.
  - rewrite c_str_cons. apply is_nul_false in Hc. rewrite Hc, IH.
    reflexivity.
Qed.

Lemma c_str_plain l : Forall (fun c => c <> NUL) l -> c_str l = l.
Proof.
  induction 1 as [|c l Hc _ IH]; [reflexivity|].
  rewrite c_str_cons. apply is_nul_false in Hc. rewrite Hc, IH.
  reflexivity.
Qed.

Lemma c_str_idem s : c_str (c_str s) = c_str s.
Proof. apply c_str_plain, c_str_no_nul. Qed.

Lemma strlen_plain l : Forall (fun c => c <> NUL) l -> strlen l = length l.
Proof. intros H. rewrite <- strlen_c_str, c_str_plain by exact H. done. Qed.

Lemma strncpy_bytes_length src n : length (strncpy_bytes src n) = n.
Proof.
  revert src. induction n as [|n IH]; intros src; [reflexivity|].
  cbn. destruct src as [|c r]; [|destruct (is_nul c)];
    cbn [length]; rewrite IH; reflexivity.
Qed.

Lemma strncpy_bytes_nil n : strncpy_bytes [] n = replicate n NUL.
Proof. induction n as [|n IH]; [reflexivity|]. cbn. rewrite IH. done. Qed.

(** [strncpy] copies the string, cut at [n] bytes, and pads with NUL. *)
Lemma strncpy_bytes_spec src n :
  strncpy_bytes src n
    = take n (c_str src) ++ replicate (n - strlen src)%nat NUL.
Proof.
  revert src. induction n as [|n IH]; intros src; [reflexivity|].
  destruct src as [|c r].
  - cbn [strncpy_bytes]. rewrite strncpy_bytes_nil. reflexivity.
  - cbn [strncpy_bytes strlen]. rewrite c_str_cons.
    destruct (is_nul c).
    + rewrite strncpy_bytes_nil. reflexivity.
    + rewrite IH. reflexivity.
Qed.

Lemma take_plain n l :
  Forall (fun c => c <> NUL) l -> Forall (fun c => c <> NUL) (take n l).
Proof. apply Forall_take. Qed.

(** The name a resolved image gets: 256 bytes, the last one NUL, holding
    the first 255 characters of the file name. *)
Lemma fill_name_resolved p old :
  length old = DP_MAX_DYLIB_NAME_LENGTH ->
  let nm := fill_name (Some p) old in
  length nm = DP_MAX_DYLIB_NAME_LENGTH /\
  nm !! Nat.pred DP_MAX_DYLIB_NAME_LENGTH = Some NUL /\
  c_str nm = take 255 (c_str (dp_extract_filename (Some p))).
Proof.
  intros Hlen nm. subst nm. unfold fill_name, strncpy.
  set (fn := dp_extract_filename (Some p)).
  change (Nat.pred DP_MAX_DYLIB_NAME_LENGTH) with 255%nat.
  change DP_MAX_DYLIB_NAME_LENGTH with 256%nat in *.
  assert (Hb : length (strncpy_bytes fn 255) = 255%nat)
    by apply strncpy_bytes_length.
  assert (Hd : exists x, drop 255 old = [x]).
  { pose proof (length_drop old 255) as E. rewrite Hlen in E.
    destruct (drop 255 old) as [|x [|y t]]; try discriminate. eauto. }
  destruct Hd as [x Hd]. rewrite Hd.
  assert (E : <[255%nat := NUL]> (strncpy_bytes fn 255 ++ [x])
              = strncpy_bytes fn 255 ++ [NUL]).
  { rewrite insert_app_r_alt by lia. rewrite Hb.
    replace (255 - 255)%nat with 0%nat by lia. reflexivity. }
  rewrite E. split_and!.
  - rewrite length_app, Hb. reflexivity.
  - rewrite lookup_app_r by lia. rewrite Hb. reflexivity.
  - rewrite strncpy_bytes_spec, <- app_assoc.
    destruct (255 - strlen fn)%nat as [|k]; cbn [replicate app].
    + apply c_str_of_plain, take_plain, c_str_no_nul.
    + apply c_str_of_plain, take_plain, c_str_no_nul.
Qed.

Lemma fill_name_unresolved old :
  length old = DP_MAX_DYLIB_NAME_LENGTH ->
  old !! Nat.pred DP_MAX_DYLIB_NAME_LENGTH = Some NUL ->
  let nm := fill_name None old in
  length nm = DP_MAX_DYLIB_NAME_LENGTH /\
  nm !! Nat.pred DP_MAX_DYLIB_NAME_LENGTH = Some NUL /\
  c_str nm = cstring "unknown".
Proof.
  intros Hlen Hlast nm. subst nm. unfold fill_name, strncpy.
  change (Nat.pred DP_MAX_DYLIB_NAME_LENGTH) with 255%nat in *.
  change DP_MAX_DYLIB_NAME_LENGTH with 256%nat in *.
  assert (Hb : length (strncpy_bytes (cstring "unknown") 255) = 255%nat)
    by apply strncpy_bytes_length.
  split_and!.
  - rewrite length_app, Hb, length_drop, Hlen. reflexivity.
  - rewrite lookup_app_r by lia. rewrite Hb, lookup_drop.
    replace (255 + (255 - 255))%nat with 255%nat by lia. exact Hlast.
  - rewrite strncpy_bytes_spec.
    change (255 - strlen (cstring "unknown"))%nat with 248%nat.
    change (take 255 (c_str (cstring "unknown")))
      with (cstring "unknown").
    change 248%nat with (S 247). cbn [replicate].
    rewrite <- app_assoc. cbn [app].
    apply c_str_of_plain. vm_compute.
    repeat constructor; discriminate.
Qed.

Lemma fill_name_terminated p old :
  length old = DP_MAX_DYLIB_NAME_LENGTH ->
  old !! Nat.pred DP_MAX_DYLIB_NAME_LENGTH = Some NUL ->
  length (fill_name p old) = DP_MAX_DYLIB_NAME_LENGTH /\
  fill_name p old !! Nat.pred DP_MAX_DYLIB_NAME_LENGTH = Some NUL.
Proof.
  intros Hlen Hlast. destruct p as [p|].
  - destruct (fill_name_resolved p old Hlen) as (A & B & _). auto.
  - destruct (fill_name_unresolved old Hlen Hlast) as (A & B & _). auto.
Qed.

Lemma slash_not_nul : is_nul "/"%char = false.
Proof. reflexivity. Qed.

(** [strrchr] with ['/']: the result starts at the last slash of the
    string; a null result means the string has no slash. *)
Lemma strrchr_slash s :
  match strrchr s "/"%char with
  | Some q =>
      exists dir rest,
        q = "/"%char :: rest /\
        c_str s = dir ++ ("/"%char :: c_str rest) /\
        ~ In "/"%char (c_str rest)
  | None => ~ In "/"%char (c_str s)
  end.
Proof.
  induction s as [|x r IH].
  - cbn. intros [].
  - cbn [strrchr]. rewrite c_str_cons, slash_not_nul.
    destruct (is_nul x) eqn:Ex; [intros []|].
    destruct (strrchr r "/"%char) as [q|].
    + destruct IH as (dir & rest & -> & E & Hno).
      exists (x :: dir), rest. rewrite E. auto.
    + destruct (Ascii.eqb_spec x "/"%char) as [->|Hne].
      * exists [], r. auto.
      * intros [H|H]; [congruence | exact (IH H)].
Qed.

Lemma dp_extract_filename_base p :
  base_filename (c_str p) (c_str (dp_extract_filename (Some p))).
Proof.
  unfold dp_extract_filename. pose proof (strrchr_slash p) as H.
  destruct (strrchr p "/"%char) as [q|].
  - destruct H as (dir & rest & -> & E & Hno). left. exists dir. auto.
  - right. auto.
Qed.

Lemma nat_of_ascii_diff x y :
  x <> y -> Z.of_nat (nat_of_ascii x) - Z.of_nat (nat_of_ascii y) <> 0.
Proof.
  intros Hne E. apply Hne.
  rewrite <- (ascii_nat_embedding x), <- (ascii_nat_embedding y).
  f_equal. lia.
Qed.

(** [strncmp(s, pre, strlen(pre)) == 0] is the prefix test. *)
Lemma strncmp_prefix pre s :
  Forall (fun c => c <> NUL) pre ->
  strncmp s pre (length pre) = 0 <-> starts_with pre s.
Proof.
  unfold starts_with. intros Hpre. revert s.
  induction Hpre as [|y pre Hy _ IH]; intros s.
  - cbn. split; eauto.
  - cbn [length strncmp]. unfold char_at. cbv zeta.
    destruct s as [|x r]; cbn [hd tl].
    + destruct (Ascii.eqb_spec NUL y) as [E|E]; [congruence|].
      cbn [negb]. rewrite c_str_nil. split.
      * intros H. exfalso. revert H. apply nat_of_ascii_diff, E.
      * intros [rest H]. discriminate.
    + rewrite c_str_cons.
      destruct (Ascii.eqb_spec x y) as [->|E]; cbn [negb].
      * apply is_nul_false in Hy. rewrite Hy. rewrite IH. split.
        -- intros [rest ->]. eauto.
        -- intros [rest H]. injection H as H. eauto.
      * split.
        -- intros H. exfalso. revert H. apply nat_of_ascii_diff, E.
        -- intros [rest H]. destruct (is_nul x); [discriminate|].
           injection H as H _. contradiction.
Qed.

Lemma systemPrefixes_plain :
  Forall (Forall (fun c => c <> NUL)) systemPrefixes.
Proof. vm_compute. repeat constructor; discriminate. Qed.

Lemma dp_is_system_library_loop_spec path prefixes :
  Forall (Forall (fun c => c <> NUL)) prefixes ->
  dp_is_system_library_loop path prefixes = true <->
  exists pre, In pre prefixes /\ starts_with pre path.
Proof.
  induction 1 as [|pre rest Hpre _ IH]; cbn [dp_is_system_library_loop].
  - split; [discriminate | intros (pre & [] & _)].
  - rewrite (strlen_plain pre Hpre).
    destruct (Z.eqb_spec (strncmp path pre (length pre)) 0) as [E|E].
    + split; [|reflexivity]. intros _. exists pre. split; [left; reflexivity|].
      apply strncmp_prefix; assumption.
    + rewrite IH. split.
      * intros (q & Hq & Hs). exists q. split; [right; exact Hq | exact Hs].
      * intros (q & [<-|Hq] & Hs).
        -- exfalso. apply E. apply strncmp_prefix; assumption.
        -- exists q. auto.
Qed.

(** The classification: a resolved path is a system library exactly when
    one of the five prefixes starts it; an unresolved one never is. *)
Lemma dp_is_system_library_spec path :
  dp_is_system_library path = true <->
  exists p pre, path = Some p /\ In pre systemPrefixes /\ starts_with pre p.
Proof.
  destruct path as [p|]; cbn [dp_is_system_library].
  - rewrite (dp_is_system_library_loop_spec p _ systemPrefixes_plain).
    split.
    + intros (pre & H1 & H2). eauto.
    + intros (q & pre & [= <-] & H1 & H2). eauto.
  - split; [discriminate | intros (q & pre & [=] & _)].
Qed.

Lemma fill_is_system_spec path :
  fill_is_system path = dp_is_system_library path.
Proof. destruct path; reflexivity. Qed.

End Strings.

(** ** Runs of the monitor *)

Section Runs.

Variable cap numer denom : Z.

Local Abbreviation callback := (dp_dyld_image_added_callback cap numer denom).
Local Abbreviation step' := (step cap numer denom).
Local Abbreviation run' := (run cap numer denom).
Local Abbreviation initial := (initial_globals cap).
Local Abbreviation shape := (ledger_shape cap).

Lemma u32_range x : 0 <= u32 x < 2 ^ 32.
Proof. unfold u32, UINT32_MOD. apply Z.mod_pos_bound. lia. Qed.

Lemma u32_succ_le x : 0 <= x -> 0 <= u32 (x + 1) <= x + 1.
Proof.
  intros H. split; [apply u32_range|].
  unfold u32, UINT32_MOD. apply Z.mod_le; lia.
Qed.

Lemma callback_frame t p s g :
  let g' := callback t p s g in
  timestamps (g_preMainData g')
    = record_callback_time t (timestamps (g_preMainData g)) /\
  durations (g_preMainData g') = durations (g_preMainData g) /\
  mainExecutedMarked (g_preMainData g')
    = mainExecutedMarked (g_preMainData g) /\
  dylibDetailEnabled (g_preMainData g')
    = dylibDetailEnabled (g_preMainData g) /\
  g_initialized g' = g_initialized g /\
  g_dylibIndex g' = u32 (g_dylibIndex g + 1).
Proof.
  cbv zeta.
  destruct (dylibDetailEnabled (g_preMainData g)) eqn:En.
  - destruct (Z_lt_dec (g_dylibIndex g) cap) as [Hlt|Hge].
    + destruct (callback_record cap numer denom t p s g En Hlt)
        as (A & B & C & D & E & F & G & _).
      rewrite A, C, D, E, F, G. repeat split; reflexivity.
    + rewrite callback_skip by (right; lia).
      destruct g as [d infos idx ini]. cbn in *. rewrite En.
      repeat split; reflexivity.
  - rewrite callback_skip by (left; exact En).
    destruct g as [d infos idx ini]. cbn in *. rewrite En.
    repeat split; reflexivity.
Qed.

Lemma record_callback_time_keeps t ts :
  let ts' := record_callback_time t ts in
  processStartTimeUnixMicros ts' = processStartTimeUnixMicros ts /\
  constructorMachTime ts' = constructorMachTime ts /\
  mainExecutedMachTime ts' = mainExecutedMachTime ts /\
  objcLoadStartMachTime ts' = objcLoadStartMachTime ts /\
  objcLoadEndMachTime ts' = objcLoadEndMachTime ts /\
  lastDyldCallbackMachTime ts' = t /\
  firstDyldCallbackMachTime ts' =
    (if firstDyldCallbackMachTime ts =? 0 then t
     else firstDyldCallbackMachTime ts).
Proof.
  unfold record_callback_time.
  destruct (firstDyldCallbackMachTime ts =? 0); repeat split; reflexivity.
Qed.

Lemma zero_info_terminated : name_terminated zero_info.
Proof. split; reflexivity. Qed.

Lemma callback_info_terminated t p s g :
  shape g -> name_terminated (callback_info numer denom t p s g).
Proof.
  intros (Hlen & Hall & _).
  assert (Hold : name_terminated
                   (default zero_info
                      (g_dylibLoadInfos g !! Z.to_nat (g_dylibIndex g)))).
  { destruct (g_dylibLoadInfos g !! Z.to_nat (g_dylibIndex g)) as [r|] eqn:E.
    - cbn. rewrite Forall_lookup in Hall. exact (Hall _ _ E).
    - apply zero_info_terminated. }
  destruct Hold as [H1 H2].
  unfold name_terminated, callback_info; cbn [name].
  apply fill_name_terminated; assumption.
Qed.

Lemma effective_basis_same d :
  same_inputs numer denom d (effective_basis numer denom d).
Proof.
  unfold same_inputs, effective_basis, dp_initialize_timebase.
  destruct d as [ts dur cnt sys usr marked en n m]. cbn.
  destruct (m =? 0) eqn:Em; cbn; rewrite ?Em; cbn;
    try destruct (denom =? 0); repeat split; reflexivity.
Qed.

Lemma initial_shape : 0 <= cap -> shape initial.
Proof.
  intros Hcap. unfold ledger_shape, initial_globals. cbn. split_and!.
  - apply length_replicate.
  - apply Forall_replicate, zero_info_terminated.
  - lia.
  - exact Hcap.
  - lia.
  - lia.
Qed.

Lemma step_shape g e : 0 <= cap -> shape g -> shape (step' g e).
Proof.
  intros Hcap Hs. pose proof Hs as (Hlen & Hall & Hcnt & Hidx).
  destruct e as [t r|t p s|t tv t'|t|t|b|t|]; cbn [step].
  - unfold dp_premain_init. destruct (g_initialized g); [exact Hs|].
    exact Hs.
  - destruct (dylibDetailEnabled (g_preMainData g)) eqn:En;
      [destruct (Z_lt_dec (g_dylibIndex g) cap) as [Hlt|Hge]|].
    + destruct (callback_record cap numer denom t p s g En Hlt)
        as (A & B & _ & _ & _ & _ & _ & C & _).
      unfold ledger_shape. rewrite A, B, C. split_and!.
      * rewrite length_insert. exact Hlen.
      * apply Forall_insert; [exact Hall|].
        apply callback_info_terminated, Hs.
      * apply u32_succ_le; lia.
      * pose proof (u32_succ_le (g_dylibIndex g)); lia.
      * apply u32_range.
      * apply u32_range.
    + rewrite callback_skip by (right; lia).
      unfold ledger_shape. cbn. split_and!; try assumption; try lia;
        apply u32_range.
    + rewrite callback_skip by (left; exact En).
      unfold ledger_shape. cbn. split_and!; try assumption; try lia;
        apply u32_range.
  - unfold DPPreMainMarkMainExecuted.
    destruct (mainExecutedMarked (g_preMainData g)); [exact Hs|].
    cbn [negb]. unfold ledger_shape.
    cbn [with_data g_dylibLoadInfos g_dylibIndex g_preMainData].
    destruct (calculate_same numer denom tv t'
                (set_mainExecutedMarked true
                   (with_timestamps (set_mainExecuted t)
                      (g_preMainData g))))
      as (_ & _ & _ & _ & -> & _).
    exact Hs.
  - unfold DPPreMainMarkObjCLoadStart.
    destruct (_ =? 0); exact Hs.
  - unfold DPPreMainMarkObjCLoadEnd.
    destruct (_ =? 0); exact Hs.
  - exact Hs.
  - unfold ledger_shape.
    cbn [with_data g_dylibLoadInfos g_dylibIndex g_preMainData snd
         DPMachTimeToNanos].
    destruct (effective_basis_same (g_preMainData g))
      as (_ & _ & _ & _ & E & _).
    unfold effective_basis in E. rewrite E. exact Hs.
  - unfold DPPreMainReset, ledger_shape. cbn. split_and!.
    + apply length_replicate.
    + apply Forall_replicate, zero_info_terminated.
    + lia.
    + exact Hcap.
    + lia.
    + lia.
Qed.

Lemma run_shape es g : 0 <= cap -> shape g -> shape (run' es g).
Proof.
  intros Hcap. revert g.
  induction es as [|e es IH]; intros g Hs; [exact Hs|].
  cbn [run fold_left]. apply IH, step_shape; assumption.
Qed.

Lemma reachable_shape g :
  0 <= cap -> reachable cap numer denom g -> shape g.
Proof. intros Hcap [es ->]. apply run_shape, initial_shape; exact Hcap. Qed.

End Runs.

(** ** Counting image events *)

Section Counting.

Variable cap numer denom : Z.

Local Abbreviation callback := (dp_dyld_image_added_callback cap numer denom).
Local Abbreviation run' := (run cap numer denom).
Local Abbreviation initial := (initial_globals cap).
Local Abbreviation GetAll := (DPPreMainGetAllDylibs cap).

Lemma run_app es1 es2 g : run' (es1 ++ es2) g = run' es2 (run' es1 g).
Proof. unfold run. apply fold_left_app. Qed.

Lemma run_cons e es g :
  run' (e :: es) g = run' es (step cap numer denom g e).
Proof. reflexivity. Qed.

Lemma last_event_time_cons e evs before :
  last_event_time (e :: evs) before = last_event_time evs (fst (fst e)).
Proof.
  unfold last_event_time. destruct evs as [|e' evs']; [reflexivity|].
  change (last (e :: e' :: evs')) with (last (e' :: evs')).
  destruct (last (e' :: evs')) eqn:E; [reflexivity|].
  apply last_None in E. discriminate.
Qed.

(** *** Detail recording off *)

Lemma disabled_events evs g :
  dylibDetailEnabled (g_preMainData g) = false ->
  0 <= g_dylibIndex g < 2 ^ 32 ->
  let g' := run' (map image_event evs) g in
  dylibDetailEnabled (g_preMainData g') = false /\
  dylibCount (g_preMainData g') = dylibCount (g_preMainData g) /\
  systemDylibCount (g_preMainData g')
    = systemDylibCount (g_preMainData g) /\
  userDylibCount (g_preMainData g') = userDylibCount (g_preMainData g) /\
  g_dylibLoadInfos g' = g_dylibLoadInfos g /\
  g_dylibIndex g' = u32 (g_dylibIndex g + Z.of_nat (length evs)) /\
  lastDyldCallbackMachTime (timestamps (g_preMainData g'))
    = last_event_time evs
        (lastDyldCallbackMachTime (timestamps (g_preMainData g))).
Proof.
  revert g. induction evs as [|[[t p] s] evs IH]; intros g Hen Hidx.
  - cbn. rewrite Z.add_0_r, u32_small by exact Hidx.
    repeat split; try reflexivity; exact Hen.
  - cbn [map]. rewrite run_cons. cbn [step image_event fst snd].
    rewrite callback_skip by (left; exact Hen).
    set (g1 := set_index _ _).
    assert (Hen1 : dylibDetailEnabled (g_preMainData g1) = false)
      by exact Hen.
    assert (Hidx1 : 0 <= g_dylibIndex g1 < 2 ^ 32) by apply u32_range.
    destruct (IH g1 Hen1 Hidx1) as (A & B & C & D & E & F & G).
    cbv zeta. rewrite A, B, C, D, E, F, G. split_and!; try reflexivity.
    + subst g1. cbn [set_index g_dylibIndex length]. unfold u32.
      rewrite Zplus_mod_idemp_l. f_equal; lia.
    + rewrite last_event_time_cons. reflexivity.
Qed.

Lemma init_fresh machNow sysctl :
  0 <= cap ->
  let g := dp_premain_init cap numer denom machNow sysctl [] initial in
  counting cap 0 g /\
  g_dylibLoadInfos g = g_dylibLoadInfos initial /\
  lastDyldCallbackMachTime (timestamps (g_preMainData g)) = 0.
Proof.
  intros Hcap. unfold counting. cbn. split_and!; try reflexivity; lia.
Qed.

Lemma GetAll_count buf n g :
  0 < n ->
  fst (GetAll (Some buf) n g)
    = Z.min (Z.min (dylibCount (g_preMainData g)) n) cap.
Proof.
  intros Hn. unfold DPPreMainGetAllDylibs.
  destruct (Z.eqb_spec n 0) as [?|_]; [lia|].
  cbn [fst].
  destruct (Z.gtb_spec (dylibCount (g_preMainData g)) n);
    match goal with
    | |- (if ?a >? ?b then _ else _) = _ => destruct (Z.gtb_spec a b)
    end; lia.
Qed.

(** C3 (as amended).  When detail recording is switched off before the
    first image event, any number of events leaves the published
    counters at zero and the ledger untouched: [DPPreMainGetAllDylibs]
    copies no record and [dylibCount] stays 0.  The events are counted
    only by the write cursor [g_dylibIndex], which no query exposes, and
    they still stamp the last callback time. *)
Theorem detail_disabled_events_only_move_cursor
    machNow sysctl evs outBuffer bufferSize :
  0 <= cap -> 0 <= bufferSize ->
  let g := run cap numer denom
             (EvInit machNow sysctl :: EvSetDylibDetailEnabled false
              :: map image_event evs)
             (initial_globals cap) in
  fst (DPPreMainGetAllDylibs cap outBuffer bufferSize g) = 0 /\
  dylibCount (g_preMainData g) = 0 /\
  systemDylibCount (g_preMainData g) = 0 /\
  userDylibCount (g_preMainData g) = 0 /\
  g_dylibLoadInfos g = g_dylibLoadInfos (initial_globals cap) /\
  g_dylibIndex g = u32 (Z.of_nat (length evs)) /\
  lastDyldCallbackMachTime (timestamps (g_preMainData g))
    = last_event_time evs 0.
Proof.
  intros Hcap Hn g. subst g. rewrite !run_cons. cbn [step].
  set (g0 := DPPreMainSetDylibDetailEnabled false
               (dp_premain_init cap numer denom machNow sysctl [] initial)).
  assert (Hen : dylibDetailEnabled (g_preMainData g0) = false)
    by reflexivity.
  assert (Hidx : 0 <= g_dylibIndex g0 < 2 ^ 32) by (cbn; lia).
  destruct (disabled_events evs g0 Hen Hidx) as (_ & B & C & D & E & F & G).
  rewrite B, C, D, E, F, G.
  assert (Ecnt : dylibCount (g_preMainData (run' (map image_event evs) g0))
                 = 0) by (rewrite B; reflexivity).
  split_and!; try reflexivity.
  destruct outBuffer as [buf|]; [|reflexivity].
  destruct (Z.eq_dec bufferSize 0) as [->|Hne]; [reflexivity|].
  rewrite GetAll_count by lia. rewrite Ecnt. lia.
Qed.

(** *** Detail recording on *)

Lemma counting_step k t p s g :
  0 <= cap -> 0 <= k -> k + 1 < 2 ^ 32 ->
  counting cap k g -> counting cap (k + 1) (callback t p s g).
Proof.
  intros Hcap Hk Hfit (Hen & Hidx & Hcnt & Hsum & Hs & Hu).
  destruct (Z_lt_dec k cap) as [Hlt|Hge].
  - destruct (callback_record cap numer denom t p s g Hen
                ltac:(rewrite Hidx; exact Hlt))
      as (A & _ & _ & _ & _ & _ & En & C & S' & U').
    unfold counting. rewrite A, En, C, S', U', Hidx.
    rewrite (u32_small (k + 1)) by lia.
    rewrite Z.min_l in Hcnt by lia.
    destruct (fill_is_system p).
    + rewrite u32_small by lia. split_and!; try reflexivity; lia.
    + rewrite u32_small by lia. split_and!; try reflexivity; lia.
  - rewrite callback_skip by (right; lia).
    unfold counting.
    cbn [set_index with_data with_timestamps g_preMainData g_dylibIndex
         dylibDetailEnabled dylibCount systemDylibCount userDylibCount].
    rewrite Hidx, u32_small by lia.
    split_and!; try assumption; try reflexivity. lia.
Qed.

Lemma counting_run evs k g :
  0 <= cap -> 0 <= k -> k + Z.of_nat (length evs) < 2 ^ 32 ->
  counting cap k g ->
  counting cap (k + Z.of_nat (length evs)) (run' (map image_event evs) g).
Proof.
  intros Hcap. revert k g.
  induction evs as [|[[t p] s] evs IH]; intros k g Hk Hfit Hc.
  - cbn. rewrite Z.add_0_r. exact Hc.
  - cbn [map]. rewrite run_cons. cbn [step image_event fst snd].
    cbn [length] in *.
    replace (k + Z.of_nat (S (length evs)))
      with ((k + 1) + Z.of_nat (length evs)) by lia.
    apply IH; [lia | lia |]. apply counting_step; try assumption; lia.
Qed.

(** C2 (as amended).  An image event that finds the cursor at or beyond
    the capacity still stamps the first/last callback times and moves the
    cursor, but it changes none of [dylibCount], [systemDylibCount],
    [userDylibCount] and writes no slot.  So after any number of events
    delivered with detail recording on, [dylibCount] is the smaller of
    that number and the capacity, and [DPPreMainGetAllDylibs] copies that
    many records (3 events, capacity 2: two records, [dylibCount = 2]). *)
Theorem events_beyond_capacity_are_not_counted :
  0 <= cap ->
  (forall t p s g,
     dylibDetailEnabled (g_preMainData g) = true ->
     cap <= g_dylibIndex g ->
     let g' := dp_dyld_image_added_callback cap numer denom t p s g in
     dylibCount (g_preMainData g') = dylibCount (g_preMainData g) /\
     systemDylibCount (g_preMainData g')
       = systemDylibCount (g_preMainData g) /\
     userDylibCount (g_preMainData g')
       = userDylibCount (g_preMainData g) /\
     g_dylibLoadInfos g' = g_dylibLoadInfos g /\
     g_dylibIndex g' = u32 (g_dylibIndex g + 1) /\
     lastDyldCallbackMachTime (timestamps (g_preMainData g')) = t /\
     firstDyldCallbackMachTime (timestamps (g_preMainData g'))
       = (if firstDyldCallbackMachTime (timestamps (g_preMainData g)) =? 0
          then t
          else firstDyldCallbackMachTime (timestamps (g_preMainData g))))
  /\
  (forall machNow sysctl evs buf n,
     Z.of_nat (length evs) < 2 ^ 32 -> 0 < n ->
     let g := run cap numer denom
                (EvInit machNow sysctl :: map image_event evs)
                (initial_globals cap) in
     dylibCount (g_preMainData g) = Z.min (Z.of_nat (length evs)) cap /\
     fst (DPPreMainGetAllDylibs cap (Some buf) n g)
       = Z.min n (Z.min (Z.of_nat (length evs)) cap)).
Proof.
  intros Hcap. split.
  - intros t p s g Hen Hge g'. subst g'.
    rewrite callback_skip by (right; exact Hge).
    cbn [set_index with_data with_timestamps g_preMainData g_dylibIndex
         g_dylibLoadInfos dylibCount systemDylibCount userDylibCount
         timestamps].
    destruct (record_callback_time_keeps t (timestamps (g_preMainData g)))
      as (_ & _ & _ & _ & _ & L & F).
    rewrite L, F. repeat split; reflexivity.
  - intros machNow sysctl evs buf n Hlen Hn g. subst g.
    rewrite run_cons. cbn [step].
    destruct (init_fresh machNow sysctl Hcap) as (Hc & _).
    pose proof (counting_run evs 0 _ Hcap ltac:(lia) ltac:(lia) Hc)
      as (_ & _ & Hcnt & _).
    rewrite Z.add_0_l in Hcnt.
    rewrite GetAll_count by exact Hn. rewrite Hcnt. lia.
Qed.

End Counting.

(** ** Reset *)

Section Reset.

Variable cap numer denom : Z.

Local Abbreviation callback := (dp_dyld_image_added_callback cap numer denom).
Local Abbreviation Reset := (DPPreMainReset cap numer denom).

(** C9.  Whatever the state, after [DPPreMainReset] all timestamps,
    durations and counters are zero and the entry mark is cleared, every
    ledger slot is zeroed, the cursor is 0, detail recording is on and
    the clock basis is the operating system's; the record queries find
    nothing; and the next image event is written to slot 0. *)
Theorem DPPreMainReset_restores_the_empty_state g :
  0 < cap ->
  let g' := DPPreMainReset cap numer denom g in
  let d' := DPPreMainGetData g' in
  timestamps d' = zero_timestamps /\
  durations d' = zero_durations /\
  dylibCount d' = 0 /\ systemDylibCount d' = 0 /\ userDylibCount d' = 0 /\
  mainExecutedMarked d' = false /\
  g_dylibLoadInfos g' = replicate (Z.to_nat cap) zero_info /\
  g_dylibIndex g' = 0 /\
  dylibDetailEnabled d' = true /\
  timebaseNumer d' = numer /\ timebaseDenom d' = denom /\
  (forall i, 0 <= i -> DPPreMainGetDylibInfo cap i g' = None) /\
  (forall buf n, 0 <= n -> fst (DPPreMainGetAllDylibs cap buf n g') = 0) /\
  (forall qsort ok buf n,
     0 <= n -> fst (DPPreMainGetSlowestDylibs cap qsort ok buf n g') = 0) /\
  (forall t p s,
     let g'' := dp_dyld_image_added_callback cap numer denom t p s g' in
     g_dylibLoadInfos g'' !! 0%nat
       = Some (callback_info numer denom t p s g') /\
     loadMachTime (callback_info numer denom t p s g') = t /\
     (forall i, (0 < i)%nat -> (i < Z.to_nat cap)%nat ->
                g_dylibLoadInfos g'' !! i = Some zero_info) /\
     dylibCount (g_preMainData g'') = 1 /\
     g_dylibIndex g'' = 1).
Proof.
  intros Hcap g' d'. subst d' g'.
  unfold DPPreMainReset, DPPreMainGetData.
  set (g' := mkGlobals _ _ _ _).
  split_and!; try reflexivity.
  - intros i Hi. unfold DPPreMainGetDylibInfo. cbn.
    destruct (Z.geb_spec i 0); [reflexivity | lia].
  - intros [buf|] n Hn; [|reflexivity].
    destruct (Z.eq_dec n 0) as [->|Hne]; [reflexivity|].
    rewrite GetAll_count by lia. cbn. lia.
  - intros qsort ok [buf|] n Hn; [|reflexivity].
    unfold DPPreMainGetSlowestDylibs.
    destruct (n =? 0); [reflexivity|]. cbn.
    destruct (Z.gtb_spec 0 cap); [lia|].
    destruct ok; [|reflexivity]. cbn.
    destruct (Z.ltb_spec n 0); [lia | reflexivity].
  - intros t p s.
    assert (Hen : dylibDetailEnabled (g_preMainData g') = true)
      by reflexivity.
    assert (Hlt : g_dylibIndex g' < cap) by (cbn; lia).
    destruct (callback_record cap numer denom t p s g' Hen Hlt)
      as (A & B & _ & _ & _ & _ & _ & C & _).
    rewrite A, B, C.
    change (g_dylibIndex g') with 0. change (Z.to_nat 0) with 0%nat.
    change (g_dylibLoadInfos g') with (replicate (Z.to_nat cap) zero_info).
    split_and!; try reflexivity.
    + apply list_lookup_insert_eq. rewrite length_replicate. lia.
    + intros i Hi Hi'. rewrite list_lookup_insert_ne by lia.
      apply lookup_replicate_2. exact Hi'.
Qed.

End Reset.

(** ** Stored names *)

Section StoredNames.

Variable cap numer denom : Z.

Local Abbreviation callback := (dp_dyld_image_added_callback cap numer denom).

(** The record an image event leaves in its slot. *)
Lemma callback_stores t p s g :
  ledger_shape cap g ->
  dylibDetailEnabled (g_preMainData g) = true ->
  g_dylibIndex g < cap ->
  g_dylibLoadInfos (callback t p s g) !! Z.to_nat (g_dylibIndex g)
    = Some (callback_info numer denom t p s g).
Proof.
  intros (Hlen & _ & _ & Hidx) Hen Hlt.
  destruct (callback_record cap numer denom t p s g Hen Hlt)
    as (_ & -> & _).
  apply list_lookup_insert_eq. rewrite Hlen. lia.
Qed.

(** The stored flag is the prefix test on the resolved path. *)
Lemma stored_record_classification t p s g :
  ledger_shape cap g ->
  dylibDetailEnabled (g_preMainData g) = true ->
  g_dylibIndex g < cap ->
  exists r,
    g_dylibLoadInfos (callback t p s g) !! Z.to_nat (g_dylibIndex g)
      = Some r /\
    (isSystemLibrary r = true <->
     exists path pre,
       p = Some path /\ In pre systemPrefixes /\ starts_with pre path).
Proof.
  intros Hs Hen Hlt. eexists. split; [apply callback_stores; assumption|].
  cbn [callback_info isSystemLibrary].
  rewrite fill_is_system_spec. apply dp_is_system_library_spec.
Qed.

(** C10.  In every reachable state, the record an image event writes
    has a 256-byte name whose last byte is NUL, so the string ends
    within the buffer with at most 255 characters; for a resolved path
    the string is the first 255 characters of the base filename, for an
    unresolved one it is ["unknown"].  All slots of the ledger keep
    NUL-terminated names. *)
Theorem stored_name_is_the_truncated_base_filename t p s g :
  0 <= cap ->
  reachable cap numer denom g ->
  dylibDetailEnabled (g_preMainData g) = true ->
  g_dylibIndex g < cap ->
  let g' := dp_dyld_image_added_callback cap numer denom t p s g in
  (exists r,
     g_dylibLoadInfos g' !! Z.to_nat (g_dylibIndex g) = Some r /\
     length (name r) = DP_MAX_DYLIB_NAME_LENGTH /\
     name r !! 255%nat = Some NUL /\
     (strlen (name r) <= 255)%nat /\
     match p with
     | Some path =>
         exists base,
           base_filename (c_str path) base /\
           c_str (name r) = take 255 base
     | None => c_str (name r) = cstring "unknown"
     end) /\
  Forall name_terminated (g_dylibLoadInfos g').
Proof.
  intros Hcap Hreach Hen Hlt g'.
  pose proof (reachable_shape cap numer denom g Hcap Hreach) as Hs.
  split.
  - exists (callback_info numer denom t p s g).
    split; [apply callback_stores; assumption|].
    pose proof Hs as (Hlen & Hall & _).
    set (old := name (default zero_info
                        (g_dylibLoadInfos g !! Z.to_nat (g_dylibIndex g)))).
    assert (Hold : length old = DP_MAX_DYLIB_NAME_LENGTH /\
                   old !! Nat.pred DP_MAX_DYLIB_NAME_LENGTH = Some NUL).
    { subst old.
      destruct (g_dylibLoadInfos g !! Z.to_nat (g_dylibIndex g))
        as [r|] eqn:E.
      - cbn. rewrite Forall_lookup in Hall. exact (Hall _ _ E).
      - apply zero_info_terminated. }
    destruct Hold as [Ho1 Ho2].
    cbn [callback_info name]. fold old.
    assert (Hcontent :
      length (fill_name p old) = DP_MAX_DYLIB_NAME_LENGTH /\
      fill_name p old !! 255%nat = Some NUL /\
      match p with
      | Some path =>
          c_str (fill_name p old)
            = take 255 (c_str (dp_extract_filename (Some path)))
      | None => c_str (fill_name p old) = cstring "unknown"
      end).
    { destruct p as [path|].
      - apply fill_name_resolved, Ho1.
      - apply fill_name_unresolved; assumption. }
    destruct Hcontent as (L & Z255 & Hc).
    split_and!; try assumption.
    + rewrite <- strlen_c_str.
      destruct p as [path|]; rewrite Hc.
      * rewrite length_take. lia.
      * vm_compute. lia.
    + destruct p as [path|]; [|exact Hc].
      eexists. split; [apply dp_extract_filename_base | exact Hc].
  - apply (step_shape cap numer denom g (EvImageAdded t p s) Hcap Hs).
Qed.

End StoredNames.

(** ** Unset inputs of the duration calculator *)

Section UnsetInputs.

Variable cap numer denom : Z.

Local Abbreviation run' := (run cap numer denom).
Local Abbreviation step' := (step cap numer denom).
Local Abbreviation initial := (initial_globals cap).
Local Abbreviation MarkMain := (DPPreMainMarkMainExecuted numer denom).

Lemma effective_basis_durations d :
  durations (effective_basis numer denom d) = durations d.
Proof. unfold effective_basis. destruct (_ =? 0); reflexivity. Qed.

Lemma step_keeps g e :
  let g' := step' g e in
  (mainExecutedMarked (g_preMainData g') = false ->
   mainExecutedMarked (g_preMainData g) = false /\
   durations (g_preMainData g') = durations (g_preMainData g) \/
   durations (g_preMainData g') = zero_durations) /\
  (e = EvReset \/ (exists t r, e = EvInit t r /\ g_initialized g = false) \/
   processStartTimeUnixMicros (timestamps (g_preMainData g'))
     = processStartTimeUnixMicros (timestamps (g_preMainData g)) /\
   constructorMachTime (timestamps (g_preMainData g'))
     = constructorMachTime (timestamps (g_preMainData g))).
Proof.
  destruct e as [t r|t p s|t tv t'|t|t|b|t|]; cbn [step]; cbv zeta.
  - unfold dp_premain_init. destruct (g_initialized g) eqn:Ei.
    + split; [left | right; right]; auto.
    + split; [left; auto | right; left; eauto].
  - destruct (callback_frame cap numer denom t p s g) as (T & D & M & _).
    destruct (record_callback_time_keeps t (timestamps (g_preMainData g)))
      as (P & C & _).
    rewrite T, D, M, P, C. split; [left | right; right]; auto.
  - pose proof (MarkMain_marks numer denom t tv t' g) as Hm.
    unfold DPPreMainMarkMainExecuted in *.
    destruct (negb (mainExecutedMarked (g_preMainData g)));
      [|split; [left | right; right]; auto].
    split; [rewrite Hm; discriminate|]. right; right.
    cbn [with_data g_preMainData].
    destruct (calculate_same numer denom tv t'
                (set_mainExecutedMarked true
                   (with_timestamps (set_mainExecuted t)
                      (g_preMainData g)))) as (-> & _).
    split; reflexivity.
  - unfold DPPreMainMarkObjCLoadStart.
    destruct (_ =? 0); (split; [left | right; right]; auto).
  - unfold DPPreMainMarkObjCLoadEnd.
    destruct (_ =? 0); (split; [left | right; right]; auto).
  - split; [left | right; right]; auto.
  - cbn [with_data g_preMainData snd DPMachTimeToNanos].
    change (if timebaseDenom (g_preMainData g) =? 0
            then dp_initialize_timebase numer denom (g_preMainData g)
            else g_preMainData g)
      with (effective_basis numer denom (g_preMainData g)).
    rewrite effective_basis_durations.
    destruct (effective_basis_same numer denom (g_preMainData g))
      as (-> & -> & _).
    split; [left | right; right]; auto.
  - split; [right; reflexivity | left; reflexivity].
Qed.

Lemma initial_pending : calculator_pending initial.
Proof. intros _. reflexivity. Qed.

Lemma step_pending g e :
  calculator_pending g -> calculator_pending (step' g e).
Proof.
  intros Hp Hm. destruct (step_keeps g e) as [H _].
  destruct (H Hm) as [[Hm' ->]|E]; [exact (Hp Hm') | exact E].
Qed.

Lemma run_pending es g :
  calculator_pending g -> calculator_pending (run' es g).
Proof.
  revert g. induction es as [|e es IH]; intros g Hp; [exact Hp|].
  cbn [run fold_left]. apply IH, step_pending, Hp.
Qed.

Lemma initial_start_time : start_time_with_constructor initial.
Proof. intros H. exact H. Qed.

Lemma step_start_time g e :
  init_reading_set e -> start_time_with_constructor g ->
  start_time_with_constructor (step' g e).
Proof.
  intros He Hs. destruct (step_keeps g e) as [_ [->|[(t & r & -> & Ei)|[P C]]]].
  - intros H. exact H.
  - cbn [step]. unfold dp_premain_init. rewrite Ei. intros _. exact He.
  - unfold start_time_with_constructor. rewrite P, C. exact Hs.
Qed.

Lemma run_start_time es g :
  Forall init_reading_set es -> start_time_with_constructor g ->
  start_time_with_constructor (run' es g).
Proof.
  intros Hes. revert g.
  induction Hes as [|e es He _ IH]; intros g Hs; [exact Hs|].
  cbn [run fold_left]. apply IH, step_start_time; assumption.
Qed.

Lemma gtb_unset x : x = 0 -> (x >? 0) = false.
Proof. intros ->. reflexivity. Qed.

(** C7.  On every run, when [DPPreMainMarkMainExecuted] hands the
    timestamps to the calculator, each of the six fields one of whose
    input timestamps is still zero is left at its default 0.  The inputs
    are the timestamps the field is computed from: constructor and entry
    for the total, first and last callback for the loading time, the two
    ObjC marks, constructor and first callback for the static
    initialisers, last callback and entry for the tail, process start and
    constructor for the kernel estimate.  The kernel estimate is guarded
    by the process start time alone; a zero constructor time leaves it at
    0 because the two are written together, the constructor's clock
    reading being a real one, that is, not the 0 that stands for "unset". *)
Theorem durations_with_unset_inputs_stay_zero es mainMachTime now_tv machNow :
  let g := run cap numer denom es (initial_globals cap) in
  mainExecutedMarked (g_preMainData g) = false ->
  let d' := g_preMainData
              (DPPreMainMarkMainExecuted numer denom mainMachTime now_tv
                 machNow g) in
  let ts := timestamps d' in
  let r := durations d' in
  (constructorMachTime ts = 0 \/ mainExecutedMachTime ts = 0 ->
   totalPreMainMs r = double_zero) /\
  (firstDyldCallbackMachTime ts = 0 \/ lastDyldCallbackMachTime ts = 0
   \/ mainExecutedMachTime ts = 0 ->
   dylibLoadingMs r = double_zero) /\
  (objcLoadStartMachTime ts = 0 \/ objcLoadEndMachTime ts = 0
   \/ mainExecutedMachTime ts = 0 ->
   objcLoadMs r = double_zero) /\
  (constructorMachTime ts = 0 \/ firstDyldCallbackMachTime ts = 0
   \/ mainExecutedMachTime ts = 0 ->
   staticInitializerMs r = double_zero) /\
  (lastDyldCallbackMachTime ts = 0 \/ mainExecutedMachTime ts = 0 ->
   postDyldToMainMs r = double_zero) /\
  (processStartTimeUnixMicros ts = 0 \/ mainExecutedMachTime ts = 0 ->
   estimatedKernelToConstructorMs r = double_zero) /\
  (Forall init_reading_set es ->
   constructorMachTime ts = 0 ->
   estimatedKernelToConstructorMs r = double_zero).
Proof.
  intros g Hunmarked d' ts r.
  pose proof (run_pending es initial initial_pending) as Hzero.
  fold g in Hzero. specialize (Hzero Hunmarked).
  set (d1 := set_mainExecutedMarked true
               (with_timestamps (set_mainExecuted mainMachTime)
                  (g_preMainData g))).
  assert (Ed' : d' = dp_calculate_durations numer denom now_tv machNow d1).
  { subst d'. unfold DPPreMainMarkMainExecuted. rewrite Hunmarked.
    reflexivity. }
  assert (Ets : ts = timestamps d1).
  { subst ts. rewrite Ed'. apply calculate_same. }
  assert (Hd1 : durations d1 = zero_durations) by exact Hzero.
  assert (Hm1 : mainExecutedMarked d1 = true) by reflexivity.
  assert (Hps : processStartTimeUnixMicros ts
                = processStartTimeUnixMicros (timestamps (g_preMainData g)))
    by (rewrite Ets; reflexivity).
  assert (Hc : constructorMachTime ts
               = constructorMachTime (timestamps (g_preMainData g)))
    by (rewrite Ets; reflexivity).
  destruct (Z.eq_dec (mainExecutedMachTime ts) 0) as [Emain|Emain].
  - (* the calculator returns at once *)
    assert (Er : r = zero_durations).
    { subst r. rewrite Ed', calculate_unmarked; [exact Hd1|].
      right. rewrite <- Ets. exact Emain. }
    rewrite Er. repeat split; reflexivity.
  - rewrite Ets in Emain.
    destruct (calculate_fields numer denom now_tv machNow d1 Hm1 Emain)
      as (Ft & Fd & Fo & Fs & Fp & Fk).
    rewrite <- Ed', <- Ets in Ft, Fd, Fo, Fs, Fp, Fk.
    fold r in Ft, Fd, Fo, Fs, Fp, Fk. rewrite Hd1 in *.
    rewrite <- Ets in Emain.
    split_and!.
    + intros [H|H]; [|contradiction].
      rewrite Ft, (gtb_unset _ H). reflexivity.
    + intros [H|[H|H]]; [| |contradiction]; rewrite Fd, (gtb_unset _ H);
        rewrite ?andb_false_r; reflexivity.
    + intros [H|[H|H]]; [| |contradiction]; rewrite Fo, (gtb_unset _ H);
        rewrite ?andb_false_r; reflexivity.
    + intros [H|[H|H]]; [| |contradiction]; rewrite Fs, (gtb_unset _ H);
        rewrite ?andb_false_r; reflexivity.
    + intros [H|H]; [|contradiction].
      rewrite Fp, (gtb_unset _ H). reflexivity.
    + intros [H|H]; [|contradiction].
      rewrite (Fk (gtb_unset _ H)). reflexivity.
    + intros Hes H.
      pose proof (run_start_time es initial Hes initial_start_time) as Hctor.
      fold g in Hctor.
      assert (Hps0 : processStartTimeUnixMicros ts = 0).
      { destruct (Z.eq_dec (processStartTimeUnixMicros ts) 0) as [E|E];
          [exact E|].
        exfalso. rewrite Hps in E. apply (Hctor E). rewrite <- Hc.
        exact H. }
      rewrite (Fk (gtb_unset _ Hps0)). reflexivity.
Qed.

End UnsetInputs.

(** ** The slowest records *)

Section Slowest.

Variable cap : Z.
Variable qsort :
  (DPDylibLoadInfo -> DPDylibLoadInfo -> Z) ->
  list DPDylibLoadInfo -> list DPDylibLoadInfo.

Local Abbreviation GetSlowest := (DPPreMainGetSlowestDylibs cap qsort).

Lemma compare_le_0 a b :
  dp_compare_dylib_by_duration a b <= 0 <->
  loadDurationNanos a >= loadDurationNanos b.
Proof.
  unfold dp_compare_dylib_by_duration.
  destruct (Z.gtb_spec (loadDurationNanos a) (loadDurationNanos b));
    [lia|].
  destruct (Z.ltb_spec (loadDurationNanos a) (loadDurationNanos b)); lia.
Qed.

Lemma StronglySorted_lookup {A} (R : A -> A -> Prop) l i j a b :
  StronglySorted R l -> (i < j)%nat ->
  l !! i = Some a -> l !! j = Some b -> R a b.
Proof.
  intros Hs. revert i j.
  induction Hs as [|x l _ IH Hx]; intros i j Hij Ha Hb.
  - discriminate.
  - destruct j as [|j]; [lia|]. destruct i as [|i].
    + injection Ha as <-. rewrite Forall_forall in Hx.
      apply Hx. eapply list_elem_of_lookup_2. exact Hb.
    + apply (IH i j); [lia | exact Ha | exact Hb].
Qed.

Lemma sorted_descending l :
  StronglySorted (fun a b => dp_compare_dylib_by_duration a b <= 0) l ->
  descending_by_duration l.
Proof.
  intros Hs i j a b Hij Ha Hb. apply compare_le_0.
  exact (StronglySorted_lookup _ l i j a b Hs Hij Ha Hb).
Qed.

Lemma descending_take k l :
  descending_by_duration l -> descending_by_duration (take k l).
Proof.
  intros Hd i j a b Hij Ha Hb.
  apply lookup_take_Some in Ha as [Ha _].
  apply lookup_take_Some in Hb as [Hb _].
  exact (Hd i j a b Hij Ha Hb).
Qed.

(** C8 (as amended).  On a well-shaped ledger with [T] published
    records, a call with a non-null buffer and [n > 0] whose temporary
    buffer is allocated returns [min n T]; the records returned are the
    first [min n T] of the sorted copy of the [T] published ones: of a
    list [sorted] that holds exactly the [T] published records and is, as
    a whole, in descending order of [loadDurationNanos].  So the records
    returned are in descending order too.  A null buffer or [n = 0]
    returns 0 and leaves the buffer alone, and so does a call whose
    [malloc] fails. *)
Theorem DPPreMainGetSlowestDylibs_returns_sorted_prefix g buf n :
  qsort_sorts qsort ->
  ledger_shape cap g ->
  0 < n ->
  let T := dylibCount (g_preMainData g) in
  let res := DPPreMainGetSlowestDylibs cap qsort true (Some buf) n g in
  fst res = Z.min n T /\
  (exists out sorted,
     snd res = Some out /\
     sorted ≡ₚ take (Z.to_nat T) (g_dylibLoadInfos g) /\
     descending_by_duration sorted /\
     take (Z.to_nat (fst res)) out = take (Z.to_nat (fst res)) sorted /\
     length (take (Z.to_nat (fst res)) out) = Z.to_nat (fst res) /\
     descending_by_duration (take (Z.to_nat (fst res)) out)) /\
  (forall ok m, DPPreMainGetSlowestDylibs cap qsort ok None m g = (0, None)) /\
  (forall ok,
     DPPreMainGetSlowestDylibs cap qsort ok (Some buf) 0 g
       = (0, Some buf)) /\
  DPPreMainGetSlowestDylibs cap qsort false (Some buf) n g = (0, Some buf).
Proof.
  intros Hq (Hlen & _ & Hcnt & _) Hn T res.
  assert (Etot : (if T >? cap then cap else T) = T).
  { destruct (Z.gtb_spec T cap); [subst T; lia | reflexivity]. }
  assert (Ek : (if n <? T then n else T) = Z.min n T).
  { destruct (Z.ltb_spec n T); lia. }
  assert (En : (n =? 0) = false) by (apply Z.eqb_neq; lia).
  set (sorted := qsort dp_compare_dylib_by_duration
                   (take (Z.to_nat T) (g_dylibLoadInfos g))).
  assert (Eres : res = (Z.min n T,
                        Some (memcpy buf sorted (Z.to_nat (Z.min n T))))).
  { subst res. unfold DPPreMainGetSlowestDylibs. rewrite En.
    fold T. rewrite Etot. cbn [negb]. fold sorted. rewrite Ek.
    reflexivity. }
  destruct (Hq (take (Z.to_nat T) (g_dylibLoadInfos g))) as [Hperm Hsorted].
  fold sorted in Hperm, Hsorted.
  assert (Hslen : length sorted = Z.to_nat T).
  { rewrite Hperm, length_take_le; [reflexivity|]. rewrite Hlen.
    subst T. lia. }
  assert (Hk : (Z.to_nat (Z.min n T) <= length sorted)%nat)
    by (rewrite Hslen; lia).
  assert (Etake : take (Z.to_nat (Z.min n T))
                    (memcpy buf sorted (Z.to_nat (Z.min n T)))
                  = take (Z.to_nat (Z.min n T)) sorted).
  { unfold memcpy. apply take_app_length'.
    rewrite length_take_le by exact Hk. reflexivity. }
  rewrite Eres. cbn [fst snd]. split_and!.
  - reflexivity.
  - exists (memcpy buf sorted (Z.to_nat (Z.min n T))), sorted.
    split_and!; [reflexivity | exact Hperm | | exact Etake | |].
    + apply sorted_descending, Hsorted.
    + rewrite Etake. apply length_take_le, Hk.
    + rewrite Etake. apply descending_take, sorted_descending, Hsorted.
  - reflexivity.
  - reflexivity.
  - unfold DPPreMainGetSlowestDylibs. rewrite En. reflexivity.
Qed.

End Slowest.

(** ** Concrete runs *)

(** C5, counterexample.  On a 125/3 clock basis a tick count of 2^58
    makes the 64-bit product wrap: the conversion returns
    5860684315084805461 where the exact quotient, which fits in 64 bits,
    is 12009599006321322666. *)
Lemma DPMachTimeToNanos_wraps :
  fst (DPMachTimeToNanos 125 3 (2 ^ 58)
         (marked_snapshot 125 3 zero_timestamps))
    <> (2 ^ 58 * 125) / 3 /\
  fst (DPMachTimeToNanos 125 3 (2 ^ 58)
         (marked_snapshot 125 3 zero_timestamps))
    = 5860684315084805461 /\
  (2 ^ 58 * 125) / 3 = 12009599006321322666 /\
  12009599006321322666 < 2 ^ 64.
Proof. repeat split; by_evaluation. Qed.

Lemma DPMachTimeToNanos_wraps_then_divides_witness :
  fst (DPMachTimeToNanos 125 3 6000
         (marked_snapshot 125 3 zero_timestamps))
    = ((6000 * 125) mod 2 ^ 64) / 3 /\
  (6000 * 125 < 2 ^ 64 ->
   fst (DPMachTimeToNanos 125 3 6000
          (marked_snapshot 125 3 zero_timestamps))
     = (6000 * 125) / 3).
Proof.
  apply (DPMachTimeToNanos_wraps_then_divides 125 3 6000
           (marked_snapshot 125 3 zero_timestamps)); by_evaluation.
Defined.

(** C1, counterexample.  Clock basis 1:1, constructor at tick 1000, first
    callback at 1100, last at 1300, entry at 1600: the three phases are 200,
    100 and 300 ns and the total 600 ns, but in binary64
    [0.0002 + 0.0001 + 0.0003] is not [0.0006]. *)
Lemma phase_sum_is_not_the_total :
  let d := marked_snapshot 1 1 (mkTimestamps 0 1000 1100 1300 1600 0 0) in
  let r := durations (dp_calculate_durations 1 1 (0, 0) 0 d) in
  double_eqb (totalPreMainMs r) (phase_sum_ms r) = false /\
  totalPreMainMs r <> phase_sum_ms r.
Proof. split; by_evaluation. Qed.

(** On a 125/3 clock basis three intervals of one tick are 41 ns each
    while the three ticks together are 125 ns: the integer divisions lose
    the 2 ns the bound allows. *)
Lemma phase_nanos_lose_two :
  let d := marked_snapshot 125 3 (mkTimestamps 0 1000 1001 1002 1003 0 0) in
  let r := durations (dp_calculate_durations 125 3 (0, 0) 0 d) in
  totalPreMainMs r = nanos_to_millis 125 /\
  dylibLoadingMs r = nanos_to_millis 41 /\
  staticInitializerMs r = nanos_to_millis 41 /\
  postDyldToMainMs r = nanos_to_millis 41.
Proof. repeat split; by_evaluation. Qed.

Lemma durations_decompose_in_nanos_witness :
  let d := marked_snapshot 125 3 (mkTimestamps 0 1000 1200 5000 6000 0 0) in
  let r := durations (dp_calculate_durations 125 3 (0, 0) 0 d) in
  totalPreMainMs r = nanos_to_millis ((6000 - 1000) * 125 / 3) /\
  dylibLoadingMs r = nanos_to_millis ((5000 - 1200) * 125 / 3) /\
  staticInitializerMs r = nanos_to_millis ((1200 - 1000) * 125 / 3) /\
  postDyldToMainMs r = nanos_to_millis ((6000 - 5000) * 125 / 3) /\
  (5000 - 1200) * 125 / 3 + (1200 - 1000) * 125 / 3 + (6000 - 5000) * 125 / 3
    <= (6000 - 1000) * 125 / 3
    <= (5000 - 1200) * 125 / 3 + (1200 - 1000) * 125 / 3
       + (6000 - 5000) * 125 / 3 + 2 /\
  ((3 | 125) ->
   (6000 - 1000) * 125 / 3
   = (5000 - 1200) * 125 / 3 + (1200 - 1000) * 125 / 3
     + (6000 - 5000) * 125 / 3).
Proof.
  apply (durations_decompose_in_nanos 125 3 (0, 0) 0
           (marked_snapshot 125 3
              (mkTimestamps 0 1000 1200 5000 6000 0 0)));
    by_evaluation.
Defined.

(** C3, counterexample.  Detail recording is switched off right after the
    constructor and one image is then loaded: one event was delivered,
    yet [dylibCount] in the snapshot is 0, not 1; only the cursor moved. *)
Lemma disabled_event_is_not_in_dylibCount :
  let g := run DP_MAX_DYLIB_COUNT_header 1 1
             (started ++ [EvSetDylibDetailEnabled false;
                          EvImageAdded 1100 (Some path_libSystem) 0])
             (initial_globals DP_MAX_DYLIB_COUNT_header) in
  dylibCount (DPPreMainGetData g) <> 1 /\
  dylibCount (DPPreMainGetData g) = 0 /\
  g_dylibIndex g = 1.
Proof. repeat split; by_evaluation. Qed.

Lemma detail_disabled_events_only_move_cursor_witness :
  let evs := [(1100, Some path_libSystem, 0); (1200, Some path_app, 4096)] in
  let g := run DP_MAX_DYLIB_COUNT_header 1 1
             (EvInit 1000 None :: EvSetDylibDetailEnabled false
              :: map image_event evs)
             (initial_globals DP_MAX_DYLIB_COUNT_header) in
  fst (DPPreMainGetAllDylibs DP_MAX_DYLIB_COUNT_header
         (Some [zero_info; zero_info]) 2 g) = 0 /\
  dylibCount (g_preMainData g) = 0 /\
  systemDylibCount (g_preMainData g) = 0 /\
  userDylibCount (g_preMainData g) = 0 /\
  g_dylibLoadInfos g
    = g_dylibLoadInfos (initial_globals DP_MAX_DYLIB_COUNT_header) /\
  g_dylibIndex g = u32 (Z.of_nat (length evs)) /\
  lastDyldCallbackMachTime (timestamps (g_preMainData g))
    = last_event_time evs 0.
Proof.
  apply (detail_disabled_events_only_move_cursor
           DP_MAX_DYLIB_COUNT_header 1 1 1000 None
           [(1100, Some path_libSystem, 0); (1200, Some path_app, 4096)]
           (Some [zero_info; zero_info]) 2); by_evaluation.
Defined.

(** C2, counterexample.  Capacity 2, detail recording on, three image
    events: [DPPreMainGetAllDylibs] copies 2 records, and [dylibCount] is
    2, not 3. *)
Lemma three_events_capacity_two :
  let g := run 2 1 1
             (started ++ [EvImageAdded 1100 (Some path_libSystem) 0;
                          EvImageAdded 1200 (Some path_libobjc) 0;
                          EvImageAdded 1300 (Some path_app) 0])
             (initial_globals 2) in
  fst (DPPreMainGetAllDylibs 2 (Some [zero_info; zero_info; zero_info]) 3 g)
    = 2 /\
  dylibCount (DPPreMainGetData g) <> 3 /\
  dylibCount (DPPreMainGetData g) = 2 /\
  lastDyldCallbackMachTime (timestamps (DPPreMainGetData g)) = 1300.
Proof. repeat split; by_evaluation. Qed.

Lemma events_beyond_capacity_are_not_counted_witness :
  let g2 := run 2 1 1
              (started ++ [EvImageAdded 1100 (Some path_libSystem) 0;
                           EvImageAdded 1200 (Some path_libobjc) 0])
              (initial_globals 2) in
  let g3 := dp_dyld_image_added_callback 2 1 1 1300 (Some path_app) 0 g2 in
  (dylibCount (g_preMainData g3) = dylibCount (g_preMainData g2) /\
   systemDylibCount (g_preMainData g3)
     = systemDylibCount (g_preMainData g2) /\
   userDylibCount (g_preMainData g3) = userDylibCount (g_preMainData g2) /\
   g_dylibLoadInfos g3 = g_dylibLoadInfos g2 /\
   g_dylibIndex g3 = u32 (g_dylibIndex g2 + 1) /\
   lastDyldCallbackMachTime (timestamps (g_preMainData g3)) = 1300 /\
   firstDyldCallbackMachTime (timestamps (g_preMainData g3))
     = (if firstDyldCallbackMachTime (timestamps (g_preMainData g2)) =? 0
        then 1300
        else firstDyldCallbackMachTime (timestamps (g_preMainData g2)))) /\
  (let evs := [(1100, Some path_libSystem, 0); (1200, Some path_libobjc, 0);
               (1300, Some path_app, 0)] in
   let g := run 2 1 1 (EvInit 1000 None :: map image_event evs)
              (initial_globals 2) in
   dylibCount (g_preMainData g) = Z.min (Z.of_nat (length evs)) 2 /\
   fst (DPPreMainGetAllDylibs 2 (Some [zero_info; zero_info; zero_info]) 3 g)
     = Z.min 3 (Z.min (Z.of_nat (length evs)) 2)).
Proof.
  split.
  - apply (proj1 (events_beyond_capacity_are_not_counted 2 1 1
                    ltac:(by_evaluation))); by_evaluation.
  - apply (proj2 (events_beyond_capacity_are_not_counted 2 1 1
                    ltac:(by_evaluation))); by_evaluation.
Defined.

(** C4, failing input.  After the constructor, detail recording is
    switched off, one image is loaded, recording is switched on again and
    a second image is loaded.  The second event gets cursor value 1, so
    [dylibCount] becomes 2 while only one record was classified:
    [systemDylibCount + userDylibCount] is 1.  Slot 0, which
    [DPPreMainGetDylibInfo] now hands out, was never written. *)
Theorem counters_disagree_after_detail_toggle :
  let g := run DP_MAX_DYLIB_COUNT_header 1 1
             (started ++ [EvSetDylibDetailEnabled false;
                          EvImageAdded 1100 (Some path_libSystem) 0;
                          EvSetDylibDetailEnabled true;
                          EvImageAdded 1200 (Some path_app) 0])
             (initial_globals DP_MAX_DYLIB_COUNT_header) in
  let d := DPPreMainGetData g in
  dylibCount d = 2 /\
  systemDylibCount d = 0 /\
  userDylibCount d = 1 /\
  systemDylibCount d + userDylibCount d <> dylibCount d /\
  DPPreMainGetDylibInfo DP_MAX_DYLIB_COUNT_header 0 g = Some zero_info.
Proof. repeat split; by_evaluation. Qed.

Lemma durations_with_unset_inputs_stay_zero_witness :
  let es := started ++ [EvImageAdded 1100 (Some path_libSystem) 0;
                        EvImageAdded 1300 (Some path_app) 0] in
  let g := run 4 1 1 es (initial_globals 4) in
  let d' := g_preMainData
              (DPPreMainMarkMainExecuted 1 1 1600 (1700000001, 0) 1600 g) in
  let ts := timestamps d' in
  let r := durations d' in
  (constructorMachTime ts = 0 \/ mainExecutedMachTime ts = 0 ->
   totalPreMainMs r = double_zero) /\
  (firstDyldCallbackMachTime ts = 0 \/ lastDyldCallbackMachTime ts = 0
   \/ mainExecutedMachTime ts = 0 ->
   dylibLoadingMs r = double_zero) /\
  (objcLoadStartMachTime ts = 0 \/ objcLoadEndMachTime ts = 0
   \/ mainExecutedMachTime ts = 0 ->
   objcLoadMs r = double_zero) /\
  (constructorMachTime ts = 0 \/ firstDyldCallbackMachTime ts = 0
   \/ mainExecutedMachTime ts = 0 ->
   staticInitializerMs r = double_zero) /\
  (lastDyldCallbackMachTime ts = 0 \/ mainExecutedMachTime ts = 0 ->
   postDyldToMainMs r = double_zero) /\
  (processStartTimeUnixMicros ts = 0 \/ mainExecutedMachTime ts = 0 ->
   estimatedKernelToConstructorMs r = double_zero) /\
  (constructorMachTime ts = 0 ->
   estimatedKernelToConstructorMs r = double_zero).
Proof.
  destruct (durations_with_unset_inputs_stay_zero 4 1 1
              (started ++ [EvImageAdded 1100 (Some path_libSystem) 0;
                           EvImageAdded 1300 (Some path_app) 0])
              1600 (1700000001, 0) 1600 ltac:(by_evaluation))
    as (A & B & C & D & E & F & G).
  cbv zeta. split_and!; try assumption.
  apply G. repeat constructor. discriminate.
Defined.

(** In that run the ObjC marks were never set: [objcLoadMs] is left at 0
    while the four fields with complete inputs are written. *)
Lemma unset_objc_marks_leave_objcLoadMs_zero :
  let es := started ++ [EvImageAdded 1100 (Some path_libSystem) 0;
                        EvImageAdded 1300 (Some path_app) 0] in
  let g := run 4 1 1 es (initial_globals 4) in
  let r := durations (g_preMainData
             (DPPreMainMarkMainExecuted 1 1 1600 (1700000001, 0) 1600 g)) in
  objcLoadMs r = double_zero /\
  totalPreMainMs r = nanos_to_millis 600 /\
  dylibLoadingMs r = nanos_to_millis 200 /\
  staticInitializerMs r = nanos_to_millis 100 /\
  postDyldToMainMs r = nanos_to_millis 300.
Proof. repeat split; by_evaluation. Qed.

(** Merge sort on the comparator is a conforming [qsort]. *)
Lemma merge_qsort_sorts : qsort_sorts merge_qsort.
Proof.
  intros l. unfold merge_qsort. split.
  - apply merge_sort_Permutation.
  - apply StronglySorted_merge_sort.
    + intros a b c Hab Hbc. apply compare_le_0 in Hab, Hbc.
      apply compare_le_0. lia.
    + intros a b.
      destruct (Z_le_gt_dec (loadDurationNanos b) (loadDurationNanos a)).
      * left. apply compare_le_0. lia.
      * right. apply compare_le_0. lia.
Qed.

(** C8, counterexample.  One image has been recorded, so [T = 1]; the
    caller passes a one-record buffer and [n = 1], and [malloc] returns
    null: the call returns 0, not [min 1 1]. *)
Lemma DPPreMainGetSlowestDylibs_without_memory :
  let g := run DP_MAX_DYLIB_COUNT_header 1 1
             (started ++ [EvImageAdded 1100 (Some path_libSystem) 0])
             (initial_globals DP_MAX_DYLIB_COUNT_header) in
  dylibCount (DPPreMainGetData g) = 1 /\
  fst (DPPreMainGetSlowestDylibs DP_MAX_DYLIB_COUNT_header merge_qsort false
         (Some [zero_info]) 1 g) = 0 /\
  fst (DPPreMainGetSlowestDylibs DP_MAX_DYLIB_COUNT_header merge_qsort false
         (Some [zero_info]) 1 g)
    <> Z.min 1 (dylibCount (DPPreMainGetData g)).
Proof. repeat split; by_evaluation. Qed.

Lemma DPPreMainGetSlowestDylibs_returns_sorted_prefix_witness :
  let g := mkGlobals (set_dylibCount 3 (marked_snapshot 1 1 zero_timestamps))
             [a_record 5; a_record 9; a_record 7; zero_info] 3 true in
  let buf := [zero_info; zero_info] in
  let T := dylibCount (g_preMainData g) in
  let res := DPPreMainGetSlowestDylibs 4 merge_qsort true (Some buf) 2 g in
  fst res = Z.min 2 T /\
  (exists out sorted,
     snd res = Some out /\
     sorted ≡ₚ take (Z.to_nat T) (g_dylibLoadInfos g) /\
     descending_by_duration sorted /\
     take (Z.to_nat (fst res)) out = take (Z.to_nat (fst res)) sorted /\
     length (take (Z.to_nat (fst res)) out) = Z.to_nat (fst res) /\
     descending_by_duration (take (Z.to_nat (fst res)) out)) /\
  (forall ok m,
     DPPreMainGetSlowestDylibs 4 merge_qsort ok None m g = (0, None)) /\
  (forall ok,
     DPPreMainGetSlowestDylibs 4 merge_qsort ok (Some buf) 0 g
       = (0, Some buf)) /\
  DPPreMainGetSlowestDylibs 4 merge_qsort false (Some buf) 2 g
    = (0, Some buf).
Proof.
  apply (DPPreMainGetSlowestDylibs_returns_sorted_prefix 4 merge_qsort
           (mkGlobals (set_dylibCount 3 (marked_snapshot 1 1 zero_timestamps))
              [a_record 5; a_record 9; a_record 7; zero_info] 3 true)
           [zero_info; zero_info] 2).
  - exact merge_qsort_sorts.
  - unfold ledger_shape. split_and!; try by_evaluation.
    repeat constructor.
  - by_evaluation.
Defined.

(** On that ledger the two slowest records come out as 9 then 7. *)
Lemma slowest_two_of_three :
  let g := mkGlobals (set_dylibCount 3 (marked_snapshot 1 1 zero_timestamps))
             [a_record 5; a_record 9; a_record 7; zero_info] 3 true in
  DPPreMainGetSlowestDylibs 4 merge_qsort true
    (Some [zero_info; zero_info]) 2 g
  = (2, Some [a_record 9; a_record 7]).
Proof. by_evaluation. Qed.

(** A function that sorted only the first two records of that ledger
    would hand out 9 then 5; no descending list of the three published
    records begins that way, so the statement excludes it. *)
Lemma sorting_only_the_first_two_is_excluded :
  ~ exists sorted,
      sorted ≡ₚ [a_record 5; a_record 9; a_record 7] /\
      descending_by_duration sorted /\
      take 2 [a_record 9; a_record 5] = take 2 sorted.
Proof.
  intros (sorted & Hp & Hd & Ht).
  pose proof (Permutation_length Hp) as Hl.
  destruct sorted as [|x [|y [|z [|? ?]]]]; try discriminate Hl.
  cbn [take] in Ht. injection Ht as <- <-.
  assert (Hz : a_record 7 ∈ [a_record 9; a_record 5; z]).
  { rewrite Hp. repeat constructor. }
  pose proof (Hd 1%nat 2%nat (a_record 5) z ltac:(lia) eq_refl eq_refl)
    as Hle.
  apply elem_of_cons in Hz as [Hz|Hz]; [discriminate Hz|].
  apply elem_of_cons in Hz as [Hz|Hz]; [discriminate Hz|].
  apply list_elem_of_singleton in Hz. subst z. cbn in Hle. lia.
Qed.

Lemma DPPreMainReset_restores_the_empty_state_witness :
  let g := run 4 1 1
             (started ++ [EvImageAdded 1100 (Some path_libSystem) 0;
                          EvMarkMainExecuted 1600 (1700000001, 0) 1600])
             (initial_globals 4) in
  let g' := DPPreMainReset 4 125 3 g in
  dylibCount (DPPreMainGetData g) = 1 /\
  timestamps (DPPreMainGetData g') = zero_timestamps /\
  durations (DPPreMainGetData g') = zero_durations /\
  dylibCount (DPPreMainGetData g') = 0 /\
  g_dylibLoadInfos g' = replicate 4 zero_info /\
  g_dylibIndex g' = 0 /\
  dylibDetailEnabled (DPPreMainGetData g') = true /\
  timebaseNumer (DPPreMainGetData g') = 125 /\
  timebaseDenom (DPPreMainGetData g') = 3 /\
  DPPreMainGetDylibInfo 4 0 g' = None /\
  g_dylibLoadInfos
    (dp_dyld_image_added_callback 4 125 3 2000 (Some path_app) 0 g')
    !! 0%nat
  = Some (callback_info 125 3 2000 (Some path_app) 0 g').
Proof.
  pose proof (DPPreMainReset_restores_the_empty_state 4 125 3
                (run 4 1 1
                   (started ++ [EvImageAdded 1100 (Some path_libSystem) 0;
                                EvMarkMainExecuted 1600 (1700000001, 0) 1600])
                   (initial_globals 4))
                ltac:(by_evaluation))
    as (A & B & C & _ & _ & _ & D & E & F & G & H & I & _ & _ & J).
  cbv zeta. split_and!; try assumption.
  - by_evaluation.
  - apply I. by_evaluation.
  - apply (J 2000 (Some path_app) 0).
Defined.

Lemma stored_name_is_the_truncated_base_filename_witness :
  let g := run 4 1 1 started (initial_globals 4) in
  let g' := dp_dyld_image_added_callback 4 1 1 1100 (Some path_long_name) 0
              g in
  (exists r,
     g_dylibLoadInfos g' !! Z.to_nat (g_dylibIndex g) = Some r /\
     length (name r) = DP_MAX_DYLIB_NAME_LENGTH /\
     name r !! 255%nat = Some NUL /\
     (strlen (name r) <= 255)%nat /\
     exists base,
       base_filename (c_str path_long_name) base /\
       c_str (name r) = take 255 base) /\
  Forall name_terminated (g_dylibLoadInfos g').
Proof.
  apply (stored_name_is_the_truncated_base_filename 4 1 1 1100
           (Some path_long_name) 0 (run 4 1 1 started (initial_globals 4))).
  - by_evaluation.
  - exists started. reflexivity.
  - by_evaluation.
  - by_evaluation.
Defined.

(** A 300-character file name is stored as its first 255 characters. *)
Lemma long_name_is_cut_at_255 :
  let g := run 4 1 1 (started ++ [EvImageAdded 1100 (Some path_long_name) 0])
             (initial_globals 4) in
  (c_str <$> (name <$> DPPreMainGetDylibInfo 4 0 g))
    = Some (replicate 255 "x"%char) /\
  (name <$> DPPreMainGetDylibInfo 4 0 g)
    = Some (replicate 255 "x"%char ++ [NUL]).
Proof. split; by_evaluation. Qed.

(** ** Further properties of the path helpers *)

Section PathHelpers.

(** X1.  [dp_is_system_library] answers true exactly for a resolved path
    that begins, character for character, with one of the five fixed
    prefixes; a null path is never a system library. *)
Theorem dp_is_system_library_five_prefixes path :
  dp_is_system_library path = true <->
  exists p,
    path = Some p /\
    (starts_with (cstring "/usr/lib/") p \/
     starts_with (cstring "/System/") p \/
     starts_with (cstring "/Library/Apple/") p \/
     starts_with (cstring "/private/var/db/dyld/") p \/
     starts_with (cstring "/AppleInternal/") p).
Proof.
  rewrite dp_is_system_library_spec. split.
  - intros (p & pre & -> & Hin & Hs). exists p. split; [reflexivity|].
    unfold systemPrefixes in Hin. cbn [In] in Hin.
    destruct Hin as [<-|[<-|[<-|[<-|[<-|[]]]]]]; auto 6.
  - intros (p & -> & H). exists p.
    destruct H as [H|[H|[H|[H|H]]]];
      (eexists; split; [reflexivity|]; split; [|exact H]);
      unfold systemPrefixes; cbn [In]; auto 6.
Qed.

Lemma strrchr_without_slash s :
  ~ In "/"%char (c_str s) -> strrchr s "/"%char = None.
Proof.
  intros Hno. pose proof (strrchr_slash s) as H.
  destruct (strrchr s "/"%char) as [q|]; [|reflexivity].
  destruct H as (dir & rest & _ & E & _). exfalso. apply Hno.
  rewrite E. apply in_or_app. right. left. reflexivity.
Qed.

(** X2.  The name [dp_extract_filename] returns for a path holds no
    ['/'], the path ends with it, right after its last ['/'] when it has
    one, and extracting again changes nothing; a null path gives
    ["unknown"]. *)
Theorem dp_extract_filename_is_the_last_component p :
  let f := dp_extract_filename (Some p) in
  ~ In "/"%char (c_str f) /\
  (exists dir, c_str p = dir ++ c_str f /\
               (In "/"%char (c_str p) -> last dir = Some "/"%char)) /\
  dp_extract_filename (Some f) = f /\
  dp_extract_filename None = cstring "unknown".
Proof.
  intros f.
  assert (Hno : ~ In "/"%char (c_str f)).
  { destruct (dp_extract_filename_base p) as [(dir & E & H)|[H E]].
    - exact H.
    - fold f in E. rewrite E. exact H. }
  split_and!.
  - exact Hno.
  - destruct (dp_extract_filename_base p) as [(dir & E & H)|[H E]];
      fold f in E.
    + exists (dir ++ ["/"%char]). split.
      * rewrite E, <- app_assoc. reflexivity.
      * intros _. apply last_snoc.
    + exists []. split; [rewrite E; reflexivity|].
      intros Hin. contradiction.
  - unfold dp_extract_filename at 1.
    rewrite (strrchr_without_slash f Hno). reflexivity.
  - reflexivity.
Qed.

End PathHelpers.

(** ** Further properties of the clock conversions *)

Section ClockHelpers.

Variable numer denom : Z.

(** X3.  [dp_get_process_start_time_unix_micros] is 0 when [sysctl]
    fails; otherwise, for a start time with [0 <= tv_usec < 10^6] that
    fits in 64 bits, it is [tv_sec * 10^6 + tv_usec], from which seconds
    and microseconds are recovered by division and remainder. *)
Theorem process_start_micros_keeps_the_timeval sec usec :
  0 <= sec -> 0 <= usec < 1000000 -> sec * 1000000 + usec < 2 ^ 64 ->
  let m := dp_get_process_start_time_unix_micros (Some (sec, usec)) in
  m = sec * 1000000 + usec /\
  m / 1000000 = sec /\
  m mod 1000000 = usec /\
  dp_get_process_start_time_unix_micros None = 0.
Proof.
  intros Hs Hu Hfit m.
  assert (E : m = sec * 1000000 + usec).
  { subst m. unfold dp_get_process_start_time_unix_micros, timeval_micros.
    cbn [fst snd].
    rewrite (u64_small sec) by lia. rewrite (u64_small usec) by lia.
    rewrite (u64_small (sec * 1000000)) by lia. apply u64_small. lia. }
  rewrite E. split_and!; try reflexivity.
  - rewrite Z.div_add_l by lia. rewrite Z.div_small by lia. lia.
  - rewrite Z.add_comm, Z.mod_add by lia. apply Z.mod_small. lia.
Qed.


(** X5.  With an initialised clock basis and a product that fits in 64
    bits, [DPMachTimeToNanos] is monotone in the tick count, and on a
    1:1 basis it returns the tick count itself. *)
Theorem DPMachTimeToNanos_monotone t1 t2 d :
  0 < timebaseDenom d -> 0 <= timebaseNumer d ->
  0 <= t1 <= t2 -> t2 * timebaseNumer d < 2 ^ 64 ->
  fst (DPMachTimeToNanos numer denom t1 d)
    <= fst (DPMachTimeToNanos numer denom t2 d) /\
  (timebaseNumer d = 1 -> timebaseDenom d = 1 ->
   fst (DPMachTimeToNanos numer denom t2 d) = t2).
Proof.
  intros Hd Hn Ht Hfit.
  rewrite !ToNanos_initialized by lia. cbn [fst]. unfold ticks_to_nanos.
  rewrite (u64_small (t1 * timebaseNumer d)) by nia.
  rewrite (u64_small (t2 * timebaseNumer d)) by nia.
  split.
  - apply Z.div_le_mono; [lia | nia].
  - intros -> ->. rewrite Z.mul_1_r, Z.div_1_r. reflexivity.
Qed.

End ClockHelpers.

(** ** The comparator handed to [qsort] *)

Section Comparator.

(** X6.  [dp_compare_dylib_by_duration] is a consistent ordering, as
    [qsort] requires: it only returns -1, 0 or 1, swapping the arguments
    negates the result, it is 0 exactly for equal durations, negative
    exactly when the first record took longer, and "not after" is
    transitive. *)
Theorem dp_compare_dylib_by_duration_is_an_ordering a b c :
  (dp_compare_dylib_by_duration a b = -1 \/
   dp_compare_dylib_by_duration a b = 0 \/
   dp_compare_dylib_by_duration a b = 1) /\
  dp_compare_dylib_by_duration a b = - dp_compare_dylib_by_duration b a /\
  (dp_compare_dylib_by_duration a b = 0 <->
   loadDurationNanos a = loadDurationNanos b) /\
  (dp_compare_dylib_by_duration a b < 0 <->
   loadDurationNanos a > loadDurationNanos b) /\
  (dp_compare_dylib_by_duration a b <= 0 ->
   dp_compare_dylib_by_duration b c <= 0 ->
   dp_compare_dylib_by_duration a c <= 0).
Proof.
  unfold dp_compare_dylib_by_duration.
  destruct (Z.gtb_spec (loadDurationNanos a) (loadDurationNanos b));
    destruct (Z.ltb_spec (loadDurationNanos a) (loadDurationNanos b));
    destruct (Z.gtb_spec (loadDurationNanos b) (loadDurationNanos a));
    destruct (Z.ltb_spec (loadDurationNanos b) (loadDurationNanos a));
    destruct (Z.gtb_spec (loadDurationNanos b) (loadDurationNanos c));
    destruct (Z.ltb_spec (loadDurationNanos b) (loadDurationNanos c));
    destruct (Z.gtb_spec (loadDurationNanos a) (loadDurationNanos c));
    destruct (Z.ltb_spec (loadDurationNanos a) (loadDurationNanos c));
    try lia; split_and!; lia.
Qed.

End Comparator.

(** ** One-shot operations *)

Section OneShot.

Variable cap numer denom : Z.

(** X8.  Apart from [DPPreMainReset], no operation changes a one-shot
    value once it is set: a non-zero first-callback time, a non-zero
    ObjC start or end mark, the entry time and all six durations once the
    entry is marked, and the constructor and process start times once the
    constructor has run. *)
Theorem one_shot_values_are_kept g e :
  e <> EvReset ->
  let d := g_preMainData g in
  let d' := g_preMainData (step cap numer denom g e) in
  (firstDyldCallbackMachTime (timestamps d) <> 0 ->
   firstDyldCallbackMachTime (timestamps d')
     = firstDyldCallbackMachTime (timestamps d)) /\
  (objcLoadStartMachTime (timestamps d) <> 0 ->
   objcLoadStartMachTime (timestamps d')
     = objcLoadStartMachTime (timestamps d)) /\
  (objcLoadEndMachTime (timestamps d) <> 0 ->
   objcLoadEndMachTime (timestamps d') = objcLoadEndMachTime (timestamps d)) /\
  (mainExecutedMarked d = true ->
   mainExecutedMarked d' = true /\
   mainExecutedMachTime (timestamps d')
     = mainExecutedMachTime (timestamps d) /\
   durations d' = durations d) /\
  (g_initialized g = true ->
   g_initialized (step cap numer denom g e) = true /\
   constructorMachTime (timestamps d')
     = constructorMachTime (timestamps d) /\
   processStartTimeUnixMicros (timestamps d')
     = processStartTimeUnixMicros (timestamps d)).
Proof.
  intros Hne d d'. subst d d'.
  destruct e as [t r|t p s|t tv t'|t|t|b|t|]; cbn [step];
    try contradiction.
  - unfold dp_premain_init.
    destruct (g_initialized g) eqn:Ei; [|cbn];
      split_and!; intros; try split_and!; try reflexivity;
      try assumption; discriminate.
  - destruct (callback_frame cap numer denom t p s g)
      as (T & D & M & _ & I & _).
    destruct (record_callback_time_keeps t (timestamps (g_preMainData g)))
      as (P & C & Mn & Os & Oe & _ & F).
    rewrite T, D, M, I, P, C, Mn, Os, Oe, F.
    split_and!; intros H; try split_and!; try reflexivity; try assumption.
    apply Z.eqb_neq in H. rewrite H. reflexivity.
  - destruct (mainExecutedMarked (g_preMainData g)) eqn:Em.
    + rewrite MarkMain_marked by exact Em.
      split_and!; intros; try split_and!; try reflexivity; assumption.
    + unfold DPPreMainMarkMainExecuted. rewrite Em. cbn [negb].
      cbn [with_data g_preMainData g_initialized].
      destruct (calculate_same numer denom tv t'
                  (set_mainExecutedMarked true
                     (with_timestamps (set_mainExecuted t)
                        (g_preMainData g)))) as (-> & _).
      split_and!; intros; try split_and!; try reflexivity;
        try assumption; discriminate.
  - unfold DPPreMainMarkObjCLoadStart.
    destruct (Z.eqb_spec (objcLoadStartMachTime (timestamps (g_preMainData g)))
                0);
      split_and!; intros; try split_and!; try reflexivity;
      try assumption; contradiction.
  - unfold DPPreMainMarkObjCLoadEnd.
    destruct (Z.eqb_spec (objcLoadEndMachTime (timestamps (g_preMainData g)))
                0);
      split_and!; intros; try split_and!; try reflexivity;
      try assumption; contradiction.
  - split_and!; intros; try split_and!; try reflexivity; assumption.
  - cbn [with_data g_preMainData snd DPMachTimeToNanos g_initialized].
    change (if timebaseDenom (g_preMainData g) =? 0
            then dp_initialize_timebase numer denom (g_preMainData g)
            else g_preMainData g)
      with (effective_basis numer denom (g_preMainData g)).
    rewrite effective_basis_durations.
    destruct (effective_basis_same numer denom (g_preMainData g))
      as (-> & -> & _).
    split_and!; intros; try split_and!; try reflexivity; assumption.
Qed.

End OneShot.

(** ** What a run of image events leaves behind *)

Section LoadOrder.

Variable cap numer denom : Z.

(** X9.  Whether or not detail recording is on and whether or not a slot
    is left, image events with non-zero clock readings leave the reading
    of the last one as the last-callback time, and as first-callback time
    the one already recorded or else the reading of the first event. *)
Theorem first_and_last_callback_times evs g :
  Forall (fun e => fst (fst e) <> 0) evs ->
  let ts := timestamps (g_preMainData g) in
  let ts' := timestamps (g_preMainData
               (run cap numer denom (map image_event evs) g)) in
  lastDyldCallbackMachTime ts'
    = last_event_time evs (lastDyldCallbackMachTime ts) /\
  firstDyldCallbackMachTime ts' =
    (if firstDyldCallbackMachTime ts =? 0
     then match evs with
          | e :: _ => fst (fst e)
          | [] => 0
          end
     else firstDyldCallbackMachTime ts).
Proof.
  intros Hall. revert g.
  induction Hall as [|[[t p] s] evs Ht _ IH]; intros g; cbv zeta.
  - cbn. split; [reflexivity|].
    destruct (Z.eqb_spec (firstDyldCallbackMachTime
                            (timestamps (g_preMainData g))) 0); congruence.
  - cbn [map]. rewrite run_cons. cbn [step image_event fst snd] in *.
    destruct (IH (dp_dyld_image_added_callback cap numer denom t p s g))
      as [L F].
    destruct (callback_frame cap numer denom t p s g) as (T & _).
    destruct (record_callback_time_keeps t (timestamps (g_preMainData g)))
      as (_ & _ & _ & _ & _ & L1 & F1).
    rewrite L, F, T, L1, F1, last_event_time_cons. cbn [fst].
    split; [reflexivity|].
    destruct (Z.eqb_spec (firstDyldCallbackMachTime
                            (timestamps (g_preMainData g))) 0) as [E|E].
    + apply Z.eqb_neq in Ht. rewrite Ht. reflexivity.
    + apply Z.eqb_neq in E. rewrite E. reflexivity.
Qed.

Lemma callback_keeps_basis t p s g :
  timebaseNumer (g_preMainData g) = numer ->
  timebaseDenom (g_preMainData g) = denom ->
  let d' := g_preMainData
              (dp_dyld_image_added_callback cap numer denom t p s g) in
  timebaseNumer d' = numer /\ timebaseDenom d' = denom.
Proof.
  destruct g as [[[ps c f l mn os oe] dur cnt sys usr marked en n m]
                   infos idx ini].
  cbn [g_preMainData timebaseNumer timebaseDenom]. intros -> ->.
  unfold dp_dyld_image_added_callback, DPMachTimeToNanos,
    dp_initialize_timebase.
  cbn [with_data g_preMainData with_timestamps dylibDetailEnabled
       g_dylibIndex set_index negb g_dylibLoadInfos g_initialized
       timestamps record_callback_time constructorMachTime set_lastDyld
       set_firstDyld firstDyldCallbackMachTime timebaseDenom].
  destruct en; cbn [negb]; [|split; reflexivity].
  destruct (idx >=? cap); [split; reflexivity|].
  destruct (f =? 0);
    cbn [constructorMachTime set_lastDyld set_firstDyld timestamps
         timebaseDenom];
    destruct (c >? 0); destruct (denom =? 0);
    cbn [isSystemLibrary]; destruct (fill_is_system p);
    cbn; split; reflexivity.
Qed.

Lemma callback_nanos_on_basis t d :
  timebaseNumer d = numer -> timebaseDenom d = denom ->
  callback_nanos numer denom t d =
    (if constructorMachTime (timestamps d) >? 0
     then u64 (u64 (t - constructorMachTime (timestamps d)) * numer) / denom
     else 0).
Proof.
  intros Hn Hd. unfold callback_nanos, ticks_to_nanos, effective_basis,
    dp_initialize_timebase.
  destruct (constructorMachTime (timestamps d) >? 0); [|reflexivity].
  destruct (timebaseDenom d =? 0); cbn [timebaseNumer timebaseDenom set_timebase];
    rewrite ?Hn, ?Hd; reflexivity.
Qed.

Lemma fill_name_content p old :
  length old = DP_MAX_DYLIB_NAME_LENGTH ->
  old !! Nat.pred DP_MAX_DYLIB_NAME_LENGTH = Some NUL ->
  c_str (fill_name p old) = take 255 (c_str (dp_extract_filename p)).
Proof.
  intros Hlen Hlast. destruct p as [p|].
  - apply fill_name_resolved, Hlen.
  - destruct (fill_name_unresolved old Hlen Hlast) as (_ & _ & ->).
    vm_compute. reflexivity.
Qed.

Lemma recording_step machNow evs t p s g :
  0 <= cap -> Z.of_nat (length evs) < cap ->
  Z.of_nat (length evs) + 1 < 2 ^ 32 ->
  recording cap numer denom machNow evs g ->
  recording cap numer denom machNow (evs ++ [(t, p, s)])
    (dp_dyld_image_added_callback cap numer denom t p s g).
Proof.
  intros Hcap Hlt Hfit (Hc & Hs & Hctor & Hn & Hd & Hrec).
  pose proof Hc as (Hen & Hidx & _).
  assert (Hlt' : g_dylibIndex g < cap) by (rewrite Hidx; exact Hlt).
  destruct (callback_record cap numer denom t p s g Hen Hlt')
    as (_ & B & _ & T & _).
  destruct (record_callback_time_keeps t (timestamps (g_preMainData g)))
    as (_ & C & _).
  destruct (callback_keeps_basis t p s g Hn Hd) as [Hn' Hd'].
  unfold recording. split_and!.
  - rewrite length_app. cbn [length].
    replace (Z.of_nat (length evs + 1)) with (Z.of_nat (length evs) + 1)
      by lia.
    apply counting_step; try assumption; lia.
  - apply (step_shape cap numer denom g (EvImageAdded t p s) Hcap Hs).
  - rewrite T, C. exact Hctor.
  - exact Hn'.
  - exact Hd'.
  - intros i e Hi. rewrite B, Hidx, Nat2Z.id.
    pose proof Hs as (Hlen & Hall & _).
    destruct (decide (i = length evs)) as [->|Hne].
    + rewrite list_lookup_insert_eq by lia.
      rewrite lookup_app_r, Nat.sub_diag in Hi by lia.
      injection Hi as <-.
      eexists. split; [reflexivity|].
      unfold event_record, callback_info.
      cbn [loadMachTime slide isSystemLibrary loadDurationNanos name fst snd].
      rewrite fill_is_system_spec, (callback_nanos_on_basis t _ Hn Hd), Hctor.
      split_and!; try reflexivity.
      assert (Hold : name_terminated
                       (default zero_info
                          (g_dylibLoadInfos g !! Z.to_nat (g_dylibIndex g)))).
      { destruct (g_dylibLoadInfos g !! Z.to_nat (g_dylibIndex g))
          as [r|] eqn:E.
        - cbn. rewrite Forall_lookup in Hall. exact (Hall _ _ E).
        - apply zero_info_terminated. }
      destruct Hold as [H1 H2]. apply fill_name_content; assumption.
    + rewrite list_lookup_insert_ne by lia.
      apply Hrec.
      apply lookup_lt_Some in Hi as Hli. rewrite length_app in Hli.
      cbn [length] in Hli.
      rewrite lookup_app_l in Hi by lia. exact Hi.
Qed.

Lemma map_image_event_snoc evs e :
  map image_event (evs ++ [e]) = map image_event evs ++ [image_event e].
Proof. apply map_app. Qed.

Lemma recording_run machNow sysctl evs :
  0 <= cap -> Z.of_nat (length evs) <= cap ->
  Z.of_nat (length evs) < 2 ^ 32 ->
  recording cap numer denom machNow evs
    (run cap numer denom (EvInit machNow sysctl :: map image_event evs)
       (initial_globals cap)).
Proof.
  intros Hcap. induction evs as [|[[t p] s] evs IH] using rev_ind;
    intros Hle Hfit.
  - rewrite run_cons. cbn [map run fold_left step].
    destruct (init_fresh cap numer denom machNow sysctl Hcap) as (Hc & _).
    unfold recording. split_and!; try reflexivity.
    + exact Hc.
    + apply (step_shape cap numer denom _ (EvInit machNow sysctl) Hcap).
      apply initial_shape, Hcap.
    + intros i e Hi. discriminate.
  - rewrite length_app in Hle, Hfit. cbn [length] in Hle, Hfit.
    rewrite map_image_event_snoc, app_comm_cons, run_app.
    cbn [run fold_left step image_event fst snd].
    apply recording_step; try lia. apply IH; lia.
Qed.

(** X10.  On a fresh process, image events delivered with detail
    recording on, no more of them than the ledger has slots, are recorded
    in load order: [dylibCount] is their number, and
    [DPPreMainGetDylibInfo i] is the record of the [i]-th event, with
    its clock reading, its slide, the prefix classification of its path,
    the time since the constructor converted to nanoseconds (0 when the
    constructor time is 0), and the first 255 characters of its file
    name. *)
Theorem image_events_are_recorded_in_load_order machNow sysctl evs :
  0 <= cap -> Z.of_nat (length evs) <= cap ->
  Z.of_nat (length evs) < 2 ^ 32 ->
  let g := run cap numer denom (EvInit machNow sysctl :: map image_event evs)
             (initial_globals cap) in
  dylibCount (DPPreMainGetData g) = Z.of_nat (length evs) /\
  (forall i e,
     evs !! i = Some e ->
     exists r,
       DPPreMainGetDylibInfo cap (Z.of_nat i) g = Some r /\
       event_record numer denom machNow e r) /\
  DPPreMainGetDylibInfo cap (Z.of_nat (length evs)) g = None.
Proof.
  intros Hcap Hle Hfit g.
  destruct (recording_run machNow sysctl evs Hcap Hle Hfit)
    as ((_ & _ & Hcnt & _) & _ & _ & _ & _ & Hrec).
  fold g in Hcnt, Hrec. rewrite Z.min_l in Hcnt by lia.
  unfold DPPreMainGetData. split_and!.
  - exact Hcnt.
  - intros i e Hi. destruct (Hrec i e Hi) as (r & Hr & Her).
    exists r. split; [|exact Her].
    apply lookup_lt_Some in Hi as Hli.
    unfold DPPreMainGetDylibInfo. rewrite Hcnt.
    destruct (Z.geb_spec (Z.of_nat i) (Z.of_nat (length evs))); [lia|].
    destruct (Z.geb_spec (Z.of_nat i) cap); [lia|].
    cbn [orb]. rewrite Nat2Z.id. exact Hr.
  - unfold DPPreMainGetDylibInfo. rewrite Hcnt.
    destruct (Z.geb_spec (Z.of_nat (length evs)) (Z.of_nat (length evs)));
      [reflexivity | lia].
Qed.

End LoadOrder.

(** ** The constructor *)

Section Constructor.

Variable cap numer denom : Z.

Lemma registration_is_a_run loaded g :
  _dyld_register_func_for_add_image cap numer denom loaded g
    = run cap numer denom (map image_event loaded) g.
Proof.
  revert g. induction loaded as [|e loaded IH]; intros g.
  - reflexivity.
  - cbn [map]. rewrite run_cons. cbn [step image_event].
    rewrite <- IH. reflexivity.
Qed.

(** The constructor with the images dyld reports at registration is the
    constructor without any, followed by one image event per reported
    image; a constructor that finds the flag set does nothing. *)
Lemma dp_premain_init_delivers_the_loaded_images t r loaded g :
  dp_premain_init cap numer denom t r loaded g
    = if g_initialized g then g
      else run cap numer denom (EvInit t r :: map image_event loaded) g.
Proof.
  destruct (g_initialized g) eqn:Ei.
  - unfold dp_premain_init. rewrite Ei. reflexivity.
  - rewrite run_cons. cbn [step]. rewrite <- registration_is_a_run.
    unfold dp_premain_init. rewrite Ei. reflexivity.
Qed.

Lemma image_events_frame evs g :
  let g' := run cap numer denom (map image_event evs) g in
  g_initialized g' = g_initialized g /\
  durations (g_preMainData g') = durations (g_preMainData g) /\
  mainExecutedMarked (g_preMainData g')
    = mainExecutedMarked (g_preMainData g) /\
  dylibDetailEnabled (g_preMainData g')
    = dylibDetailEnabled (g_preMainData g) /\
  constructorMachTime (timestamps (g_preMainData g'))
    = constructorMachTime (timestamps (g_preMainData g)) /\
  processStartTimeUnixMicros (timestamps (g_preMainData g'))
    = processStartTimeUnixMicros (timestamps (g_preMainData g)) /\
  mainExecutedMachTime (timestamps (g_preMainData g'))
    = mainExecutedMachTime (timestamps (g_preMainData g)) /\
  objcLoadStartMachTime (timestamps (g_preMainData g'))
    = objcLoadStartMachTime (timestamps (g_preMainData g)) /\
  objcLoadEndMachTime (timestamps (g_preMainData g'))
    = objcLoadEndMachTime (timestamps (g_preMainData g)).
Proof.
  revert g. induction evs as [|e evs IH]; intros g.
  - cbv zeta. cbn [map run fold_left]. repeat split; reflexivity.
  - cbv zeta. cbn [map]. rewrite run_cons. cbn [step image_event].
    destruct (IH (dp_dyld_image_added_callback cap numer denom
                    (fst (fst e)) (snd (fst e)) (snd e) g))
      as (A & B & C & D & E & F & G & H & I).
    rewrite A, B, C, D, E, F, G, H, I.
    destruct (callback_frame cap numer denom
                (fst (fst e)) (snd (fst e)) (snd e) g)
      as (T & Du & M & En & In & _).
    rewrite T, Du, M, En, In.
    destruct (record_callback_time_keeps (fst (fst e))
                (timestamps (g_preMainData g)))
      as (P & Cn & Mn & Os & Oe & _).
    rewrite P, Cn, Mn, Os, Oe. repeat split; reflexivity.
Qed.

Lemma image_events_keep_basis evs g :
  timebaseNumer (g_preMainData g) = numer ->
  timebaseDenom (g_preMainData g) = denom ->
  let d' := g_preMainData (run cap numer denom (map image_event evs) g) in
  timebaseNumer d' = numer /\ timebaseDenom d' = denom.
Proof.
  revert g. induction evs as [|e evs IH]; intros g Hn Hd.
  - split; assumption.
  - cbv zeta. cbn [map]. rewrite run_cons. cbn [step image_event].
    destruct (callback_keeps_basis cap numer denom
                (fst (fst e)) (snd (fst e)) (snd e) g Hn Hd) as [Hn' Hd'].
    exact (IH _ Hn' Hd').
Qed.

(** X7.  The first [dp_premain_init] sets the flag, stores the
    constructor time, the process start time and the clock basis,
    switches detail recording on, and then, through the registration,
    runs the callback for every image already loaded, in load order: the
    state it leaves is the one the constructor without loaded images
    followed by one image event per image leaves.  These callbacks change
    neither what the constructor has just stored nor the entry time, the
    ObjC marks, the entry mark and the durations.  Every later call is a
    no-op, whatever the clock, [sysctl] and dyld answer by then. *)
Theorem dp_premain_init_runs_once t1 r1 loaded t2 r2 loaded2 g :
  g_initialized g = false ->
  let g1 := dp_premain_init cap numer denom t1 r1 loaded g in
  let d := g_preMainData g in
  let d1 := g_preMainData g1 in
  g1 = run cap numer denom (EvInit t1 r1 :: map image_event loaded) g /\
  g_initialized g1 = true /\
  constructorMachTime (timestamps d1) = t1 /\
  processStartTimeUnixMicros (timestamps d1)
    = dp_get_process_start_time_unix_micros r1 /\
  dylibDetailEnabled d1 = true /\
  timebaseNumer d1 = numer /\ timebaseDenom d1 = denom /\
  mainExecutedMachTime (timestamps d1) = mainExecutedMachTime (timestamps d) /\
  objcLoadStartMachTime (timestamps d1)
    = objcLoadStartMachTime (timestamps d) /\
  objcLoadEndMachTime (timestamps d1) = objcLoadEndMachTime (timestamps d) /\
  durations d1 = durations d /\
  mainExecutedMarked d1 = mainExecutedMarked d /\
  dp_premain_init cap numer denom t2 r2 loaded2 g1 = g1.
Proof.
  intros Hini g1 d d1.
  assert (E1 : g1 = run cap numer denom
                      (EvInit t1 r1 :: map image_event loaded) g).
  { subst g1. rewrite dp_premain_init_delivers_the_loaded_images, Hini.
    reflexivity. }
  set (g0 := dp_premain_init cap numer denom t1 r1 [] g).
  assert (E0 : g1 = run cap numer denom (map image_event loaded) g0)
    by (rewrite E1; reflexivity).
  assert (F0 : g_initialized g0 = true /\
               constructorMachTime (timestamps (g_preMainData g0)) = t1 /\
               processStartTimeUnixMicros (timestamps (g_preMainData g0))
                 = dp_get_process_start_time_unix_micros r1 /\
               dylibDetailEnabled (g_preMainData g0) = true /\
               timebaseNumer (g_preMainData g0) = numer /\
               timebaseDenom (g_preMainData g0) = denom /\
               mainExecutedMachTime (timestamps (g_preMainData g0))
                 = mainExecutedMachTime (timestamps d) /\
               objcLoadStartMachTime (timestamps (g_preMainData g0))
                 = objcLoadStartMachTime (timestamps d) /\
               objcLoadEndMachTime (timestamps (g_preMainData g0))
                 = objcLoadEndMachTime (timestamps d) /\
               durations (g_preMainData g0) = durations d /\
               mainExecutedMarked (g_preMainData g0)
                 = mainExecutedMarked d).
  { subst g0 d. unfold dp_premain_init. rewrite Hini. cbn.
    repeat split; reflexivity. }
  destruct F0 as (I0 & C0 & P0 & En0 & N0 & D0 & M0 & Os0 & Oe0 & Du0 & Mk0).
  destruct (image_events_frame loaded g0)
    as (I & Du & Mk & En & C & P & M & Os & Oe).
  destruct (image_events_keep_basis loaded g0 N0 D0) as [N D].
  assert (I1 : g_initialized g1 = true) by (rewrite E0, I; exact I0).
  subst d1. rewrite E0.
  split_and!.
  - rewrite <- E0. exact E1.
  - rewrite I. exact I0.
  - rewrite C. exact C0.
  - rewrite P. exact P0.
  - rewrite En. exact En0.
  - exact N.
  - exact D.
  - rewrite M. exact M0.
  - rewrite Os. exact Os0.
  - rewrite Oe. exact Oe0.
  - rewrite Du. exact Du0.
  - rewrite Mk. exact Mk0.
  - rewrite <- E0. unfold dp_premain_init. rewrite I1. reflexivity.
Qed.

End Constructor.

(** ** Reading the ledger *)

Section Readers.

Variable cap numer denom : Z.

(** X11.  On a well-shaped ledger, [DPPreMainGetAllDylibs] with a buffer
    of at least [bufferSize > 0] records returns
    [k = min dylibCount bufferSize]; the first [k] records of the buffer
    are then the ledger's, in load order, each the one
    [DPPreMainGetDylibInfo] returns for that index, and the rest of the
    buffer is as the caller left it.  A null buffer or a zero size
    returns 0 and writes nothing. *)
Theorem DPPreMainGetAllDylibs_copies_the_published_prefix g buf n :
  ledger_shape cap g ->
  0 < n -> (Z.to_nat n <= length buf)%nat ->
  let k := fst (DPPreMainGetAllDylibs cap (Some buf) n g) in
  k = Z.min (dylibCount (g_preMainData g)) n /\
  (exists out,
     snd (DPPreMainGetAllDylibs cap (Some buf) n g) = Some out /\
     length out = length buf /\
     (forall i, (i < Z.to_nat k)%nat ->
        out !! i = g_dylibLoadInfos g !! i /\
        out !! i = DPPreMainGetDylibInfo cap (Z.of_nat i) g /\
        is_Some (out !! i)) /\
     (forall i, (Z.to_nat k <= i)%nat -> out !! i = buf !! i)) /\
  DPPreMainGetAllDylibs cap None n g = (0, None) /\
  DPPreMainGetAllDylibs cap (Some buf) 0 g = (0, Some buf).
Proof.
  intros (Hlen & _ & Hcnt & _) Hn Hbuf k.
  assert (Ek : k = Z.min (dylibCount (g_preMainData g)) n).
  { subst k. rewrite GetAll_count by exact Hn. lia. }
  assert (Eres : DPPreMainGetAllDylibs cap (Some buf) n g
                 = (k, Some (memcpy buf (g_dylibLoadInfos g) (Z.to_nat k)))).
  { subst k. unfold DPPreMainGetAllDylibs.
    destruct (Z.eqb_spec n 0); [lia | reflexivity]. }
  assert (Hk : (Z.to_nat k <= length (g_dylibLoadInfos g))%nat)
    by (rewrite Hlen; lia).
  assert (Hkb : (Z.to_nat k <= length buf)%nat) by lia.
  assert (Htake : length (take (Z.to_nat k) (g_dylibLoadInfos g))
                  = Z.to_nat k) by (apply length_take_le, Hk).
  rewrite Eres. cbn [snd]. split_and!; try reflexivity.
  - exact Ek.
  - exists (memcpy buf (g_dylibLoadInfos g) (Z.to_nat k)). unfold memcpy.
    split_and!.
    + reflexivity.
    + rewrite length_app, Htake, length_drop. lia.
    + intros i Hi.
      assert (E : (take (Z.to_nat k) (g_dylibLoadInfos g)
                   ++ drop (Z.to_nat k) buf) !! i
                  = g_dylibLoadInfos g !! i).
      { rewrite lookup_app_l by lia. apply lookup_take_lt, Hi. }
      rewrite E. split_and!.
      * reflexivity.
      * unfold DPPreMainGetDylibInfo.
        destruct (Z.geb_spec (Z.of_nat i) (dylibCount (g_preMainData g)));
          [lia|].
        destruct (Z.geb_spec (Z.of_nat i) cap); [lia|].
        cbn [orb]. rewrite Nat2Z.id. reflexivity.
      * apply lookup_lt_is_Some. lia.
    + intros i Hi. rewrite lookup_app_r by lia. rewrite Htake, lookup_drop.
      f_equal. lia.
Qed.

(** X12.  In every reachable state [dylibCount] is within the capacity,
    so an index is refused exactly when it is not below [dylibCount]:
    [DPPreMainGetDylibInfo] returns a record, with a NUL-terminated
    name, for [0 <= i < dylibCount] and null from [dylibCount] on. *)
Theorem DPPreMainGetDylibInfo_answers_below_dylibCount g i :
  0 <= cap -> reachable cap numer denom g -> 0 <= i ->
  dylibCount (g_preMainData g) <= cap /\
  (i < dylibCount (g_preMainData g) ->
   exists r, DPPreMainGetDylibInfo cap i g = Some r /\ name_terminated r) /\
  (dylibCount (g_preMainData g) <= i ->
   DPPreMainGetDylibInfo cap i g = None).
Proof.
  intros Hcap Hreach Hi.
  destruct (reachable_shape cap numer denom g Hcap Hreach)
    as (Hlen & Hall & Hcnt & _).
  split_and!; [lia | |].
  - intros Hlt. unfold DPPreMainGetDylibInfo.
    destruct (Z.geb_spec i (dylibCount (g_preMainData g))); [lia|].
    destruct (Z.geb_spec i cap); [lia|]. cbn [orb].
    destruct (lookup_lt_is_Some_2 (g_dylibLoadInfos g) (Z.to_nat i)
                ltac:(rewrite Hlen; lia)) as [r Hr].
    exists r. split; [exact Hr|].
    rewrite Forall_lookup in Hall. exact (Hall _ _ Hr).
  - intros Hge. unfold DPPreMainGetDylibInfo.
    destruct (Z.geb_spec i (dylibCount (g_preMainData g)));
      [reflexivity | lia].
Qed.

End Readers.

(** ** The kernel estimate *)

Section KernelEstimate.

Variable cap numer denom : Z.

Lemma calc_kernel_clamps now_tv machNow d :
  estimate_not_negative d ->
  estimate_not_negative (calc_kernel numer denom now_tv machNow d).
Proof.
  unfold estimate_not_negative.
  destruct d as [[ps c f l mn os oe] dur cnt sys usr marked en n m].
  unfold calc_kernel, DPMachTimeToNanos, dp_initialize_timebase.
  cbn [timestamps durations processStartTimeUnixMicros constructorMachTime
       timebaseDenom timebaseNumer].
  intros H. destruct (ps >? 0); [|exact H].
  destruct (m =? 0);
    cbn [timebaseDenom timebaseNumer set_timebase with_durations durations
         set_estimatedKernel estimatedKernelToConstructorMs];
    match goal with
    | |- double_ltb (if ?b then _ else _) _ = false =>
        destruct b eqn:E; [reflexivity | exact E]
    end.
Qed.

Lemma calculate_keeps_estimate_sign now_tv machNow d :
  estimate_not_negative d ->
  estimate_not_negative
    (dp_calculate_durations numer denom now_tv machNow d).
Proof.
  intros H. unfold dp_calculate_durations.
  destruct (negb (mainExecutedMarked d)
            || (mainExecutedMachTime (timestamps d) =? 0)); [exact H|].
  apply calc_kernel_clamps. unfold estimate_not_negative in *.
  destruct (calc_total_effect numer denom d) as [_ D1].
  set (d1 := calc_total numer denom d) in *.
  destruct (calc_dylib_effect numer denom d1) as [_ D2].
  set (d2 := calc_dylib numer denom d1) in *.
  destruct (calc_objc_effect numer denom d2) as [_ D3].
  set (d3 := calc_objc numer denom d2) in *.
  destruct (calc_static_effect numer denom d3) as [_ D4].
  set (d4 := calc_static numer denom d3) in *.
  destruct (calc_post_effect numer denom d4) as [_ D5].
  rewrite D5, D4, D3, D2, D1.
  repeat match goal with
         | |- context [if ?b then _ else _] => destruct b
         end; exact H.
Qed.

(** X13.  In every reachable state the kernel-to-constructor estimate is
    not negative: the calculator replaces a negative difference by 0,
    and nothing else writes the field. *)
Theorem kernel_estimate_is_never_negative es :
  let g := run cap numer denom es (initial_globals cap) in
  double_ltb
    (estimatedKernelToConstructorMs (durations (DPPreMainGetData g)))
    double_zero = false.
Proof.
  cbv zeta. unfold DPPreMainGetData.
  change (estimate_not_negative
            (g_preMainData (run cap numer denom es (initial_globals cap)))).
  assert (H0 : estimate_not_negative (g_preMainData (initial_globals cap)))
    by reflexivity.
  revert H0. generalize (initial_globals cap).
  induction es as [|e es IH]; intros g Hg; [exact Hg|].
  rewrite run_cons. apply IH.
  destruct e as [t r|t p s|t tv t'|t|t|b|t|]; cbn [step].
  - unfold dp_premain_init. destruct (g_initialized g); exact Hg.
  - unfold estimate_not_negative.
    destruct (callback_frame cap numer denom t p s g) as (_ & -> & _).
    exact Hg.
  - unfold DPPreMainMarkMainExecuted.
    destruct (negb (mainExecutedMarked (g_preMainData g))); [|exact Hg].
    cbn [with_data g_preMainData].
    apply calculate_keeps_estimate_sign. exact Hg.
  - unfold DPPreMainMarkObjCLoadStart. destruct (_ =? 0); exact Hg.
  - unfold DPPreMainMarkObjCLoadEnd. destruct (_ =? 0); exact Hg.
  - exact Hg.
  - unfold estimate_not_negative.
    cbn [with_data g_preMainData snd DPMachTimeToNanos].
    change (if timebaseDenom (g_preMainData g) =? 0
            then dp_initialize_timebase numer denom (g_preMainData g)
            else g_preMainData g)
      with (effective_basis numer denom (g_preMainData g)).
    rewrite effective_basis_durations. exact Hg.
  - reflexivity.
Qed.

End KernelEstimate.

(** ** After a reset *)

Section AfterReset.

Variable cap numer denom : Z.

Lemma gtb_zero_false : (0 >? 0) = false.
Proof. reflexivity. Qed.

Lemma step_constructor_lost g e :
  constructor_lost g -> constructor_lost (step cap numer denom g e).
Proof.
  intros Hl. pose proof Hl as (Hi & Hc & Hp & Ht & Hs & He & Hall).
  destruct e as [t r|t p s|t tv t'|t|t|b|t|]; cbn [step].
  - unfold dp_premain_init. rewrite Hi. exact Hl.
  - destruct (callback_frame cap numer denom t p s g)
      as (T & D & _ & _ & I & _).
    destruct (record_callback_time_keeps t (timestamps (g_preMainData g)))
      as (P & C & _).
    unfold constructor_lost. rewrite T, D, I, P, C.
    split_and!; try assumption.
    destruct (dylibDetailEnabled (g_preMainData g)) eqn:En;
      [destruct (Z_lt_dec (g_dylibIndex g) cap) as [Hlt|Hge]|].
    + destruct (callback_record cap numer denom t p s g En Hlt)
        as (_ & -> & _).
      apply Forall_insert; [exact Hall|].
      cbn [callback_info loadDurationNanos]. unfold callback_nanos.
      rewrite Hc. reflexivity.
    + rewrite callback_skip by (right; lia). exact Hall.
    + rewrite callback_skip by (left; exact En). exact Hall.
  - unfold DPPreMainMarkMainExecuted.
    destruct (mainExecutedMarked (g_preMainData g)); [exact Hl|].
    cbn [negb]. unfold constructor_lost.
    cbn [with_data g_preMainData g_initialized g_dylibLoadInfos].
    set (d1 := set_mainExecutedMarked true
                 (with_timestamps (set_mainExecuted t) (g_preMainData g))).
    destruct (calculate_same numer denom tv t' d1) as (Ets & _).
    rewrite Ets.
    assert (Hc1 : constructorMachTime (timestamps d1) = 0) by exact Hc.
    assert (Hp1 : processStartTimeUnixMicros (timestamps d1) = 0)
      by exact Hp.
    split_and!; try assumption.
    all: destruct (Z.eq_dec (mainExecutedMachTime (timestamps d1)) 0)
           as [E|E];
      [rewrite calculate_unmarked by (right; exact E); assumption|];
      destruct (calculate_fields numer denom tv t' d1 eq_refl E)
        as (Ft & _ & _ & Fs & _ & Fk);
      rewrite Hc1, Hp1, gtb_zero_false in *; cbn [andb] in *.
    + rewrite Ft. exact Ht.
    + rewrite Fs. exact Hs.
    + rewrite (Fk eq_refl). exact He.
  - unfold DPPreMainMarkObjCLoadStart. destruct (_ =? 0); exact Hl.
  - unfold DPPreMainMarkObjCLoadEnd. destruct (_ =? 0); exact Hl.
  - exact Hl.
  - unfold constructor_lost.
    cbn [with_data g_preMainData snd DPMachTimeToNanos g_initialized
         g_dylibLoadInfos].
    change (if timebaseDenom (g_preMainData g) =? 0
            then dp_initialize_timebase numer denom (g_preMainData g)
            else g_preMainData g)
      with (effective_basis numer denom (g_preMainData g)).
    rewrite effective_basis_durations.
    destruct (effective_basis_same numer denom (g_preMainData g))
      as (-> & _).
    exact Hl.
  - unfold constructor_lost, DPPreMainReset. cbn.
    split_and!; try reflexivity; try assumption.
    apply Forall_replicate. reflexivity.
Qed.

(** X14.  [DPPreMainReset] clears the constructor and process start
    times but not the flag that keeps [dp_premain_init] from running
    again.  So once the constructor has run, whatever is called after a
    reset, the constructor time stays unset: every record written later
    has [loadDurationNanos = 0], and marking the entry leaves
    [totalPreMainMs], [staticInitializerMs] and the kernel estimate
    at 0. *)
Theorem constructor_time_is_lost_by_reset g es :
  g_initialized g = true ->
  let g' := run cap numer denom es (DPPreMainReset cap numer denom g) in
  let d' := DPPreMainGetData g' in
  constructorMachTime (timestamps d') = 0 /\
  processStartTimeUnixMicros (timestamps d') = 0 /\
  totalPreMainMs (durations d') = double_zero /\
  staticInitializerMs (durations d') = double_zero /\
  estimatedKernelToConstructorMs (durations d') = double_zero /\
  Forall (fun r => loadDurationNanos r = 0) (g_dylibLoadInfos g').
Proof.
  intros Hi g' d'.
  assert (H : constructor_lost g').
  { subst g'.
    assert (H0 : constructor_lost (DPPreMainReset cap numer denom g)).
    { unfold constructor_lost, DPPreMainReset. cbn.
      split_and!; try reflexivity; [exact Hi|].
      apply Forall_replicate. reflexivity. }
    revert H0. generalize (DPPreMainReset cap numer denom g).
    induction es as [|e es IH]; intros g0 H0; [exact H0|].
    rewrite run_cons. apply IH, step_constructor_lost, H0. }
  destruct H as (_ & Hc & Hp & Ht & Hs & He & Hall).
  subst d'. unfold DPPreMainGetData. split_and!; assumption.
Qed.

End AfterReset.

(** ** The ObjC load phase *)

Section ObjCPhase.

Variable cap numer denom : Z.

(** X15.  When the ObjC start and end marks are set, in that order, on a
    state where neither was set and the entry is not yet marked, and the
    entry is then marked with a non-zero clock reading, [objcLoadMs] is
    the conversion of the interval between the two marks; with an
    initialised clock basis and a product that fits in 64 bits it is
    [(end - start) * numer / denom] nanoseconds over 1e6. *)
Theorem objc_load_phase_is_measured t1 t2 mainMachTime now_tv machNow g :
  objcLoadStartMachTime (timestamps (g_preMainData g)) = 0 ->
  objcLoadEndMachTime (timestamps (g_preMainData g)) = 0 ->
  mainExecutedMarked (g_preMainData g) = false ->
  0 < timebaseDenom (g_preMainData g) ->
  0 < timebaseNumer (g_preMainData g) ->
  0 < t1 -> t1 <= t2 -> mainMachTime <> 0 ->
  (t2 - t1) * timebaseNumer (g_preMainData g) < 2 ^ 64 ->
  let g' := DPPreMainMarkMainExecuted numer denom mainMachTime now_tv machNow
              (DPPreMainMarkObjCLoadEnd t2
                 (DPPreMainMarkObjCLoadStart t1 g)) in
  objcLoadMs (durations (DPPreMainGetData g'))
    = nanos_to_millis
        ((t2 - t1) * timebaseNumer (g_preMainData g)
         / timebaseDenom (g_preMainData g)).
Proof.
  intros Hs He Hm Hd Hn Ht1 Ht2 Hmain Hfit g'. subst g'.
  unfold DPPreMainMarkObjCLoadStart. rewrite Hs. cbn [Z.eqb].
  unfold DPPreMainMarkObjCLoadEnd.
  cbn [with_data g_preMainData with_timestamps timestamps set_objcLoadStart
       objcLoadEndMachTime].
  rewrite He. cbn [Z.eqb].
  unfold DPPreMainMarkMainExecuted, DPPreMainGetData.
  cbn [with_data g_preMainData with_timestamps mainExecutedMarked].
  rewrite Hm. cbn [negb with_data g_preMainData].
  set (d1 := set_mainExecutedMarked true _).
  assert (Emain : mainExecutedMachTime (timestamps d1) <> 0) by exact Hmain.
  destruct (calculate_fields numer denom now_tv machNow d1 eq_refl Emain)
    as (_ & _ & Fo & _).
  rewrite Fo.
  change (objcLoadStartMachTime (timestamps d1)) with t1.
  change (objcLoadEndMachTime (timestamps d1)) with t2.
  rewrite (gtb_pos t1), (gtb_pos t2) by lia. cbn [andb].
  rewrite effective_basis_initialized
    by (change (timebaseDenom d1) with (timebaseDenom (g_preMainData g)); lia).
  unfold ticks_to_millis, ticks_to_nanos.
  change (timebaseNumer d1) with (timebaseNumer (g_preMainData g)).
  change (timebaseDenom d1) with (timebaseDenom (g_preMainData g)).
  rewrite (u64_small (t2 - t1)) by nia.
  rewrite u64_small by nia. reflexivity.
Qed.

End ObjCPhase.

(** ** Slots and durations along a run *)

Section SlotsAndDurations.

Variable cap numer denom : Z.


(** X17.  [loadDurationNanos] is the time since the constructor, so it
    grows with the load order: on a fresh process with a non-zero
    constructor reading, an initialised clock basis and products that fit
    in 64 bits, a record whose event read the clock later has a duration
    at least as large. *)
Theorem later_events_have_larger_durations machNow sysctl evs i j ei ej :
  0 <= cap -> Z.of_nat (length evs) <= cap ->
  Z.of_nat (length evs) < 2 ^ 32 ->
  0 < denom -> 0 <= numer -> 0 < machNow ->
  evs !! i = Some ei -> evs !! j = Some ej ->
  machNow <= fst (fst ei) -> fst (fst ei) <= fst (fst ej) ->
  (fst (fst ej) - machNow) * numer < 2 ^ 64 ->
  fst (fst ej) - machNow < 2 ^ 64 ->
  let g := run cap numer denom (EvInit machNow sysctl :: map image_event evs)
             (initial_globals cap) in
  exists ri rj,
    g_dylibLoadInfos g !! i = Some ri /\
    g_dylibLoadInfos g !! j = Some rj /\
    loadDurationNanos ri <= loadDurationNanos rj.
Proof.
  intros Hcap Hle Hfit Hd Hn Hm Hi Hj Hti Htij Hprod Hsub g.
  destruct (recording_run cap numer denom machNow sysctl evs Hcap Hle Hfit)
    as (_ & _ & _ & _ & _ & Hrec).
  fold g in Hrec.
  destruct (Hrec i ei Hi) as (ri & Hri & _ & _ & _ & Di & _).
  destruct (Hrec j ej Hj) as (rj & Hrj & _ & _ & _ & Dj & _).
  exists ri, rj. split_and!; [exact Hri | exact Hrj |].
  rewrite Di, Dj, (gtb_pos machNow Hm).
  rewrite (u64_small (fst (fst ei) - machNow)) by lia.
  rewrite (u64_small (fst (fst ej) - machNow)) by lia.
  rewrite (u64_small ((fst (fst ei) - machNow) * numer)) by nia.
  rewrite (u64_small ((fst (fst ej) - machNow) * numer)) by nia.
  apply Z.div_le_mono; [lia | nia].
Qed.

End SlotsAndDurations.

(** ** Which records the top-N query selects *)

Section Selection.

Variable cap : Z.
Variable qsort :
  (DPDylibLoadInfo -> DPDylibLoadInfo -> Z) ->
  list DPDylibLoadInfo -> list DPDylibLoadInfo.

(** X18.  The records [DPPreMainGetSlowestDylibs] returns are published
    records, and they are the slowest ones: together with the records it
    leaves out they make up the published ledger, and no record left out
    took longer than a returned one.  Asking for at least as many records
    as are published returns all of them, and the caller's buffer is left
    alone beyond the returned count. *)
Theorem DPPreMainGetSlowestDylibs_selects_the_slowest g buf n :
  qsort_sorts qsort ->
  ledger_shape cap g ->
  0 < n ->
  (Z.to_nat n <= length buf)%nat ->
  let published :=
    take (Z.to_nat (dylibCount (g_preMainData g))) (g_dylibLoadInfos g) in
  let res := DPPreMainGetSlowestDylibs cap qsort true (Some buf) n g in
  exists out left_out,
    snd res = Some out /\
    take (Z.to_nat (fst res)) out ++ left_out ≡ₚ published /\
    (forall o r,
       o ∈ take (Z.to_nat (fst res)) out -> r ∈ left_out ->
       loadDurationNanos r <= loadDurationNanos o) /\
    (dylibCount (g_preMainData g) <= n -> left_out = []) /\
    length out = length buf /\
    drop (Z.to_nat (fst res)) out = drop (Z.to_nat (fst res)) buf.
Proof.
  intros Hq (Hlen & _ & Hcnt & _) Hn Hbuf published res.
  set (T := dylibCount (g_preMainData g)) in *.
  assert (Etot : (if T >? cap then cap else T) = T).
  { destruct (Z.gtb_spec T cap); [lia | reflexivity]. }
  assert (Ek : (if n <? T then n else T) = Z.min n T).
  { destruct (Z.ltb_spec n T); lia. }
  assert (En : (n =? 0) = false) by (apply Z.eqb_neq; lia).
  set (sorted := qsort dp_compare_dylib_by_duration published).
  set (k := Z.to_nat (Z.min n T)).
  assert (Eres : res = (Z.min n T, Some (memcpy buf sorted k))).
  { subst res. unfold DPPreMainGetSlowestDylibs. rewrite En.
    fold T. rewrite Etot. cbn [negb]. fold published. fold sorted.
    rewrite Ek. reflexivity. }
  destruct (Hq published) as [Hperm Hsorted].
  fold sorted in Hperm, Hsorted.
  assert (Hslen : length sorted = Z.to_nat T).
  { rewrite Hperm. subst published. rewrite length_take_le; [reflexivity|].
    rewrite Hlen. lia. }
  assert (Hk : (k <= length sorted)%nat) by (subst k; rewrite Hslen; lia).
  assert (Hkb : (k <= length buf)%nat) by (subst k; lia).
  assert (Etake : take k (memcpy buf sorted k) = take k sorted).
  { unfold memcpy. apply take_app_length'.
    rewrite length_take_le by exact Hk. reflexivity. }
  rewrite Eres. cbn [fst snd]. fold k.
  exists (memcpy buf sorted k), (drop k sorted).
  split_and!.
  - reflexivity.
  - rewrite Etake, take_drop. exact Hperm.
  - intros o r Ho Hr. rewrite Etake in Ho.
    apply list_elem_of_lookup in Ho as [i Hi].
    apply list_elem_of_lookup in Hr as [j Hj].
    apply lookup_take_Some in Hi as [Hi Hik].
    rewrite lookup_drop in Hj.
    assert (Hc : dp_compare_dylib_by_duration o r <= 0).
    { apply (StronglySorted_lookup _ sorted i (k + j) o r Hsorted);
        [lia | exact Hi | exact Hj]. }
    apply compare_le_0 in Hc. lia.
  - intros HT. apply drop_ge. subst k. rewrite Hslen. lia.
  - unfold memcpy. rewrite length_app, length_take_le by exact Hk.
    rewrite length_drop. lia.
  - unfold memcpy. apply drop_app_length'.
    rewrite length_take_le by exact Hk. reflexivity.
Qed.

End Selection.

(** ** Instances of the further properties *)

Lemma process_start_micros_keeps_the_timeval_witness :
  let m := dp_get_process_start_time_unix_micros
             (Some (1700000000, 250000)) in
  m = 1700000000 * 1000000 + 250000 /\
  m / 1000000 = 1700000000 /\
  m mod 1000000 = 250000 /\
  dp_get_process_start_time_unix_micros None = 0.
Proof.
  apply (process_start_micros_keeps_the_timeval 1700000000 250000);
    at_the_instance.
Defined.

Lemma DPMachTimeToNanos_monotone_witness :
  let d := marked_snapshot 125 3 zero_timestamps in
  fst (DPMachTimeToNanos 125 3 1200 d) <= fst (DPMachTimeToNanos 125 3 6000 d)
  /\
  (timebaseNumer d = 1 -> timebaseDenom d = 1 ->
   fst (DPMachTimeToNanos 125 3 6000 d) = 6000).
Proof.
  apply (DPMachTimeToNanos_monotone 125 3 1200 6000
           (marked_snapshot 125 3 zero_timestamps)); at_the_instance.
Defined.

Lemma dp_premain_init_runs_once_witness :
  let g := initial_globals 4 in
  let loaded := [(1100, Some path_libSystem, 0);
                 (1200, Some path_app, 4096)] in
  let g1 := dp_premain_init 4 125 3 1000 (Some (1700000000, 250000))
              loaded g in
  let d := g_preMainData g in
  let d1 := g_preMainData g1 in
  g1 = run 4 125 3
         (EvInit 1000 (Some (1700000000, 250000)) :: map image_event loaded)
         g /\
  g_initialized g1 = true /\
  constructorMachTime (timestamps d1) = 1000 /\
  processStartTimeUnixMicros (timestamps d1)
    = dp_get_process_start_time_unix_micros (Some (1700000000, 250000)) /\
  dylibDetailEnabled d1 = true /\
  timebaseNumer d1 = 125 /\ timebaseDenom d1 = 3 /\
  mainExecutedMachTime (timestamps d1) = mainExecutedMachTime (timestamps d) /\
  objcLoadStartMachTime (timestamps d1)
    = objcLoadStartMachTime (timestamps d) /\
  objcLoadEndMachTime (timestamps d1) = objcLoadEndMachTime (timestamps d) /\
  durations d1 = durations d /\
  mainExecutedMarked d1 = mainExecutedMarked d /\
  dp_premain_init 4 125 3 2000 None [(2100, None, 0)] g1 = g1.
Proof.
  apply (dp_premain_init_runs_once 4 125 3 1000 (Some (1700000000, 250000))
           [(1100, Some path_libSystem, 0); (1200, Some path_app, 4096)]
           2000 None [(2100, None, 0)] (initial_globals 4)).
  at_the_instance.
Defined.

(** The constructor of that instance leaves two records in the ledger,
    both with the time since the constructor as their duration. *)
Lemma constructor_with_two_loaded_images :
  let g1 := dp_premain_init 4 125 3 1000 (Some (1700000000, 250000))
              [(1100, Some path_libSystem, 0); (1200, Some path_app, 4096)]
              (initial_globals 4) in
  dylibCount (DPPreMainGetData g1) = 2 /\
  (loadDurationNanos <$> DPPreMainGetDylibInfo 4 0 g1) = Some 4166 /\
  (loadDurationNanos <$> DPPreMainGetDylibInfo 4 1 g1) = Some 8333 /\
  firstDyldCallbackMachTime (timestamps (DPPreMainGetData g1)) = 1100 /\
  lastDyldCallbackMachTime (timestamps (DPPreMainGetData g1)) = 1200.
Proof. repeat split; by_evaluation. Qed.

Lemma one_shot_values_are_kept_witness :
  let g := run 4 1 1
             (started ++ [EvImageAdded 1100 (Some path_libSystem) 0;
                          EvMarkObjCLoadStart 1150;
                          EvMarkMainExecuted 1600 (1700000001, 0) 1600])
             (initial_globals 4) in
  let e := EvMarkMainExecuted 9000 (1700000009, 0) 9000 in
  let d := g_preMainData g in
  let d' := g_preMainData (step 4 1 1 g e) in
  mainExecutedMarked d = true /\
  mainExecutedMachTime (timestamps d') = 1600 /\
  durations d' = durations d /\
  objcLoadStartMachTime (timestamps d') = 1150 /\
  firstDyldCallbackMachTime (timestamps d') = 1100.
Proof.
  intros g e d d'.
  destruct (one_shot_values_are_kept 4 1 1 g e ltac:(discriminate))
    as (F & Os & _ & M & _).
  assert (Em : mainExecutedMarked d = true) by at_the_instance.
  destruct (M Em) as (_ & Mt & Md).
  split_and!.
  - exact Em.
  - subst d'. rewrite Mt. at_the_instance.
  - exact Md.
  - subst d'. rewrite Os; at_the_instance.
  - subst d'. rewrite F; at_the_instance.
Defined.

Lemma first_and_last_callback_times_witness :
  let evs := [(1100, Some path_libSystem, 0); (1200, None, 8);
              (1300, Some path_app, 4096)] in
  let g := run 2 1 1 started (initial_globals 2) in
  let ts' := timestamps (g_preMainData (run 2 1 1 (map image_event evs) g)) in
  lastDyldCallbackMachTime ts' = 1300 /\
  firstDyldCallbackMachTime ts' = 1100.
Proof.
  intros evs g.
  destruct (first_and_last_callback_times 2 1 1 evs g
              ltac:(repeat constructor; discriminate)) as [L F].
  cbv zeta. split.
  - rewrite L. at_the_instance.
  - rewrite F. at_the_instance.
Defined.

Lemma image_events_are_recorded_in_load_order_witness :
  let evs := [(1100, Some path_libSystem, 0); (1200, None, 8);
              (1300, Some path_app, 4096)] in
  let g := run 4 125 3 (EvInit 1000 None :: map image_event evs)
             (initial_globals 4) in
  dylibCount (DPPreMainGetData g) = 3 /\
  (exists r,
     DPPreMainGetDylibInfo 4 2 g = Some r /\
     event_record 125 3 1000 (1300, Some path_app, 4096) r) /\
  DPPreMainGetDylibInfo 4 3 g = None.
Proof.
  intros evs g.
  destruct (image_events_are_recorded_in_load_order 4 125 3 1000 None evs
              ltac:(at_the_instance) ltac:(at_the_instance) ltac:(at_the_instance))
    as (A & B & C).
  split_and!.
  - exact A.
  - exact (B 2%nat (1300, Some path_app, 4096) eq_refl).
  - exact C.
Defined.

Lemma three_records_of_a_fresh_process :
  let g := run 4 125 3
             (EvInit 1000 None
              :: map image_event
                   [(1100, Some path_libSystem, 0); (1200, None, 8);
                    (1300, Some path_app, 4096)])
             (initial_globals 4) in
  (c_str <$> (name <$> DPPreMainGetDylibInfo 4 0 g))
    = Some (cstring "libSystem.B.dylib") /\
  (isSystemLibrary <$> DPPreMainGetDylibInfo 4 0 g) = Some true /\
  (c_str <$> (name <$> DPPreMainGetDylibInfo 4 1 g))
    = Some (cstring "unknown") /\
  (isSystemLibrary <$> DPPreMainGetDylibInfo 4 1 g) = Some false /\
  (c_str <$> (name <$> DPPreMainGetDylibInfo 4 2 g))
    = Some (cstring "Demo") /\
  (loadDurationNanos <$> DPPreMainGetDylibInfo 4 2 g) = Some 12500.
Proof. repeat split; at_the_instance. Qed.

Lemma DPPreMainGetAllDylibs_copies_the_published_prefix_witness :
  let g := run 4 1 1
             (started ++ [EvImageAdded 1100 (Some path_libSystem) 0;
                          EvImageAdded 1200 (Some path_app) 0])
             (initial_globals 4) in
  let buf := [a_record 7; a_record 8; a_record 9] in
  let k := fst (DPPreMainGetAllDylibs 4 (Some buf) 3 g) in
  k = Z.min (dylibCount (g_preMainData g)) 3 /\
  (exists out,
     snd (DPPreMainGetAllDylibs 4 (Some buf) 3 g) = Some out /\
     length out = length buf /\
     (forall i, (i < Z.to_nat k)%nat ->
        out !! i = g_dylibLoadInfos g !! i /\
        out !! i = DPPreMainGetDylibInfo 4 (Z.of_nat i) g /\
        is_Some (out !! i)) /\
     (forall i, (Z.to_nat k <= i)%nat -> out !! i = buf !! i)) /\
  DPPreMainGetAllDylibs 4 None 3 g = (0, None) /\
  DPPreMainGetAllDylibs 4 (Some buf) 0 g = (0, Some buf).
Proof.
  intros g buf.
  apply (DPPreMainGetAllDylibs_copies_the_published_prefix 4 g buf 3).
  - apply (reachable_shape 4 1 1); [at_the_instance|].
    eexists. reflexivity.
  - at_the_instance.
  - at_the_instance.
Defined.

Lemma DPPreMainGetDylibInfo_answers_below_dylibCount_witness :
  let g := run 4 1 1
             (started ++ [EvImageAdded 1100 (Some path_libSystem) 0;
                          EvImageAdded 1200 (Some path_app) 0])
             (initial_globals 4) in
  dylibCount (g_preMainData g) <= 4 /\
  (1 < dylibCount (g_preMainData g) ->
   exists r, DPPreMainGetDylibInfo 4 1 g = Some r /\ name_terminated r) /\
  (dylibCount (g_preMainData g) <= 1 -> DPPreMainGetDylibInfo 4 1 g = None).
Proof.
  intros g.
  apply (DPPreMainGetDylibInfo_answers_below_dylibCount 4 1 1 g 1).
  - at_the_instance.
  - eexists. reflexivity.
  - at_the_instance.
Defined.

Lemma constructor_time_is_lost_by_reset_witness :
  let g := run 4 1 1 started (initial_globals 4) in
  let g' := run 4 1 1
              [EvInit 5000 (Some (1700000005, 0));
               EvImageAdded 5100 (Some path_app) 0;
               EvMarkMainExecuted 5600 (1700000006, 0) 5600]
              (DPPreMainReset 4 1 1 g) in
  let d' := DPPreMainGetData g' in
  constructorMachTime (timestamps d') = 0 /\
  processStartTimeUnixMicros (timestamps d') = 0 /\
  totalPreMainMs (durations d') = double_zero /\
  staticInitializerMs (durations d') = double_zero /\
  estimatedKernelToConstructorMs (durations d') = double_zero /\
  Forall (fun r => loadDurationNanos r = 0) (g_dylibLoadInfos g').
Proof.
  intros g.
  apply (constructor_time_is_lost_by_reset 4 1 1 g
           [EvInit 5000 (Some (1700000005, 0));
            EvImageAdded 5100 (Some path_app) 0;
            EvMarkMainExecuted 5600 (1700000006, 0) 5600]).
  at_the_instance.
Defined.

Lemma objc_load_phase_is_measured_witness :
  let g := run 4 125 3 (started ++ [EvImageAdded 1100 (Some path_app) 0])
             (initial_globals 4) in
  let g' := DPPreMainMarkMainExecuted 125 3 1600 (1700000001, 0) 1600
              (DPPreMainMarkObjCLoadEnd 1500
                 (DPPreMainMarkObjCLoadStart 1200 g)) in
  objcLoadMs (durations (DPPreMainGetData g'))
    = nanos_to_millis ((1500 - 1200) * 125 / 3).
Proof.
  intros g.
  apply (objc_load_phase_is_measured 125 3 1200 1500 1600 (1700000001, 0)
           1600 g); at_the_instance.
Defined.


Lemma later_events_have_larger_durations_witness :
  let evs := [(1100, Some path_libSystem, 0); (1200, None, 8);
              (1300, Some path_app, 4096)] in
  let g := run 4 125 3 (EvInit 1000 None :: map image_event evs)
             (initial_globals 4) in
  exists ri rj,
    g_dylibLoadInfos g !! 0%nat = Some ri /\
    g_dylibLoadInfos g !! 2%nat = Some rj /\
    loadDurationNanos ri <= loadDurationNanos rj.
Proof.
  apply (later_events_have_larger_durations 4 125 3 1000 None
           [(1100, Some path_libSystem, 0); (1200, None, 8);
            (1300, Some path_app, 4096)]
           0%nat 2%nat (1100, Some path_libSystem, 0)
           (1300, Some path_app, 4096)); at_the_instance.
Defined.

Lemma DPPreMainGetSlowestDylibs_selects_the_slowest_witness :
  let g := run 4 1 1
             (started ++ [EvImageAdded 1100 (Some path_libSystem) 0;
                          EvImageAdded 1200 (Some path_app) 0;
                          EvImageAdded 1300 None 0])
             (initial_globals 4) in
  let buf := [a_record 7; a_record 8; a_record 9] in
  let published :=
    take (Z.to_nat (dylibCount (g_preMainData g))) (g_dylibLoadInfos g) in
  let res := DPPreMainGetSlowestDylibs 4 merge_qsort true (Some buf) 2 g in
  exists out left_out,
    snd res = Some out /\
    take (Z.to_nat (fst res)) out ++ left_out ≡ₚ published /\
    (forall o r,
       o ∈ take (Z.to_nat (fst res)) out -> r ∈ left_out ->
       loadDurationNanos r <= loadDurationNanos o) /\
    (dylibCount (g_preMainData g) <= 2 -> left_out = []) /\
    length out = length buf /\
    drop (Z.to_nat (fst res)) out = drop (Z.to_nat (fst res)) buf.
Proof.
  intros g buf.
  apply (DPPreMainGetSlowestDylibs_selects_the_slowest 4 merge_qsort g buf 2).
  - exact merge_qsort_sorts.
  - apply (reachable_shape 4 1 1); [at_the_instance|].
    eexists. reflexivity.
  - at_the_instance.
  - at_the_instance.
Defined.

(** In that run the two slowest of the three records are the last two
    loaded, slowest first; the third buffer entry is the caller's own. *)
Lemma slowest_two_of_a_run :
  let g := run 4 1 1
             (started ++ [EvImageAdded 1100 (Some path_libSystem) 0;
                          EvImageAdded 1200 (Some path_app) 0;
                          EvImageAdded 1300 None 0])
             (initial_globals 4) in
  let res := DPPreMainGetSlowestDylibs 4 merge_qsort true
               (Some [a_record 7; a_record 8; a_record 9]) 2 g in
  fst res = 2 /\
  (map loadMachTime <$> snd res) = Some [1300; 1200; loadMachTime (a_record 9)].
Proof. split; by_evaluation. Qed.
